(** * Domoticz Hue emulator: a shallow embedding of [domoticz-hue-emulator.py]

    The development follows the layout of the Python file:
    - [Py]: the fragment of Python the program relies on (JSON values,
      truthiness, numbers, [int], [min]/[max], exceptions);
    - [Registry]: [build_devices_dict];
    - [Domoticz]: class [DomoticzController], each method a state-passing
      function over the controller (login flag and the requests sent so far);
    - [HueAPI]: [HueAPIHandler._control_light];
    - [SSDP]: one turn of the loop of [SSDPResponder._listen];
    - [Routes]: [HueAPIHandler._get_light_state], [_get_all_lights],
      [_handle_api_get], [_handle_api_post] and [_handle_api_put].

    [Observe], [ObserveMore], [Spec], [Example] and [ExampleMore] hold what
    the statements need besides: what is read off a run, the wording of
    the specification, and concrete inputs.  The properties follow, one
    module per component: [Conversions], [RegistryProps], [ControlProps],
    [SSDPProps], [StatusProps] and [Binary64Props]; then [SessionProps],
    [WhiteMixProps], [RegistryMore], [DispatchProps], [StatusMore],
    [RouteProps] and [LightProps].

    Numbers.  Python integers are [Z].  A Python float only ever appears as
    an intermediate value that is handed to [int] at once; it is modelled
    as an exact rational ([Q]): the binary64 rounding of [/] and [*], and the
    [OverflowError] of integers beyond the range of a double, are not part
    of the model.  [Binary64] redoes the conversions in IEEE double
    precision, and [Binary64Props] checks that both agree on the ranges of
    the Hue API.  Every statement that depends on the value of a
    conversion is therefore made for integers in those ranges: brightness
    and saturation 0-254, hue and colour temperature 0-65535, levels
    0-100, colour channels 0-255.  A JSON number with a fraction is
    outside the model. *)

From Stdlib Require Import ZArith QArith Qround List String Ascii Bool Lia Lqa.
From Stdlib Require Import DecimalString DecimalPos DecimalZ.
From Stdlib Require Import Floats.SpecFloat.
Import ListNotations.

Set Warnings "-register-all".
Open Scope string_scope.
Open Scope list_scope.
Open Scope Z_scope.

(* ================================================================== *)
(** * The Python fragment *)
(* ================================================================== *)

Module Py.

(** The exception classes the program can meet.  [RequestException] stands
    for whatever [requests] raises on a transport failure. *)
Inductive exn : Type :=
| TypeError
| AttributeError
| KeyError
| IndexError
| ZeroDivisionError
| JSONDecodeError
| RequestException.

(** The outcome of evaluating an expression: a value or a raised exception. *)
Inductive result (A : Type) : Type :=
| Ok (a : A)
| Raise (e : exn).
Arguments Ok {A} a.
Arguments Raise {A} e.

Definition rbind {A B} (r : result A) (k : A -> result B) : result B :=
  match r with
  | Ok a => k a
  | Raise e => Raise e
  end.

(** What [json.loads] produces (and what the handlers pass around).
    JSON numbers are integers here; a JSON object keeps its members in
    order, as a Python dict does. *)
Inductive value : Type :=
| VNone
| VBool (b : bool)
| VInt (z : Z)
| VStr (s : string)
| VList (l : list value)
| VDict (d : list (string * value)).

(** A Python dict with string keys: an association list in insertion
    order, without repeated keys. *)
Definition dict (A : Type) : Type := list (string * A).

(** [d.get(k)] as an option, [k in d]. *)
Fixpoint dict_get {A} (k : string) (d : dict A) : option A :=
  match d with
  | [] => None
  | (k', v) :: d' => if String.eqb k k' then Some v else dict_get k d'
  end.

Definition dict_mem {A} (k : string) (d : dict A) : bool :=
  match dict_get k d with Some _ => true | None => false end.

(** [d[k] = v]: the value of an existing key is replaced in place, a new
    key goes to the end. *)
Fixpoint dict_set {A} (k : string) (v : A) (d : dict A) : dict A :=
  match d with
  | [] => [(k, v)]
  | (k', v') :: d' =>
      if String.eqb k k' then (k, v) :: d' else (k', v') :: dict_set k v d'
  end.

(** [del d[k]], used to state frame properties. *)
Fixpoint dict_remove {A} (k : string) (d : dict A) : dict A :=
  match d with
  | [] => []
  | (k', v') :: d' =>
      if String.eqb k k' then dict_remove k d' else (k', v') :: dict_remove k d'
  end.

(** [d.get(k)] with Python's default [None], and [d.get(k, dflt)]. *)
Definition get_or {A} (k : string) (dflt : A) (d : dict A) : A :=
  match dict_get k d with Some v => v | None => dflt end.

Definition get (k : string) (d : dict value) : value := get_or k VNone d.

(** [v is not None]. *)
Definition is_not_None (v : value) : bool :=
  match v with VNone => false | _ => true end.

(** Truthiness, as [if v] and [x if v else y] test it. *)
Definition truthy (v : value) : bool :=
  match v with
  | VNone => false
  | VBool b => b
  | VInt z => negb (z =? 0)
  | VStr s => negb (String.eqb s "")
  | VList l => match l with [] => false | _ => true end
  | VDict d => match d with [] => false | _ => true end
  end.

(** The operand of an arithmetic expression whose other operands are
    numbers and which contains a true division or a float: an [int] counts
    as itself, a [bool] as 0 or 1, anything else ends in [TypeError]
    (a [str] or a [list] survives [* 100] but not the [/ 254] after it). *)
Definition num_of (v : value) : result Z :=
  match v with
  | VInt z => Ok z
  | VBool b => Ok (Z.b2z b)
  | _ => Raise TypeError
  end.

(** [v == n] for an integer literal [n]. *)
Definition eq_int (v : value) (n : Z) : bool :=
  match v with
  | VInt z => z =? n
  | VBool b => Z.b2z b =? n
  | _ => false
  end.

(** [v == s] for a string literal [s]. *)
Definition eq_str (v : value) (s : string) : bool :=
  match v with
  | VStr s' => String.eqb s' s
  | _ => false
  end.

(** [str(n)] for an integer. *)
Definition str (n : Z) : string := NilZero.string_of_int (Z.to_int n).

(** [int(x)] for a float [x]: truncation towards zero. *)
Definition int (x : Q) : Z := Z.quot (Qnum x) (Zpos (Qden x)).

(** [a / b], true division. *)
Definition truediv (a b : Q) : result Q :=
  if Qeq_bool b 0 then Raise ZeroDivisionError else Ok (a / b)%Q.

Definition Qlt_bool (a b : Q) : bool := negb (Qle_bool b a).

(** [min(a, b)] and [max(a, b)]: the first argument unless the second is
    strictly smaller (larger). *)
Definition min (a b : Q) : Q := if Qlt_bool b a then b else a.
Definition max (a b : Q) : Q := if Qlt_bool a b then b else a.

(** [x % 1.0]: the result has the sign of the divisor. *)
Definition mod1 (x : Q) : Q := (x - inject_Z (Qfloor x))%Q.

(** [round(x)] of Python 3: to the nearest integer, a tie to the even one. *)
Definition round (x : Q) : Z :=
  let f := Qfloor x in
  let r := (x - inject_Z f)%Q in
  if Qlt_bool r (1 # 2) then f
  else if Qlt_bool (1 # 2) r then f + 1
  else if Z.even f then f else f + 1.

End Py.

(* ================================================================== *)
(** * The device registry: [build_devices_dict] *)
(* ================================================================== *)

Module Registry.
Import Py.

(** One entry of the configuration's [devices] or [scenes] list: a dict in
    which every key may be missing. *)
Record entry : Type := {
  e_name : option string;
  e_idx : option Z;
  e_type : option string;
  e_description : option string
}.

(** The configuration: ['devices'] and ['scenes'] may be missing or null. *)
Record config : Type := {
  devices : option (list entry);
  scenes : option (list entry)
}.

(** A descriptor of the registry.  Only scenes carry a ["description"]. *)
Record device : Type := {
  name : string;
  idx : Z;
  type : string;
  is_scene : bool;
  description : option string
}.

(** [e['k']]: [KeyError] when the key is missing. *)
Definition item {A} (o : option A) : result A :=
  match o with
  | Some a => Ok a
  | None => Raise KeyError
  end.

(** [config.get(k) or []]. *)
Definition or_empty (o : option (list entry)) : list entry :=
  match o with
  | Some l => l
  | None => []
  end.

(** A [for] loop whose body may raise, threading the loop's variables. *)
Fixpoint for_each {A S} (body : S -> A -> result S) (l : list A) (s : S)
  : result S :=
  match l with
  | [] => Ok s
  | a :: l' => rbind (body s a) (for_each body l')
  end.

(** The body of the first loop; the loop's variables are [devices] and
    [light_id]. *)
Definition add_device (s : dict device * Z) (e : entry)
  : result (dict device * Z) :=
  let '(devs, light_id) := s in
  rbind (item (e_name e)) (fun n =>
  rbind (item (e_idx e)) (fun i =>
  Ok (dict_set (str light_id)
        {| name := n; idx := i;
           type := match e_type e with Some t => t | None => "switch" end;
           is_scene := false; description := None |} devs,
      light_id + 1))).

(** The body of the second loop. *)
Definition add_scene (s : dict device * Z) (e : entry)
  : result (dict device * Z) :=
  let '(devs, light_id) := s in
  rbind (item (e_name e)) (fun n =>
  rbind (item (e_idx e)) (fun i =>
  Ok (dict_set (str light_id)
        {| name := n; idx := i; type := "scene"; is_scene := true;
           description :=
             Some (match e_description e with Some t => t | None => "" end) |}
        devs,
      light_id + 1))).

Definition build_devices_dict (cfg : config) : result (dict device) :=
  rbind (for_each add_device (or_empty (devices cfg)) ([], 1)) (fun s1 =>
  rbind (for_each add_scene (or_empty (scenes cfg)) s1) (fun s2 =>
  Ok (fst s2))).

End Registry.

(* ================================================================== *)
(** * The hub adapter: class [DomoticzController] *)
(* ================================================================== *)

Module Domoticz.
Import Py.

(** The [params] dict handed to [session.get]; the URL is always
    [base_url + "/json.htm"]. *)
Definition params : Type := dict value.

(** What comes back from [session.get]: it raises ([Failed]: timeout,
    refused connection, ...) or it returns a response with a status code
    and a body on which [response.json()] succeeds or raises. *)
Inductive body : Type :=
| NotJson
| Json (v : value).

Inductive outcome : Type :=
| Failed
| Response (status_code : Z) (b : body).

(** The controller object: its credentials, [_logged_in], and (not a field
    of the class, but what the session has done so far) the requests sent
    to the hub, oldest first. *)
Record controller : Type := {
  username : string;
  password : string;
  _logged_in : bool;
  sent : list params
}.

Definition with_sent (c : controller) (l : list params) : controller :=
  {| username := username c; password := password c;
     _logged_in := _logged_in c; sent := l |}.

Definition with_logged_in (c : controller) (b : bool) : controller :=
  {| username := username c; password := password c;
     _logged_in := b; sent := sent c |}.

(** A method of the controller: it may raise, and it changes the
    controller either way. *)
Definition M (A : Type) : Type := controller -> result A * controller.

Definition ret {A} (a : A) : M A := fun c => (Ok a, c).

Definition raise {A} (e : exn) : M A := fun c => (Raise e, c).

Definition lift {A} (r : result A) : M A := fun c => (r, c).

Definition bind {A B} (m : M A) (k : A -> M B) : M B :=
  fun c =>
    match m c with
    | (Ok a, c') => k a c'
    | (Raise e, c') => (Raise e, c')
    end.

(** [try: m  except Exception: h]. *)
Definition try_except {A} (m : M A) (h : exn -> M A) : M A :=
  fun c =>
    match m c with
    | (Ok a, c') => (Ok a, c')
    | (Raise e, c') => h e c'
    end.

Declare Scope hub_scope.
Delimit Scope hub_scope with hub.
Notation "x <- m ;; k" := (bind m (fun x => k))
  (at level 61, m at next level, right associativity) : hub_scope.
Notation "m ;; k" := (bind m (fun _ => k))
  (at level 61, right associativity) : hub_scope.
Open Scope hub_scope.

(** [v.get(k, dflt)]: only a dict has the method. *)
Definition method_get (v : value) (k : string) (dflt : value) : result value :=
  match v with
  | VDict d => Ok (get_or k dflt d)
  | _ => Raise AttributeError
  end.

(** [response.json()]. *)
Definition json (b : body) : result value :=
  match b with
  | Json v => Ok v
  | NotJson => Raise JSONDecodeError
  end.

(** [int(x * num / den)] for an integer [x] and literals [num], [den]:
    the exact quotient, truncated.  The program divides in double
    precision, which gives the same integer on the ranges of the Hue API
    ([Binary64Props]); far beyond them the double is rounded, and
    [OverflowError] is raised for an integer no double can hold. *)
Definition scale (x num den : Z) : Z :=
  int (inject_Z (x * num) / inject_Z den)%Q.

(** The float literal [2.54]. *)
Definition f2_54 : Q := 254 # 100.

(** The status dict that [get_device_status] returns. *)
Record status : Type := {
  on : bool;
  bri : Z;
  hue : Z;
  sat : Z
}.

Definition default_status : status :=
  {| on := false; bri := 0; hue := 0; sat := 0 |}.

(** [_rgb_to_hsv(r, g, b)], on the values found in the colour payload, in
    exact arithmetic: what is stated of it are ranges, not the last digit
    of a hue. *)
Definition _rgb_to_hsv (r g b : value) : result (Q * Q * Q) :=
  rbind (num_of r) (fun r =>
  rbind (num_of g) (fun g =>
  rbind (num_of b) (fun b =>
  let r := (inject_Z r / 255)%Q in
  let g := (inject_Z g / 255)%Q in
  let b := (inject_Z b / 255)%Q in
  let max_c := max (max r g) b in
  let min_c := min (min r g) b in
  let v := max_c in
  if Qeq_bool max_c min_c then Ok (0%Q, 0%Q, v)
  else
    rbind (truediv (max_c - min_c) max_c) (fun s =>
    rbind (truediv (max_c - r) (max_c - min_c)) (fun rc =>
    rbind (truediv (max_c - g) (max_c - min_c)) (fun gc =>
    rbind (truediv (max_c - b) (max_c - min_c)) (fun bc =>
    let h := if Qeq_bool r max_c then (bc - gc)%Q
             else if Qeq_bool g max_c then (2 + rc - bc)%Q
             else (4 + gc - rc)%Q in
    let h := mod1 (h / 6) in
    Ok (h, s, v)))))))).

(** The mired to cold/warm white mix of [set_white_color] (lines 230-236),
    for an integer [color_temp], in exact arithmetic (the division of line
    231 raises [OverflowError] for an integer no double can hold). *)
Definition white_mix (color_temp : Z) : Z * Z :=
  let mired_min := 153 in
  let mired_max := 500 in
  let normalized :=
    (inject_Z (color_temp - mired_min) / inject_Z (mired_max - mired_min))%Q in
  let normalized := max 0 (min 1 normalized) in
  let cw := int (255 * (1 - normalized)) in
  let ww := int (255 * normalized) in
  (cw, ww).

(** [int(brightness * 100 / 254) if brightness else 100] (line 241). *)
Definition bri_level (brightness : value) : result Z :=
  if truthy brightness
  then rbind (num_of brightness) (fun b => Ok (scale b 100 254))
  else Ok 100.

(** The dict serialised into the ["color"] parameter. *)
Definition color_dict (cw ww : Z) : value :=
  VDict [("m", VInt 2); ("t", VInt 0); ("r", VInt 0); ("g", VInt 0);
         ("b", VInt 0); ("cw", VInt cw); ("ww", VInt ww)].

(** [str(v) == str(idx)] for a JSON value [v] and an integer [idx].  The
    [str] of a list or a dict starts with a bracket, so it is no numeral. *)
Definition str_eq (v : value) (idx : Z) : bool :=
  match v with
  | VNone => String.eqb "None" (str idx)
  | VBool b => String.eqb (if b then "True" else "False") (str idx)
  | VInt z => String.eqb (str z) (str idx)
  | VStr s => String.eqb s (str idx)
  | VList _ | VDict _ => false
  end.

(** What a [for] loop iterates over. *)
Definition iterate (v : value) : result (list value) :=
  match v with
  | VList l => Ok l
  | VStr s => Ok (map (fun a => VStr (String a EmptyString)) (list_ascii_of_string s))
  | VDict d => Ok (map (fun kv => VStr (fst kv)) d)
  | VNone | VBool _ | VInt _ => Raise TypeError
  end.

(** [v[0]]. *)
Definition first (v : value) : result value :=
  match v with
  | VList (x :: _) => Ok x
  | VList [] => Raise IndexError
  | VStr (String a _) => Ok (VStr (String a EmptyString))
  | VStr EmptyString => Raise IndexError
  | VDict _ => Raise KeyError
  | VNone | VBool _ | VInt _ => Raise TypeError
  end.

(** The scene loop of [get_device_status] (lines 295-302); [None] when the
    loop ends without a [return]. *)
Fixpoint find_scene (idx : Z) (l : list value) : result (option status) :=
  match l with
  | [] => Ok None
  | scene :: l' =>
      rbind (method_get scene "idx" VNone) (fun i =>
      if str_eq i idx
      then rbind (method_get scene "Status" VNone) (fun st =>
           Ok (Some {| on := eq_str st "On"; bri := 254; hue := 0; sat := 0 |}))
      else find_scene idx l')
  end.

Section Controller.

(** The hub: its answer to a request, given the requests it got before. *)
Variable hub : list params -> params -> outcome.

(** Library functions: [base64.b64encode(s.encode()).decode()],
    [hashlib.md5(s.encode()).hexdigest()], [json.loads] on a string ([None]:
    it raises [JSONDecodeError]) and [json.dumps]. *)
Variable b64encode : string -> string.
Variable md5_hexdigest : string -> string.
Variable json_loads : string -> option value.
Variable json_dumps : value -> string.

(** [self.session.get(url, params=params, timeout=5)]. *)
Definition session_get (p : params) : M (Z * body) :=
  fun c =>
    let c' := with_sent c (sent c ++ [p]) in
    match hub (sent c) p with
    | Failed => (Raise RequestException, c')
    | Response code b => (Ok (code, b), c')
    end.

Definition login_params (c : controller) : params :=
  [("type", VStr "command"); ("param", VStr "logincheck");
   ("username", VStr (b64encode (username c)));
   ("password", VStr (md5_hexdigest (password c)))].

Definition _ensure_login : M bool :=
  fun c =>
    if _logged_in c || negb (truthy (VStr (username c))) then (Ok true, c)
    else
      try_except
        (response <- session_get (login_params c) ;;
         data <- lift (json (snd response)) ;;
         st <- lift (method_get data "status" VNone) ;;
         if eq_str st "OK"
         then (fun c' => (Ok true, with_logged_in c' true))
         else ret false)
        (fun _ => ret false) c.

(** The [try] block shared by the five commands: send, and report whether
    the status code is 200; any exception gives [False]. *)
Definition send_command (p : params) : M bool :=
  try_except
    (response <- session_get p ;; ret (fst response =? 200))
    (fun _ => ret false).

Definition switch_params (param : string) (idx : Z) (command : value) : params :=
  [("type", VStr "command"); ("param", VStr param); ("idx", VInt idx);
   ("switchcmd", VStr (if truthy command then "On" else "Off"))].

Definition switch_light (idx : Z) (command : value) : M bool :=
  _ensure_login ;;
  send_command (switch_params "switchlight" idx command).

Definition switch_scene (idx : Z) (command : value) : M bool :=
  _ensure_login ;;
  send_command (switch_params "switchscene" idx command).

Definition level_params (idx level : Z) : params :=
  [("type", VStr "command"); ("param", VStr "switchlight"); ("idx", VInt idx);
   ("switchcmd", VStr "Set Level"); ("level", VInt level)].

Definition set_dimmer (idx level : Z) : M bool :=
  _ensure_login ;;
  send_command (level_params idx level).

(** [if x is not None: params[k] = int(x * num / den)]. *)
Definition add_scaled (k : string) (x : value) (num den : Z) (p : params)
  : result params :=
  if is_not_None x
  then rbind (num_of x) (fun z => Ok (dict_set k (VInt (scale z num den)) p))
  else Ok p.

Definition rgb_params (idx : Z) (hue saturation brightness : value)
  : result params :=
  let p := [("type", VStr "command"); ("param", VStr "setcolbrightnessvalue");
            ("idx", VInt idx); ("iswhite", VStr "false")] in
  rbind (add_scaled "hue" hue 360 65535 p) (fun p =>
  rbind (add_scaled "saturation" saturation 100 254 p) (fun p =>
  add_scaled "brightness" brightness 100 254 p)).

Definition set_rgb_color (idx : Z) (hue saturation brightness : value) : M bool :=
  _ensure_login ;;
  p <- lift (rgb_params idx hue saturation brightness) ;;
  send_command p.

Definition white_params (idx : Z) (color_temp brightness : value)
  : result params :=
  rbind (num_of color_temp) (fun ct =>
  let '(cw, ww) := white_mix ct in
  let color_json := json_dumps (color_dict cw ww) in
  rbind (bri_level brightness) (fun bri_level =>
  Ok [("type", VStr "command"); ("param", VStr "setcolbrightnessvalue");
      ("idx", VInt idx); ("color", VStr color_json);
      ("brightness", VInt bri_level)])).

Definition set_white_color (idx : Z) (color_temp brightness : value) : M bool :=
  _ensure_login ;;
  p <- lift (white_params idx color_temp brightness) ;;
  send_command p.

Definition set_brightness (idx : Z) (brightness : value) : M bool :=
  _ensure_login ;;
  level <- lift (rbind (num_of brightness) (fun b => Ok (scale b 100 254))) ;;
  send_command (level_params idx level).

Definition status_params (idx : Z) (is_scene : bool) : params :=
  if is_scene
  then [("type", VStr "command"); ("param", VStr "getscenes")]
  else [("type", VStr "command"); ("param", VStr "getdevices"); ("rid", VInt idx)].

(** The inner [try] of [get_device_status] (lines 318-325): the hue and
    saturation read from the colour payload of [device]. *)
Definition color_of (device : dict value) : result (Z * Z) :=
  let c := get "Color" device in
  rbind (match c with
         | VStr s => match json_loads s with
                     | Some v => Ok v
                     | None => Raise JSONDecodeError
                     end
         | _ => Ok c
         end) (fun color =>
  rbind (method_get color "r" (VInt 0)) (fun r =>
  rbind (method_get color "g" (VInt 0)) (fun g =>
  rbind (method_get color "b" (VInt 0)) (fun b =>
  rbind (_rgb_to_hsv r g b) (fun hsv =>
  let '(h, s, _) := hsv in
  Ok (int (h * 65535), int (s * 254))))))).

(** The device branch (lines 304-326); [None] when it ends without a
    [return]. *)
Definition device_status (data : value) : result (option status) :=
  rbind (method_get data "result" VNone) (fun res =>
  if truthy res then
    rbind (first res) (fun device =>
    rbind (method_get device "Status" (VStr "Off")) (fun st =>
    let is_on := negb (eq_str st "Off") in
    rbind (method_get device "Level" (VInt 0)) (fun level =>
    let level := if eq_int level 0 && is_on then VInt 100 else level in
    rbind (num_of level) (fun level =>
    let st := {| on := is_on; bri := int (inject_Z level * f2_54);
                 hue := 0; sat := 0 |} in
    match device with
    | VDict d =>
        if dict_mem "Color" d then
          match color_of d with
          | Ok (h, s) => Ok (Some {| on := on st; bri := bri st; hue := h; sat := s |})
          | Raise JSONDecodeError | Raise TypeError => Ok (Some st)
          | Raise e => Raise e
          end
        else Ok (Some st)
    | _ => Raise AttributeError
    end))))
  else Ok None).

(** The scene branch (lines 293-302). *)
Definition scene_status (idx : Z) (data : value) : result (option status) :=
  rbind (method_get data "result" (VList [])) (fun res =>
  rbind (iterate res) (find_scene idx)).

Definition get_device_status (idx : Z) (is_scene : bool) : M status :=
  _ensure_login ;;
  found <- try_except
             (response <- session_get (status_params idx is_scene) ;;
              data <- lift (json (snd response)) ;;
              lift (if is_scene then scene_status idx data
                    else device_status data))
             (fun _ => ret None) ;;
  ret (match found with
       | Some st => st
       | None => default_status
       end).

End Controller.

End Domoticz.

(* ================================================================== *)
(** * The API emulation layer: [HueAPIHandler._control_light] *)
(* ================================================================== *)

Module HueAPI.
Import Py Registry Domoticz.

(** One element of the list a PUT answers with:
    [{"success": {path: v}}] or [{"error": {"description": text}}]. *)
Inductive entry : Type :=
| Success (path : string) (v : value)
| Error (description : string).

(** [f"/lights/{light_id}/state/{field}"]. *)
Definition state_path (light_id field : string) : string :=
  ("/lights/" ++ light_id ++ "/state/" ++ field)%string.

Section Handler.

Variable hub : list params -> params -> outcome.
Variable b64encode : string -> string.
Variable md5_hexdigest : string -> string.
Variable json_dumps : value -> string.

(** The class variable [HueAPIHandler.devices]. *)
Variable devices : dict device.

(** [result.append({"success": ...}) if v is not None]. *)
Definition success_if_present (light_id field : string) (v : value) : list entry :=
  if is_not_None v then [Success (state_path light_id field) v] else [].

(** Lines 541-549: the power command. *)
Definition control_on (light_id : string) (device : device) (data : dict value)
  : M (list entry) :=
  if dict_mem "on" data then
    (if is_scene device
     then switch_scene hub b64encode md5_hexdigest (idx device) (get "on" data)
     else switch_light hub b64encode md5_hexdigest (idx device) (get "on" data)) ;;
    ret [Success (state_path light_id "on") (get "on" data)]
  else ret [].

(** Lines 551-589: the colour and brightness branches. *)
Definition control_color (light_id : string) (device : device) (data : dict value)
  : M (list entry) :=
  let idx := idx device in
  let device_type := type device in
  let is_scene := is_scene device in
  if String.eqb device_type "rgb" && negb is_scene then
    let hue := get "hue" data in
    let sat := get "sat" data in
    let bri := get "bri" data in
    let ct := get "ct" data in
    if is_not_None ct then
      set_white_color hub b64encode md5_hexdigest json_dumps idx ct bri ;;
      ret ([Success (state_path light_id "ct") ct]
           ++ success_if_present light_id "bri" bri)
    else if is_not_None hue || is_not_None sat then
      set_rgb_color hub b64encode md5_hexdigest idx hue sat bri ;;
      ret (success_if_present light_id "hue" hue
           ++ success_if_present light_id "sat" sat
           ++ success_if_present light_id "bri" bri)
    else if is_not_None bri then
      set_brightness hub b64encode md5_hexdigest idx bri ;;
      ret [Success (state_path light_id "bri") bri]
    else ret []
  else if String.eqb device_type "dimmer" && dict_mem "bri" data && negb is_scene then
    level <- lift (rbind (num_of (get "bri" data)) (fun b =>
                   Ok (int (inject_Z b / f2_54)))) ;;
    set_dimmer hub b64encode md5_hexdigest idx level ;;
    ret [Success (state_path light_id "bri") (get "bri" data)]
  else if (String.eqb device_type "switch" || String.eqb device_type "scene")
          && dict_mem "bri" data then
    ret [Success (state_path light_id "bri") (get "bri" data)]
  else ret [].

Definition _control_light (light_id : string) (data : dict value)
  : M (list entry) :=
  match dict_get light_id devices with
  | None => ret [Error "Light not found"]
  | Some device =>
      r1 <- control_on light_id device data ;;
      r2 <- control_color light_id device data ;;
      ret (r1 ++ r2)
  end.

End Handler.

End HueAPI.

(* ================================================================== *)
(** * The discovery responder: [SSDPResponder] *)
(* ================================================================== *)

Module SSDP.

(** [needle in hay] for strings. *)
Fixpoint contains (needle hay : string) : bool :=
  String.prefix needle hay
  || match hay with
     | EmptyString => false
     | String _ hay' => contains needle hay'
     end.

(** [str.lower()], on the ASCII letters.  The message is the datagram
    after [decode('utf-8', errors='ignore')], a code point above 127 being
    its UTF-8 bytes; lowering such a code point yields no ASCII letter next
    to another letter of the token searched for. *)
Definition lower_ascii (a : ascii) : ascii :=
  let n := nat_of_ascii a in
  if (65 <=? n)%nat && (n <=? 90)%nat then ascii_of_nat (n + 32) else a.

Fixpoint lower (s : string) : string :=
  match s with
  | EmptyString => EmptyString
  | String a s' => String (lower_ascii a) (lower s')
  end.

(** The test of line 634. *)
Definition is_search (message : string) : bool :=
  contains "M-SEARCH" message
  && (contains "ssdp:all" message
      || contains "device:basic" (lower message)
      || contains "upnp:rootdevice" message).

Section Responder.

(** The sender's address, as [recvfrom] gives it. *)
Variable address : Type.

Variable bridge_ip : string.
Variable http_port : Z.
Variable BRIDGE_ID : string.
Variable BRIDGE_UUID : string.

Definition crlf : string :=
  String (ascii_of_nat 13) (String (ascii_of_nat 10) EmptyString).

(** The text that [_send_response] sends. *)
Definition response_text : string :=
  ("HTTP/1.1 200 OK" ++ crlf
   ++ "HOST: 239.255.255.250:1900" ++ crlf
   ++ "CACHE-CONTROL: max-age=100" ++ crlf
   ++ "EXT:" ++ crlf
   ++ "LOCATION: http://" ++ bridge_ip ++ ":" ++ Py.str http_port ++ "/description.xml" ++ crlf
   ++ "SERVER: Linux/3.14.0 UPnP/1.0 IpBridge/1.24.0" ++ crlf
   ++ "hue-bridgeid: " ++ BRIDGE_ID ++ crlf
   ++ "ST: urn:schemas-upnp-org:device:basic:1" ++ crlf
   ++ "USN: uuid:" ++ BRIDGE_UUID ++ "::urn:schemas-upnp-org:device:basic:1" ++ crlf
   ++ crlf)%string.

(** What one turn of the loop of [_listen] receives: nothing before the
    timeout, or a datagram (decoded) and its sender. *)
Inductive received : Type :=
| Timeout
| Datagram (message : string) (addr : address).

(** One turn of the loop (lines 630-641): the datagrams it sends, each
    with its destination. *)
Definition listen_step (r : received) : list (string * address) :=
  match r with
  | Timeout => []
  | Datagram message addr =>
      if is_search message then [(response_text, addr)] else []
  end.

End Responder.

End SSDP.

(* ================================================================== *)
(** * The conversions in double precision *)
(* ================================================================== *)

(** The arithmetic of the conversions as CPython carries it out, on IEEE
    binary64 numbers ([spec_float] with 53 bits of precision), for integer
    operands below 2^53. *)
Module Binary64.

Definition prec : Z := 53.
Definition emax : Z := 1024.

(** [float(z)]. *)
Definition of_int (z : Z) : spec_float := binary_normalize prec emax z 0 false.

Definition div (x y : spec_float) : spec_float := SFdiv prec emax x y.
Definition mul (x y : spec_float) : spec_float := SFmul prec emax x y.
Definition sub (x y : spec_float) : spec_float := SFsub prec emax x y.
Definition ltb (x y : spec_float) : bool := SFltb x y.

(** [int(x)]: truncation towards zero; [None] when Python raises (on an
    infinity or a NaN). *)
Definition int (x : spec_float) : option Z :=
  match x with
  | S754_zero _ => Some 0
  | S754_finite s m e =>
      let a := if 0 <=? e then Z.shiftl (Zpos m) e else Z.shiftr (Zpos m) (- e) in
      Some (if s then - a else a)
  | S754_infinity _ | S754_nan => None
  end.

(** The literal [2.54]: the double nearest to 254/100. *)
Definition f2_54 : spec_float := div (of_int 254) (of_int 100).

(** [int(x * num / den)]. *)
Definition scale (x num den : Z) : option Z :=
  int (div (of_int (x * num)) (of_int den)).

(** [int(bri / 2.54)] and [int(level * 2.54)]. *)
Definition div_2_54 (bri : Z) : option Z := int (div (of_int bri) f2_54).
Definition mul_2_54 (level : Z) : option Z := int (mul (of_int level) f2_54).

(** [min(1, x)] and [max(0, x)]; the integers 1 and 0 stand as the floats
    of the same value, which the arithmetic after them does not tell
    apart. *)
Definition min1 (x : spec_float) : spec_float := if ltb x (of_int 1) then x else of_int 1.
Definition max0 (x : spec_float) : spec_float := if ltb (of_int 0) x then x else of_int 0.

(** Lines 230-236 of [set_white_color]. *)
Definition white_mix (color_temp : Z) : option (Z * Z) :=
  let normalized := div (of_int (color_temp - 153)) (of_int (500 - 153)) in
  let normalized := max0 (min1 normalized) in
  match int (mul (of_int 255) (sub (of_int 1) normalized)),
        int (mul (of_int 255) normalized) with
  | Some cw, Some ww => Some (cw, ww)
  | _, _ => None
  end.

(** The round trip of a brightness, computed in double precision:
    to percent, back to the Hue scale, to percent again. *)
Definition round_trip (b : Z) : option (Z * Z) :=
  match scale b 100 254 with
  | Some p =>
      match mul_2_54 p with
      | Some h =>
          match scale h 100 254 with
          | Some p' => Some (p, p')
          | None => None
          end
      | None => None
      end
  | None => None
  end.

Definition within_one (r : option (Z * Z)) : bool :=
  match r with
  | Some (p, p') => Z.abs (p' - p) <=? 1
  | None => false
  end.

(** Comparing a result in double precision with an expected one. *)
Definition same (a : option Z) (b : Z) : bool :=
  match a with
  | Some z => z =? b
  | None => false
  end.

Definition same_mix (a : option (Z * Z)) (b : Z * Z) : bool :=
  match a with
  | Some (cw, ww) => (cw =? fst b) && (ww =? snd b)
  | None => false
  end.

End Binary64.

(* ================================================================== *)
(** * Observing a run *)
(* ================================================================== *)

(** What the properties below read off a controller after a call: the
    requests the call added, and their kinds. *)
Module Observe.
Import Py Domoticz HueAPI.

(** What a command reports: whether the hub answered with status 200. *)
Definition accepted (o : outcome) : bool :=
  match o with
  | Response code _ => code =? 200
  | Failed => false
  end.

(** The requests sent between the controller [c] and the later [c']. *)
Definition requests_since (c c' : controller) : list params :=
  skipn (List.length (sent c)) (sent c').

Definition has_param (name : string) (p : params) : bool :=
  eq_str (get "param" p) name.

(** The login exchange of [_ensure_login]. *)
Definition is_login (p : params) : bool := has_param "logincheck" p.

(** An on/off command, for a device or for a scene. *)
Definition is_power (p : params) : bool :=
  (has_param "switchlight" p || has_param "switchscene" p)
  && (eq_str (get "switchcmd" p) "On" || eq_str (get "switchcmd" p) "Off").

(** A colour command ([set_rgb_color] or [set_white_color]). *)
Definition is_color (p : params) : bool := has_param "setcolbrightnessvalue" p.

(** A level command ([set_dimmer] or [set_brightness]). *)
Definition is_level (p : params) : bool :=
  has_param "switchlight" p && eq_str (get "switchcmd" p) "Set Level".

(** The commands among some requests: everything but the logins. *)
Definition commands (l : list params) : list params :=
  filter (fun p => negb (is_login p)) l.

(** The status that [get_device_status] reads off the hub's answer to its
    query: a function of the body alone. *)
Definition decoded (json_loads : string -> option value) (idx : Z)
    (is_scene : bool) (o : outcome) : status :=
  match o with
  | Failed => default_status
  | Response _ b =>
      match rbind (json b) (fun data =>
              if is_scene then scene_status idx data
              else device_status json_loads data) with
      | Ok (Some st) => st
      | Ok None | Raise _ => default_status
      end
  end.

(** The entry is the success entry of [field] for the light [light_id]. *)
Definition acknowledges (light_id field : string) (e : entry) : bool :=
  match e with
  | Success path _ => String.eqb path (state_path light_id field)
  | Error _ => false
  end.

(** A colour or brightness command: what rules 2 to 4 of the control
    dispatch may send. *)
Definition is_color_or_level (p : params) : bool := is_color p || is_level p.

(** The method [m] only adds requests, at most [n] of them colour or
    brightness commands, whether it returns or raises. *)
Definition adds_at_most (n : nat) {A} (m : M A) : Prop :=
  forall c, exists l,
    sent (snd (m c)) = sent c ++ l
    /\ (List.length (filter is_color_or_level l) <= n)%nat.

End Observe.

(* ================================================================== *)
(** * The specification's wording, and concrete inputs *)
(* ================================================================== *)

Module Spec.

(** Section 4.1 of the specification, as it is worded:
    [round(bri*100/254)] and [round(pct*254/100)]. *)
Definition brightnessHueToPercent (bri : Z) : Z :=
  Py.round (inject_Z (bri * 100) / inject_Z 254).

Definition brightnessPercentToHue (pct : Z) : Z :=
  Py.round (inject_Z (pct * 254) / inject_Z 100).

(** Section 4.1: "mired is clamped to [153,500] before interpolating". *)
Definition clamp_mired (mired : Z) : Z := Z.max 153 (Z.min 500 mired).

(** Section 4.4: the message "contains the search-all token, a
    basic-device token, or a root-device token, case-insensitively". *)
Definition contains_nocase (token message : string) : bool :=
  SSDP.contains (SSDP.lower token) (SSDP.lower message).

Definition looks_like_search (message : string) : bool :=
  contains_nocase "ssdp:all" message
  || contains_nocase "device:basic" message
  || contains_nocase "upnp:rootdevice" message.

(** [token] occurs in [message]. *)
Definition occurs (token message : string) : Prop :=
  exists before after, message = (before ++ token ++ after)%string.

(** [token] occurs in [message] in some mix of upper and lower case. *)
Definition occurs_nocase (token message : string) : Prop :=
  exists t, SSDP.lower t = SSDP.lower token /\ occurs t message.

(** Section 4.2: "Each entry must supply a name and hub index". *)
Definition complete (e : Registry.entry) : Prop :=
  Registry.e_name e <> None /\ Registry.e_idx e <> None.

(** Section 4.2: "entries with no declared capability type default to
    [switch]"; a scene always has capability type [scene]. *)
Definition device_of (e : Registry.entry) : Registry.device :=
  {| Registry.name := match Registry.e_name e with Some n => n | None => "" end;
     Registry.idx := match Registry.e_idx e with Some i => i | None => 0 end;
     Registry.type := match Registry.e_type e with Some t => t | None => "switch" end;
     Registry.is_scene := false;
     Registry.description := None |}.

Definition scene_of (e : Registry.entry) : Registry.device :=
  {| Registry.name := match Registry.e_name e with Some n => n | None => "" end;
     Registry.idx := match Registry.e_idx e with Some i => i | None => 0 end;
     Registry.type := "scene";
     Registry.is_scene := true;
     Registry.description :=
       Some (match Registry.e_description e with Some t => t | None => "" end) |}.

(** Section 4.2: "Assigns ids ["1","2",...] in input order": the
    descriptors [l] under the decimal numerals from [first] on. *)
Fixpoint numbered (first : Z) (l : list Registry.device) : Py.dict Registry.device :=
  match l with
  | [] => []
  | d :: l' => (Py.str first, d) :: numbered (first + 1) l'
  end.

End Spec.

(** Concrete surroundings on which the model is run: a hub that answers
    every request with status 200 and [{"status": "OK"}], one that answers
    with a given outcome, transparent encoders, a parser that rejects every
    text, and a controller without credentials. *)
Module Example.
Import Py Registry Domoticz.

Definition hub_ok : list params -> params -> outcome :=
  fun _ _ => Response 200 (Json (VDict [("status", VStr "OK")])).

Definition hub_says (o : outcome) : list params -> params -> outcome :=
  fun _ _ => o.

Definition plain (s : string) : string := s.

Definition no_json (s : string) : option value := None.

Definition dumps (v : value) : string := "{}".

Definition anonymous : controller :=
  {| username := ""; password := ""; _logged_in := false; sent := [] |}.

Definition admin : controller :=
  {| username := "admin"; password := "secret"; _logged_in := false; sent := [] |}.

Definition lamp : device :=
  {| name := "Living Room Light"; idx := 10; type := "rgb";
     is_scene := false; description := None |}.

Definition plug : device :=
  {| name := "Heater"; idx := 11; type := "switch";
     is_scene := false; description := None |}.

Definition party : device :=
  {| name := "Party Mode"; idx := 1; type := "scene";
     is_scene := true; description := Some "" |}.

Definition registry : dict device :=
  [("1", lamp); ("2", plug); ("3", party)].

Definition device_entry (n : string) (i : Z) (t : option string) : entry :=
  {| e_name := Some n; e_idx := Some i; e_type := t; e_description := None |}.

End Example.

(* ================================================================== *)
(** * The API emulation layer: reading lights and routing requests *)
(* ================================================================== *)

(** [HueAPIHandler._get_light_state], [_get_all_lights], [_handle_api_get],
    [_handle_api_post] and [_handle_api_put].  A handler is given the path
    that [urlparse] extracted and, for a PUT, the bytes that [rfile.read]
    returned; what it hands to [_send_json] is its result. *)
Module Routes.
Import Py Registry Domoticz HueAPI.

(** [path.split("/")]. *)
Fixpoint split_slash (s : string) : list string :=
  match s with
  | EmptyString => [EmptyString]
  | String a s' =>
      if Ascii.eqb a "/" then EmptyString :: split_slash s'
      else match split_slash s' with
           | part :: parts => String a part :: parts
           | [] => [String a EmptyString]
           end
  end.

(** [s.endswith(suffix)]. *)
Fixpoint ends_with (suffix s : string) : bool :=
  String.eqb suffix s
  || match s with
     | EmptyString => false
     | String _ s' => ends_with suffix s'
     end.

(** [x in parts] for a list of strings. *)
Definition mem (x : string) (parts : list string) : bool :=
  existsb (String.eqb x) parts.

(** [parts[parts.index(x) + 1]]; it is only evaluated when [x in parts]. *)
Fixpoint item_after (x : string) (parts : list string) : result string :=
  match parts with
  | [] => Raise IndexError
  | p :: rest =>
      if String.eqb p x
      then match rest with
           | q :: _ => Ok q
           | [] => Raise IndexError
           end
      else item_after x rest
  end.

(** [s.zfill(2)], for an ASCII string. *)
Definition zfill2 (s : string) : string :=
  match s with
  | EmptyString => "00"
  | String a EmptyString =>
      if Ascii.eqb a "+" || Ascii.eqb a "-" then String a "0" else String "0" s
  | _ => s
  end.

(** The ["state"] object of a light; [xy] is the pair [[0.0, 0.0]]. *)
Record light_state : Type := {
  s_on : bool;
  s_bri : Z;
  s_hue : Z;
  s_sat : Z;
  s_effect : string;
  s_xy : Z * Z;
  s_ct : Z;
  s_alert : string;
  s_colormode : string;
  s_reachable : bool
}.

(** The object that describes one light. *)
Record light : Type := {
  l_state : light_state;
  l_type : string;
  l_name : string;
  l_modelid : string;
  l_manufacturername : string;
  l_productname : string;
  l_uniqueid : string;
  l_swversion : string
}.

(** Lines 486-506: Hue type, model id, product name and colour mode. *)
Definition hue_model (device_type : string) : string * string * string * string :=
  if String.eqb device_type "rgb"
  then ("Extended color light", "LCT015", "Hue color lamp", "hs")
  else if String.eqb device_type "dimmer"
  then ("Dimmable light", "LWB010", "Hue white lamp", "ct")
  else if String.eqb device_type "scene"
  then ("On/Off plug-in unit", "LOM001", "Hue smart plug", "ct")
  else ("On/Off plug-in unit", "LOM001", "Hue smart plug", "ct").

(** [f"00:17:88:01:00:{light_id.zfill(2)}:00:00-0b"]. *)
Definition uniqueid (light_id : string) : string :=
  ("00:17:88:01:00:" ++ zfill2 light_id ++ ":00:00-0b")%string.

(** What a handler hands to [_send_json]. *)
Inductive reply : Type :=
| Lights (lights : dict light)
| Wrapped (lights : dict light)
| OneLight (l : light)
| EmptyObject
| Entries (l : list entry)
| Registered (username : string).

(** [k in data] for a JSON value. *)
Definition contains_key (k : string) (data : value) : result bool :=
  match data with
  | VDict d => Ok (dict_mem k d)
  | VStr s => Ok (SSDP.contains k s)
  | VList l => Ok (existsb (fun v => eq_str v k) l)
  | VNone | VBool _ | VInt _ => Raise TypeError
  end.

(** [_control_light] past its first test, on a body that is JSON but no
    object: [data["on"]] and [data["bri"]] raise [TypeError], [data.get]
    raises [AttributeError]; the hub adapter is never reached. *)
Definition control_no_object (device : device) (data : value)
  : result (list entry) :=
  rbind (contains_key "on" data) (fun has_on =>
  if has_on then Raise TypeError
  else if String.eqb (type device) "rgb" && negb (is_scene device)
  then Raise AttributeError
  else
    rbind (contains_key "bri" data) (fun has_bri =>
    if String.eqb (type device) "dimmer" && has_bri && negb (is_scene device)
    then Raise TypeError
    else if (String.eqb (type device) "switch" || String.eqb (type device) "scene")
            && has_bri
    then Raise TypeError
    else Ok [])).

Section Handler.

Variable hub : list params -> params -> outcome.
Variable b64encode : string -> string.
Variable md5_hexdigest : string -> string.
Variable json_loads : string -> option value.
Variable json_dumps : value -> string.

(** [json.loads] on the bytes of a request body: a value, or an exception
    ([JSONDecodeError], or another one for bytes that are no UTF-8). *)
Variable json_loads_bytes : string -> result value.

Variable devices : dict device.

Definition _get_light_state (light_id : string) : M light :=
  let device := dict_get light_id devices in
  let is_scene := match device with Some d => is_scene d | None => false end in
  let idx := match device with Some d => idx d | None => 0 end in
  status <- get_device_status hub b64encode md5_hexdigest json_loads idx is_scene ;;
  let device_type := match device with Some d => type d | None => "switch" end in
  let '(hue_type, model_id, product_name, color_mode) := hue_model device_type in
  ret {| l_state := {| s_on := on status; s_bri := bri status;
                       s_hue := hue status; s_sat := sat status;
                       s_effect := "none"; s_xy := (0, 0); s_ct := 500;
                       s_alert := "none"; s_colormode := color_mode;
                       s_reachable := true |};
         l_type := hue_type;
         l_name := match device with
                   | Some d => name d
                   | None => ("Light " ++ light_id)%string
                   end;
         l_modelid := model_id;
         l_manufacturername := "Philips";
         l_productname := product_name;
         l_uniqueid := uniqueid light_id;
         l_swversion := "1.0" |}.

(** The loop of [_get_all_lights], over the keys still to visit. *)
Fixpoint all_lights_from (keys : list string) (lights : dict light)
  : M (dict light) :=
  match keys with
  | [] => ret lights
  | light_id :: keys' =>
      l <- _get_light_state light_id ;;
      all_lights_from keys' (dict_set light_id l lights)
  end.

Definition _get_all_lights : M (dict light) :=
  all_lights_from (map fst devices) [].

Definition _handle_api_get (path : string) : M reply :=
  let parts := split_slash path in
  if ends_with "/lights" path
     || match parts with
        | [_; _; user] => truthy (VStr user)
        | _ => false
        end
  then
    lights <- _get_all_lights ;;
    if ends_with "/lights" path then ret (Lights lights)
    else ret (Wrapped lights)
  else if SSDP.contains "/lights/" path
          && dict_mem (last parts EmptyString) devices
  then
    l <- _get_light_state (last parts EmptyString) ;;
    ret (OneLight l)
  else ret EmptyObject.

Definition _handle_api_post (path : string) : M reply :=
  ret (Registered "alexa-hue-emulator").

(** [_control_light] on whatever [json.loads] returned. *)
Definition control_light_value (light_id : string) (data : value)
  : M (list entry) :=
  match data with
  | VDict d =>
      _control_light hub b64encode md5_hexdigest json_dumps devices light_id d
  | _ =>
      match dict_get light_id devices with
      | None => ret [Error "Light not found"]
      | Some device => lift (control_no_object device data)
      end
  end.

Definition _handle_api_put (path body : string) : M reply :=
  data <- lift (match json_loads_bytes body with
                | Ok v => Ok v
                | Raise JSONDecodeError => Ok (VDict [])
                | Raise e => Raise e
                end) ;;
  let parts := split_slash path in
  if mem "lights" parts && mem "state" parts then
    light_id <- lift (item_after "lights" parts) ;;
    result <- control_light_value light_id data ;;
    ret (Entries result)
  else ret (Entries []).

End Handler.

End Routes.

(** What the later properties read off a run, besides [Observe]. *)
Module ObserveMore.
Import Py Domoticz Observe.

(** The hub accepts the login: its answer is a JSON object whose
    ["status"] is ["OK"]. *)
Definition login_ok (o : outcome) : bool :=
  match o with
  | Response _ (Json (VDict d)) => eq_str (get "status" d) "OK"
  | Response _ _ | Failed => false
  end.

(** [_ensure_login] has to log in: credentials are set and the session is
    not yet authenticated. *)
Definition needs_login (c : controller) : bool :=
  negb (_logged_in c) && negb (String.eqb (username c) "").

(** A status query ([get_device_status]). *)
Definition is_status_query (p : params) : bool :=
  has_param "getdevices" p || has_param "getscenes" p.

(** The method [m], run on an authenticated session, leaves it
    authenticated and sends no login. *)
Definition stays_logged_in {A} (m : M A) : Prop :=
  forall c, _logged_in c = true ->
    exists l,
      sent (snd (m c)) = sent c ++ l
      /\ _logged_in (snd (m c)) = true
      /\ Forall (fun p => is_login p = false) l.

(** The colour payload of a device, as line 319 reads it: the ["Color"]
    member, parsed when it is a string. *)
Definition payload (json_loads : string -> option value) (device : dict value)
  : result value :=
  match get "Color" device with
  | VStr s => match json_loads s with
              | Some v => Ok v
              | None => Raise JSONDecodeError
              end
  | c => Ok c
  end.

(** The status decoded from the ["Status"] and ["Level"] of a device. *)
Definition level_status (device : dict value) (level : Z) : status :=
  let is_on := negb (eq_str (get_or "Status" (VStr "Off") device) "Off") in
  {| on := is_on;
     bri := if (level =? 0) && is_on then 254 else level * 254 / 100;
     hue := 0; sat := 0 |}.
(** The segment holds no slash. *)
Fixpoint no_slash (s : string) : bool :=
  match s with
  | EmptyString => true
  | String a s' => negb (Ascii.eqb a "/") && no_slash s'
  end.

(** ["/".join(parts)]. *)
Fixpoint join_slash (parts : list string) : string :=
  match parts with
  | [] => EmptyString
  | [p] => p
  | p :: rest => (p ++ String "/" (join_slash rest))%string
  end.
End ObserveMore.

(** More concrete inputs. *)
Module ExampleMore.
Import Py Registry Domoticz.

(** A session that has logged in. *)
Definition session : controller :=
  {| username := "admin"; password := "secret"; _logged_in := true; sent := [] |}.

Definition dimmer : device :=
  {| name := "Desk Lamp"; idx := 12; type := "dimmer";
     is_scene := false; description := None |}.

Definition registry : dict device :=
  [("1", Example.lamp); ("2", Example.plug); ("3", Example.party); ("4", dimmer)].

(** A hub that refuses every connection. *)
Definition hub_down : list params -> params -> outcome := fun _ _ => Failed.

(** A hub that answers every request with status 200 and the object [d]. *)
Definition hub_object (d : dict value) : list params -> params -> outcome :=
  Example.hub_says (Response 200 (Json (VDict d))).

(** Answers to status queries: two scenes; a lamp that is on with a
    [null] colour; a lamp showing pure red. *)
Definition two_scenes : dict value :=
  [("result", VList [VDict [("idx", VStr "1"); ("Status", VStr "On")];
                     VDict [("idx", VStr "2"); ("Status", VStr "Off")]])].


(** What [json.loads] makes of a request body: the object [{"on": true}]
    for every body, or [JSONDecodeError] for every body. *)
Definition loads_on : string -> result value :=
  fun _ => Ok (VDict [("on", VBool true)]).

Definition loads_bad : string -> result value :=
  fun _ => Raise JSONDecodeError.

Definition lamp_red : dict value :=
  [("result", VList [VDict [("Status", VStr "On"); ("Level", VInt 50);
                            ("Color", VDict [("r", VInt 255)])]])].

End ExampleMore.

(* ================================================================== *)
(** * Properties of the Python fragment *)
(* ================================================================== *)

Module PyFacts.
Import Py.

Lemma int_nonneg (a : Z) (d : positive) : 0 <= a -> int (a # d) = a / Zpos d.
Proof.
  intros H. unfold int; simpl. apply Z.quot_div_nonneg; lia.
Qed.

Lemma inject_div (a d : Z) :
  0 < d -> (inject_Z a / inject_Z d)%Q = (a * 1 # 1 * Z.to_pos d).
Proof.
  intros H. destruct d as [|p|p]; try lia. reflexivity.
Qed.

Lemma Qlt_bool_iff (a b : Q) : Qlt_bool a b = true <-> (a < b)%Q.
Proof.
  unfold Qlt_bool. rewrite negb_true_iff, <- not_true_iff_false, Qle_bool_iff.
  split; [apply Qnot_le_lt | apply Qlt_not_le].
Qed.

Lemma min_first (a b : Q) : (a <= b)%Q -> min a b = a.
Proof.
  intros H. unfold min. destruct (Qlt_bool b a) eqn:E; [|reflexivity].
  apply Qlt_bool_iff in E. exfalso. exact (Qlt_not_le _ _ E H).
Qed.

Lemma min_second (a b : Q) : (b < a)%Q -> min a b = b.
Proof.
  intros H. unfold min. apply Qlt_bool_iff in H. now rewrite H.
Qed.

Lemma max_first (a b : Q) : (b <= a)%Q -> max a b = a.
Proof.
  intros H. unfold max. destruct (Qlt_bool a b) eqn:E; [|reflexivity].
  apply Qlt_bool_iff in E. exfalso. exact (Qlt_not_le _ _ E H).
Qed.

Lemma max_second (a b : Q) : (a < b)%Q -> max a b = b.
Proof.
  intros H. unfold max. apply Qlt_bool_iff in H. now rewrite H.
Qed.

(** Decimal numerals determine the integer. *)
Lemma str_inj (m n : Z) : str m = str n -> m = n.
Proof.
  unfold str. intros H.
  assert (nonnil : forall z, Z.to_int z <> Decimal.Pos Decimal.Nil
                             /\ Z.to_int z <> Decimal.Neg Decimal.Nil).
  { intros [|p|p]; simpl; split; try discriminate;
      intros [= E]; exact (DecimalPos.Unsigned.to_uint_nonnil p E). }
  apply DecimalZ.to_int_inj.
  assert (E : Some (Z.to_int m) = Some (Z.to_int n)).
  { rewrite <- (NilZero.isi (Z.to_int m)), <- (NilZero.isi (Z.to_int n));
      try apply nonnil. now rewrite H. }
  now injection E.
Qed.

(** Lookup after [dict_set] and [dict_remove]. *)
Lemma dict_set_fresh {A} (k : string) (v : A) (d : dict A) :
  ~ In k (map fst d) -> dict_set k v d = d ++ [(k, v)].
Proof.
  induction d as [|[k' v'] d IH]; simpl; intros H; [reflexivity|].
  destruct (String.eqb_spec k k') as [->|Hk].
  - exfalso. apply H. now left.
  - f_equal. apply IH. intros Hin. apply H. now right.
Qed.

Lemma dict_get_remove_other {A} (k k' : string) (d : dict A) :
  k <> k' -> dict_get k (dict_remove k' d) = dict_get k d.
Proof.
  intros Hk. induction d as [|[k0 v0] d IH]; simpl; [reflexivity|].
  destruct (String.eqb_spec k' k0) as [->|H0].
  - rewrite IH. destruct (String.eqb_spec k k0); [contradiction|reflexivity].
  - simpl. now rewrite IH.
Qed.

Lemma dict_get_remove_same {A} (k : string) (d : dict A) :
  dict_get k (dict_remove k d) = None.
Proof.
  induction d as [|[k0 v0] d IH]; simpl; [reflexivity|].
  destruct (String.eqb_spec k k0) as [->|H0]; [exact IH|].
  simpl. destruct (String.eqb_spec k k0); [contradiction|exact IH].
Qed.

(** A property checked on every integer of [0..n] holds on [0..n]. *)
Lemma upto_forall (P : Z -> bool) (n : nat) :
  forallb P (map Z.of_nat (seq 0 (S n))) = true ->
  forall z, 0 <= z <= Z.of_nat n -> P z = true.
Proof.
  intros H z Hz. rewrite forallb_forall in H. apply H.
  rewrite <- (Z2Nat.id z) by lia. apply in_map, in_seq. lia.
Qed.

End PyFacts.

(* ================================================================== *)
(** * Properties of the hub adapter *)
(* ================================================================== *)

Module DomoticzFacts.
Import Py Domoticz Observe PyFacts.

Lemma scale_floor (x num den : Z) :
  0 <= x * num -> 0 < den -> scale x num den = x * num / den.
Proof.
  intros Hx Hd. unfold scale. rewrite inject_div by assumption.
  rewrite int_nonneg by lia. f_equal; lia.
Qed.

Lemma div_f2_54 (b : Z) : 0 <= b -> int (inject_Z b / f2_54) = b * 100 / 254.
Proof.
  intros H. unfold f2_54.
  change (inject_Z b / (254 # 100))%Q with (b * 100 # 1 * 254).
  now rewrite int_nonneg by lia.
Qed.

Lemma mul_f2_54 (p : Z) : 0 <= p -> int (inject_Z p * f2_54) = p * 254 / 100.
Proof.
  intros H. unfold f2_54.
  change (inject_Z p * (254 # 100))%Q with (p * 254 # 1 * 100).
  now rewrite int_nonneg by lia.
Qed.

Lemma white_mix_low (m : Z) : m <= 153 -> white_mix m = (255, 0).
Proof.
  intros H. unfold white_mix. rewrite inject_div by lia.
  set (n := ((m - 153) * 1 # 1 * Z.to_pos (500 - 153))).
  assert (Hn : (n <= 0)%Q) by (unfold Qle, n; simpl; lia).
  rewrite (min_second 1 n) by (unfold Qlt, n; simpl; lia).
  now rewrite (max_first 0 n) by assumption.
Qed.

Lemma white_mix_high (m : Z) : 500 <= m -> white_mix m = (0, 255).
Proof.
  intros H. unfold white_mix. rewrite inject_div by lia.
  set (n := ((m - 153) * 1 # 1 * Z.to_pos (500 - 153))).
  now rewrite (min_first 1 n) by (unfold Qle, n; simpl; lia).
Qed.

Section Runs.

Variable hub : list params -> params -> outcome.
Variable b64encode : string -> string.
Variable md5_hexdigest : string -> string.
Variable json_loads : string -> option value.
Variable json_dumps : value -> string.

(** [_ensure_login] never raises; it sends the login request or nothing,
    and leaves the credentials alone. *)
Lemma ensure_login_run (c : controller) :
  exists b c',
    _ensure_login hub b64encode md5_hexdigest c = (Ok b, c')
    /\ username c' = username c /\ password c' = password c
    /\ (sent c' = sent c
        \/ sent c' = sent c ++ [login_params b64encode md5_hexdigest c]).
Proof.
  unfold _ensure_login.
  destruct (_logged_in c || negb (truthy (VStr (username c)))).
  - exists true, c. auto.
  - unfold try_except, bind, session_get, lift, ret.
    destruct (hub (sent c) _) as [|code [|data]]; simpl.
    + eexists _, _. split; [reflexivity|]. simpl. auto.
    + eexists _, _. split; [reflexivity|]. simpl. auto.
    + destruct (method_get data "status" VNone) as [st|e]; simpl.
      * destruct (eq_str st "OK"); eexists _, _;
          (split; [reflexivity|]); simpl; auto.
      * eexists _, _. split; [reflexivity|]. simpl. auto.
Qed.

Lemma send_command_run (p : params) (c : controller) :
  send_command hub p c
  = (Ok (accepted (hub (sent c) p)), with_sent c (sent c ++ [p])).
Proof.
  unfold send_command, try_except, bind, session_get, ret.
  now destruct (hub (sent c) p).
Qed.

End Runs.

End DomoticzFacts.

(* ================================================================== *)
(** * Brightness and colour-temperature conversions *)
(* ================================================================== *)

Module Conversions.
Import Py Domoticz Observe PyFacts DomoticzFacts.

Section Adapter.

Variable hub : list params -> params -> outcome.
Variable b64encode : string -> string.
Variable md5_hexdigest : string -> string.
Variable json_loads : string -> option value.
Variable json_dumps : value -> string.

(** [set_brightness] on an integer: the login, then one level command. *)
Lemma set_brightness_run (idx b : Z) (c : controller) :
  set_brightness hub b64encode md5_hexdigest idx (VInt b) c
  = send_command hub (level_params idx (scale b 100 254))
      (snd (_ensure_login hub b64encode md5_hexdigest c)).
Proof.
  unfold set_brightness, bind at 1.
  destruct (ensure_login_run hub b64encode md5_hexdigest c)
    as (ok & c' & -> & _).
  reflexivity.
Qed.

(** [set_white_color] on an integer temperature: the login, then one
    colour command. *)
Lemma set_white_color_run (idx m : Z) (brightness : value) (c : controller) :
  set_white_color hub b64encode md5_hexdigest json_dumps idx (VInt m) brightness c
  = match white_params json_dumps idx (VInt m) brightness with
    | Ok p => send_command hub p (snd (_ensure_login hub b64encode md5_hexdigest c))
    | Raise e => (Raise e, snd (_ensure_login hub b64encode md5_hexdigest c))
    end.
Proof.
  unfold set_white_color, bind at 1.
  destruct (ensure_login_run hub b64encode md5_hexdigest c)
    as (ok & c' & -> & _).
  unfold bind, lift. simpl snd.
  now destruct (white_params json_dumps idx (VInt m) brightness).
Qed.

(** A device answer without a colour payload: the status that
    [get_device_status] decodes from it (lines 304-316). *)
Lemma device_status_level (st : string) (level : Z) :
  device_status json_loads
    (VDict [("result", VList [VDict [("Status", VStr st); ("Level", VInt level)]])])
  = Ok (Some {| on := negb (String.eqb st "Off");
                bri := int (inject_Z (if (level =? 0) && negb (String.eqb st "Off")
                                      then 100 else level) * f2_54);
                hue := 0; sat := 0 |}).
Proof.
  unfold device_status. simpl.
  now destruct ((level =? 0) && negb (String.eqb st "Off")).
Qed.

(** C1 (as amended): for every brightness [bri] in 0-254 the Hue-to-percent
    conversion of [set_brightness], of [set_rgb_color] and of the dimmer
    branch of [_control_light] returns the integer part of [bri*100/254],
    that is [int], not [round]; [set_white_color] does the same for [bri]
    in 1-254 and sends 100 for a [bri] of 0.  For every percent [pct] in
    1-100 the inverse conversion of [get_device_status] returns the
    integer part of [pct*254/100]; a level of 0 is decoded as 0 for a
    device that is off and as 254 for one that is on.  Both stay in their
    ranges, and they are what the adapter sends to the hub and decodes
    from it. *)
Theorem brightness_conversions_truncate (bri pct : Z) :
  0 <= bri <= 254 ->
  0 <= pct <= 100 ->
  (scale bri 100 254 = bri * 100 / 254
   /\ int (inject_Z bri / f2_54) = bri * 100 / 254
   /\ 0 <= bri * 100 / 254 <= 100
   /\ (forall idx c,
        set_brightness hub b64encode md5_hexdigest idx (VInt bri) c
        = send_command hub (level_params idx (bri * 100 / 254))
            (snd (_ensure_login hub b64encode md5_hexdigest c)))
   /\ (forall idx,
        rgb_params idx VNone VNone (VInt bri)
        = Ok [("type", VStr "command"); ("param", VStr "setcolbrightnessvalue");
              ("idx", VInt idx); ("iswhite", VStr "false");
              ("brightness", VInt (bri * 100 / 254))])
   /\ bri_level (VInt bri) = Ok (if bri =? 0 then 100 else bri * 100 / 254))
  /\ (int (inject_Z pct * f2_54) = pct * 254 / 100
      /\ 0 <= pct * 254 / 100 <= 254
      /\ (forall st,
          device_status json_loads
            (VDict [("result",
                     VList [VDict [("Status", VStr st); ("Level", VInt pct)]])])
          = Ok (Some {| on := negb (String.eqb st "Off");
                        bri := if (pct =? 0) && negb (String.eqb st "Off")
                               then 254 else pct * 254 / 100;
                        hue := 0; sat := 0 |}))).
Proof.
  intros Hb Hp. split; [|split; [|split]].
  - assert (E : scale bri 100 254 = bri * 100 / 254)
      by (apply scale_floor; lia).
    repeat split.
    + exact E.
    + apply div_f2_54; lia.
    + apply Z.div_pos; lia.
    + apply Z.div_le_upper_bound; lia.
    + intros idx c. now rewrite set_brightness_run, E.
    + intros idx. unfold rgb_params, add_scaled. cbn [is_not_None rbind num_of].
      now rewrite E.
    + unfold bri_level. cbn [truthy num_of rbind].
      destruct (bri =? 0); cbn [negb rbind]; [reflexivity|now rewrite E].
  - apply mul_f2_54; lia.
  - split; [apply Z.div_pos; lia | apply Z.div_le_upper_bound; lia].
  - intros st. rewrite device_status_level.
    destruct ((pct =? 0) && negb (String.eqb st "Off")); [reflexivity|].
    now rewrite mul_f2_54 by lia.
Qed.

(** C5 (as amended): the round trip of a brightness [b] in 0-254 through
    the hub.  [set_brightness] sends [int(b*100/254)] percent (the dimmer
    branch, [int(b/2.54)], sends the same); [get_device_status] decodes
    the level it reads, and converting what it decoded to percent again
    lands within 1 of the percentage sent whenever that percentage is at
    least 1 (which it is from [b = 3] on) or the device is reported off.
    A level of 0 read from a device that is on is decoded as 254, which
    is 100 percent. *)
Theorem brightness_round_trip_within_one (b : Z) (st : string) :
  0 <= b <= 254 ->
  let sent_level := scale b 100 254 in
  exists status,
    device_status json_loads
      (VDict [("result",
               VList [VDict [("Status", VStr st); ("Level", VInt sent_level)]])])
    = Ok (Some status)
    /\ int (inject_Z b / f2_54) = sent_level
    /\ (forall idx c,
          last (sent (snd (set_brightness hub b64encode md5_hexdigest idx
                             (VInt b) c))) []
          = level_params idx sent_level)
    /\ (1 <= sent_level \/ st = "Off" ->
        Z.abs (scale (bri status) 100 254 - sent_level) <= 1)
    /\ (3 <= b -> 1 <= sent_level)
    /\ (sent_level = 0 -> st <> "Off" ->
        bri status = 254 /\ scale (bri status) 100 254 = 100).
Proof.
  intros Hb sent_level.
  assert (E : sent_level = b * 100 / 254)
    by (subst sent_level; apply scale_floor; lia).
  assert (Hp : 0 <= b * 100 / 254 <= 100)
    by (split; [apply Z.div_pos; lia | apply Z.div_le_upper_bound; lia]).
  rewrite device_status_level. eexists. split; [reflexivity|]. cbn [bri].
  split; [rewrite E; apply div_f2_54; lia|].
  split; [intros idx c; rewrite set_brightness_run, send_command_run;
          cbn [snd sent with_sent]; apply last_last|].
  rewrite E. clear E sent_level.
  split; [|split].
  - intros H.
    replace ((b * 100 / 254 =? 0) && negb (String.eqb st "Off")) with false.
    + rewrite mul_f2_54 by lia.
      assert (Hh : 0 <= b * 100 / 254 * 254 / 100) by (apply Z.div_pos; lia).
      rewrite scale_floor by lia.
      generalize dependent (b * 100 / 254). intros p Hp _ Hh.
      Z.div_mod_to_equations. lia.
    + symmetry. destruct H as [H | ->]; [|now rewrite andb_false_r].
      replace (b * 100 / 254 =? 0) with false; [reflexivity|].
      symmetry. apply Z.eqb_neq. lia.
  - intros H3. apply Z.div_le_lower_bound; lia.
  - intros H0 Hon. rewrite H0.
    replace (String.eqb st "Off") with false
      by (symmetry; now apply String.eqb_neq).
    split; reflexivity.
Qed.

(** C6: the mix sent for 153 mired is (cw=255, ww=0), the mix sent for 500
    mired is (cw=0, ww=255), and a mired value outside [153,500] gives the
    mix of the nearest bound.  The [color] parameter of the request that
    [set_white_color] sends holds that mix.  Mired values are those of the
    Hue API, 0-65535, and brightness values 0-254. *)
Theorem white_mix_clamps :
  white_mix 153 = (255, 0)
  /\ white_mix 500 = (0, 255)
  /\ (forall mired, 0 <= mired < 153 -> white_mix mired = white_mix 153)
  /\ (forall mired, 500 < mired <= 65535 -> white_mix mired = white_mix 500)
  /\ (forall mired, 0 <= mired <= 65535 ->
        white_mix mired = white_mix (Spec.clamp_mired mired))
  /\ (forall idx mired brightness, 0 <= mired <= 65535 ->
        white_params json_dumps idx (VInt mired) brightness
        = white_params json_dumps idx (VInt (Spec.clamp_mired mired)) brightness)
  /\ (forall idx mired b c, 0 <= mired <= 65535 -> 0 <= b <= 254 ->
        let mix := white_mix (Spec.clamp_mired mired) in
        let p := [("type", VStr "command");
                  ("param", VStr "setcolbrightnessvalue");
                  ("idx", VInt idx);
                  ("color",
                   VStr (json_dumps
                           (VDict [("m", VInt 2); ("t", VInt 0); ("r", VInt 0);
                                   ("g", VInt 0); ("b", VInt 0);
                                   ("cw", VInt (fst mix));
                                   ("ww", VInt (snd mix))])));
                  ("brightness",
                   VInt (if b =? 0 then 100 else b * 100 / 254))] in
        white_params json_dumps idx (VInt mired) (VInt b) = Ok p
        /\ last (sent (snd (set_white_color hub b64encode md5_hexdigest
                              json_dumps idx (VInt mired) (VInt b) c))) []
           = p).
Proof.
  assert (clamp : forall mired,
             white_mix mired = white_mix (Spec.clamp_mired mired)).
  { intros mired. unfold Spec.clamp_mired.
    destruct (Z_lt_le_dec mired 153); [|destruct (Z_lt_le_dec 500 mired)].
    - rewrite Z.max_l by lia. now rewrite !white_mix_low by lia.
    - rewrite Z.min_l, Z.max_r by lia. now rewrite !white_mix_high by lia.
    - now rewrite Z.min_r, Z.max_r by lia. }
  assert (params : forall idx mired b, 0 <= b <= 254 ->
             white_params json_dumps idx (VInt mired) (VInt b)
             = Ok [("type", VStr "command");
                   ("param", VStr "setcolbrightnessvalue");
                   ("idx", VInt idx);
                   ("color",
                    VStr (json_dumps
                            (VDict [("m", VInt 2); ("t", VInt 0); ("r", VInt 0);
                                    ("g", VInt 0); ("b", VInt 0);
                                    ("cw", VInt (fst (white_mix
                                                        (Spec.clamp_mired mired))));
                                    ("ww", VInt (snd (white_mix
                                                        (Spec.clamp_mired mired))))])));
                   ("brightness",
                    VInt (if b =? 0 then 100 else b * 100 / 254))]).
  { intros idx mired b Hb. unfold white_params. cbn [num_of rbind].
    rewrite <- clamp. destruct (white_mix mired) as [cw ww].
    unfold bri_level, color_dict. cbn [truthy num_of rbind fst snd].
    destruct (b =? 0); cbn [negb rbind]; [reflexivity|].
    now rewrite scale_floor by lia. }
  split; [reflexivity|]. split; [reflexivity|].
  split; [|split; [|split; [|split]]].
  - intros mired H. now rewrite !white_mix_low by lia.
  - intros mired H. now rewrite !white_mix_high by lia.
  - intros mired _. apply clamp.
  - intros idx mired brightness _. unfold white_params, num_of, rbind.
    now rewrite <- clamp.
  - intros idx mired b c Hm Hb mix p. subst mix p.
    split; [now apply params|].
    rewrite set_white_color_run, params by assumption.
    rewrite send_command_run. cbn [snd sent with_sent]. apply last_last.
Qed.

(** C10: [set_white_color] with a supplied brightness of 0 does what it
    does with no brightness at all, and for a mired value of the Hue API
    (0-65535) the command it sends (the last request, after a possible
    login) carries a brightness of 100. *)
Theorem zero_brightness_sent_as_full (idx : Z) (color_temp : value) (c : controller) :
  set_white_color hub b64encode md5_hexdigest json_dumps idx color_temp (VInt 0) c
  = set_white_color hub b64encode md5_hexdigest json_dumps idx color_temp VNone c
  /\ forall mired,
       0 <= mired <= 65535 ->
       exists p,
         white_params json_dumps idx (VInt mired) (VInt 0) = Ok p
         /\ dict_get "brightness" p = Some (VInt 100)
         /\ last (sent (snd (set_white_color hub b64encode md5_hexdigest json_dumps
                               idx (VInt mired) (VInt 0) c))) [] = p.
Proof.
  split; [reflexivity|].
  intros mired _. rewrite set_white_color_run.
  unfold white_params. simpl.
  destruct (white_mix mired) as [cw ww].
  eexists. split; [reflexivity|]. split; [reflexivity|].
  rewrite send_command_run. simpl. apply last_last.
Qed.

End Adapter.

(** C1, the claim as worded, fails: at brightness 2 the code sends level 0
    where [round(2*100/254)] is 1, and a level of 1 is decoded as 2 where
    [round(1*254/100)] is 3. *)
Lemma round_is_not_what_the_code_does :
  (0 <= 2 <= 254
   /\ scale 2 100 254 <> Spec.brightnessHueToPercent 2
   /\ snd (set_brightness Example.hub_ok Example.plain Example.plain
             10 (VInt 2) Example.anonymous)
      = with_sent Example.anonymous [level_params 10 0]
   /\ Spec.brightnessHueToPercent 2 = 1)
  /\ (0 <= 1 <= 100
      /\ int (inject_Z 1 * f2_54) <> Spec.brightnessPercentToHue 1
      /\ device_status Example.no_json
           (VDict [("result",
                    VList [VDict [("Status", VStr "On"); ("Level", VInt 1)]])])
         = Ok (Some {| on := true; bri := 2; hue := 0; sat := 0 |})
      /\ Spec.brightnessPercentToHue 1 = 3).
Proof.
  repeat split; try lia; try reflexivity; intros E; discriminate E.
Qed.

(** The conversions at brightness 150 and at 40 percent. *)
Lemma brightness_conversions_truncate_witness :
  (0 <= 150 <= 254 /\ 0 <= 40 <= 100)
  /\ scale 150 100 254 = 59
  /\ int (inject_Z 40 * f2_54) = 101.
Proof.
  split; [lia|].
  destruct (brightness_conversions_truncate Example.hub_ok Example.plain
              Example.plain Example.no_json 150 40) as [(E1 & _) (E2 & _)];
    [lia | lia |].
  split; [exact E1 | exact E2].
Defined.

(** C5, the claim as worded, fails on a device that is on: brightness 1 is
    sent as 0 percent, the level 0 is read back as brightness 254, and 254
    is 100 percent. *)
Lemma level_zero_of_an_on_device_reads_full :
  0 <= 1 <= 254
  /\ scale 1 100 254 = 0
  /\ snd (set_brightness Example.hub_ok Example.plain Example.plain
            10 (VInt 1) Example.anonymous)
     = with_sent Example.anonymous [level_params 10 0]
  /\ device_status Example.no_json
       (VDict [("result",
                VList [VDict [("Status", VStr "On");
                              ("Level", VInt (scale 1 100 254))]])])
     = Ok (Some {| on := true; bri := 254; hue := 0; sat := 0 |})
  /\ scale 254 100 254 = 100
  /\ ~ Z.abs (scale 254 100 254 - scale 1 100 254) <= 1.
Proof.
  repeat split; try lia; try reflexivity. intros H. vm_compute in H. now apply H.
Qed.

(** The round trip at brightness 128, the device being on. *)
Lemma brightness_round_trip_within_one_witness :
  0 <= 128 <= 254
  /\ exists status,
       device_status Example.no_json
         (VDict [("result",
                  VList [VDict [("Status", VStr "On");
                                ("Level", VInt (scale 128 100 254))]])])
       = Ok (Some status)
       /\ Z.abs (scale (bri status) 100 254 - scale 128 100 254) <= 1.
Proof.
  split; [lia|].
  destruct (brightness_round_trip_within_one Example.hub_ok Example.plain
              Example.plain Example.no_json 128 "On" ltac:(lia))
    as (status & E & _ & _ & H & _).
  exists status. split; [exact E|]. apply H. left. vm_compute. discriminate.
Defined.

End Conversions.

(* ================================================================== *)
(** * The registry build *)
(* ================================================================== *)

Module RegistryProps.
Import Py Registry PyFacts.

Lemma numbered_keys (l : list device) (first : Z) :
  map fst (Spec.numbered first l)
  = map (fun k => str (first + Z.of_nat k)) (seq 0 (List.length l)).
Proof.
  revert first. induction l as [|d l IH]; intros first; simpl; [reflexivity|].
  rewrite Z.add_0_r. f_equal. rewrite IH, <- seq_shift, map_map.
  apply map_ext. intros k. f_equal. lia.
Qed.

Lemma numbered_app (l1 l2 : list device) (first : Z) :
  Spec.numbered first (l1 ++ l2)
  = Spec.numbered first l1 ++ Spec.numbered (first + Z.of_nat (List.length l1)) l2.
Proof.
  revert first. induction l1 as [|d l1 IH]; intros first;
    cbn [Spec.numbered app List.length].
  - now rewrite Z.add_0_r.
  - rewrite IH, Nat2Z.inj_succ.
    now replace (first + Z.succ (Z.of_nat (List.length l1)))
      with (first + 1 + Z.of_nat (List.length l1)) by lia.
Qed.

Lemma numbered_nth (l : list device) (first : Z) (k : nat) (d : device) :
  nth_error l k = Some d ->
  nth_error (Spec.numbered first l) k = Some (str (first + Z.of_nat k), d).
Proof.
  revert first k. induction l as [|d0 l IH]; intros first [|k];
    cbn [nth_error Spec.numbered]; try discriminate.
  - intros [= ->]. now rewrite Z.add_0_r.
  - intros H. rewrite (IH (first + 1) k H), Nat2Z.inj_succ.
    now replace (first + Z.succ (Z.of_nat k)) with (first + 1 + Z.of_nat k) by lia.
Qed.

(** The next numeral is not yet a key, so the assignment appends. *)
Lemma next_id_fresh (l : list device) (first : Z) :
  ~ In (str (first + Z.of_nat (List.length l))) (map fst (Spec.numbered first l)).
Proof.
  rewrite numbered_keys, in_map_iff. intros (k & E & Hin).
  apply str_inj in E. apply in_seq in Hin. lia.
Qed.

Lemma set_next (l : list device) (d : device) :
  dict_set (str (1 + Z.of_nat (List.length l))) d (Spec.numbered 1 l)
  = Spec.numbered 1 (l ++ [d]).
Proof.
  rewrite dict_set_fresh by apply next_id_fresh.
  now rewrite numbered_app.
Qed.

(** The two loops, started on a registry that holds [pre] already. *)
Lemma add_devices_run (ds : list entry) (pre : list device) :
  Forall Spec.complete ds ->
  for_each add_device ds (Spec.numbered 1 pre, 1 + Z.of_nat (List.length pre))
  = Ok (Spec.numbered 1 (pre ++ map Spec.device_of ds),
        1 + Z.of_nat (List.length (pre ++ map Spec.device_of ds))).
Proof.
  intros H. revert pre. induction H as [|e ds [Hn Hi] _ IH]; intros pre;
    cbn [for_each map].
  - now rewrite app_nil_r.
  - unfold add_device at 1.
    destruct (e_name e) as [n|] eqn:En; [|contradiction].
    destruct (e_idx e) as [i|] eqn:Ei; [|contradiction].
    cbn [item rbind]. rewrite set_next.
    replace (1 + Z.of_nat (List.length pre) + 1)
      with (1 + Z.of_nat (List.length (pre ++ [Spec.device_of e])))
      by (rewrite length_app; cbn [List.length]; lia).
    replace {| name := n; idx := i;
               type := match e_type e with Some t => t | None => "switch" end;
               is_scene := false; description := None |}
      with (Spec.device_of e) by (unfold Spec.device_of; now rewrite En, Ei).
    rewrite IH, <- app_assoc. reflexivity.
Qed.

Lemma add_scenes_run (ss : list entry) (pre : list device) :
  Forall Spec.complete ss ->
  for_each add_scene ss (Spec.numbered 1 pre, 1 + Z.of_nat (List.length pre))
  = Ok (Spec.numbered 1 (pre ++ map Spec.scene_of ss),
        1 + Z.of_nat (List.length (pre ++ map Spec.scene_of ss))).
Proof.
  intros H. revert pre. induction H as [|e ss [Hn Hi] _ IH]; intros pre;
    cbn [for_each map].
  - now rewrite app_nil_r.
  - unfold add_scene at 1.
    destruct (e_name e) as [n|] eqn:En; [|contradiction].
    destruct (e_idx e) as [i|] eqn:Ei; [|contradiction].
    cbn [item rbind]. rewrite set_next.
    replace (1 + Z.of_nat (List.length pre) + 1)
      with (1 + Z.of_nat (List.length (pre ++ [Spec.scene_of e])))
      by (rewrite length_app; cbn [List.length]; lia).
    replace {| name := n; idx := i; type := "scene"; is_scene := true;
               description :=
                 Some match e_description e with Some t => t | None => "" end |}
      with (Spec.scene_of e) by (unfold Spec.scene_of; now rewrite En, Ei).
    rewrite IH, <- app_assoc. reflexivity.
Qed.

(** C7: on a configuration whose entries all carry a name and an index,
    the build succeeds and numbers the descriptors "1", "2", ... in input
    order, the devices first and the scenes after them, the numbering
    running on; with two device entries and one scene entry the ids are
    "1" and "2" for the devices and "3" for the scene. *)
Theorem build_numbers_devices_then_scenes (cfg : config) :
  Forall Spec.complete (or_empty (devices cfg)) ->
  Forall Spec.complete (or_empty (scenes cfg)) ->
  let ds := or_empty (devices cfg) in
  let ss := or_empty (scenes cfg) in
  exists registry,
    build_devices_dict cfg = Ok registry
    /\ registry = Spec.numbered 1 (map Spec.device_of ds ++ map Spec.scene_of ss)
    /\ map fst registry
       = map (fun k => str (Z.of_nat k)) (seq 1 (List.length ds + List.length ss))
    /\ (forall k e, nth_error ds k = Some e ->
          nth_error registry k = Some (str (Z.of_nat (k + 1)), Spec.device_of e))
    /\ (forall k e, nth_error ss k = Some e ->
          nth_error registry (List.length ds + k)
          = Some (str (Z.of_nat (List.length ds + k + 1)), Spec.scene_of e))
    /\ (forall d1 d2 s, ds = [d1; d2] -> ss = [s] ->
          registry = [("1", Spec.device_of d1); ("2", Spec.device_of d2);
                      ("3", Spec.scene_of s)]).
Proof.
  intros Hd Hs ds ss. subst ds ss.
  set (ds := or_empty (devices cfg)) in *.
  set (ss := or_empty (scenes cfg)) in *.
  exists (Spec.numbered 1 (map Spec.device_of ds ++ map Spec.scene_of ss)).
  split; [|split; [reflexivity|split; [|split; [|split]]]].
  - unfold build_devices_dict. fold ds ss.
    change ([], 1) with (Spec.numbered 1 [], 1 + Z.of_nat (List.length (@nil device))).
    rewrite (add_devices_run ds [] Hd). cbn [rbind app].
    rewrite (add_scenes_run ss (map Spec.device_of ds) Hs). reflexivity.
  - rewrite numbered_keys, length_app, !length_map, <- seq_shift, map_map.
    apply map_ext. intros k. f_equal. lia.
  - intros k e H.
    replace (Z.of_nat (k + 1)) with (1 + Z.of_nat k) by lia.
    apply numbered_nth. rewrite nth_error_app1.
    + now rewrite nth_error_map, H.
    + rewrite length_map. apply nth_error_Some. congruence.
  - intros k e H.
    replace (Z.of_nat (List.length ds + k + 1))
      with (1 + Z.of_nat (List.length ds + k)) by lia.
    apply numbered_nth.
    rewrite nth_error_app2 by (rewrite length_map; lia).
    rewrite length_map.
    replace (List.length ds + k - List.length ds)%nat with k by lia.
    now rewrite nth_error_map, H.
  - intros d1 d2 s -> ->. reflexivity.
Qed.

(** The configuration of the help text, with a second device: two
    devices and one scene. *)
Lemma build_numbers_devices_then_scenes_witness :
  build_devices_dict
    {| devices := Some [Example.device_entry "Living Room Light" 10 (Some "rgb");
                        Example.device_entry "Heater" 11 None];
       scenes := Some [Example.device_entry "Party Mode" 1 None] |}
  = Ok Example.registry.
Proof.
  destruct (build_numbers_devices_then_scenes
              {| devices := Some [Example.device_entry "Living Room Light" 10 (Some "rgb");
                                  Example.device_entry "Heater" 11 None];
                 scenes := Some [Example.device_entry "Party Mode" 1 None] |})
    as (registry & -> & -> & _).
  - repeat constructor; discriminate.
  - repeat constructor; discriminate.
  - reflexivity.
Defined.

End RegistryProps.

(* ================================================================== *)
(** * The control dispatch *)
(* ================================================================== *)

Module ControlProps.
Import Py Registry Domoticz HueAPI Observe PyFacts DomoticzFacts.

Lemma requests_since_app (c c' : controller) (l : list params) :
  sent c' = sent c ++ l -> requests_since c c' = l.
Proof.
  intros H. unfold requests_since. rewrite H.
  rewrite skipn_app, skipn_all, Nat.sub_diag. reflexivity.
Qed.

Lemma login_is_no_command (p : params) :
  is_login p = true ->
  is_power p = false /\ is_color p = false /\ is_level p = false.
Proof.
  unfold is_login, is_power, is_color, is_level, has_param, eq_str.
  destruct (get "param" p) as [| | |s| |]; try discriminate.
  intros H. apply String.eqb_eq in H. subst s. auto.
Qed.

Lemma filter_nothing {A} (f : A -> bool) (l : list A) :
  Forall (fun a => f a = false) l -> filter f l = [].
Proof.
  induction 1 as [|a l Ha _ IH]; simpl; [reflexivity|]. now rewrite Ha.
Qed.

Section Handler.

Variable hub : list params -> params -> outcome.
Variable b64encode : string -> string.
Variable md5_hexdigest : string -> string.
Variable json_dumps : value -> string.
Variable devices : dict device.

(** The requests of [_ensure_login] are logins. *)
Lemma ensure_login_sends (c : controller) :
  exists b c' l,
    _ensure_login hub b64encode md5_hexdigest c = (Ok b, c')
    /\ sent c' = sent c ++ l
    /\ Forall (fun p => is_login p = true) l.
Proof.
  destruct (ensure_login_run hub b64encode md5_hexdigest c)
    as (b & c' & E & _ & _ & [H|H]).
  - exists b, c', []. rewrite app_nil_r. auto.
  - exists b, c', [login_params b64encode md5_hexdigest c].
    repeat split; auto.
Qed.

Lemma logins_filtered (l : list params) :
  Forall (fun p => is_login p = true) l ->
  commands l = [] /\ filter is_power l = [] /\ filter is_color l = []
  /\ filter is_color_or_level l = [].
Proof.
  intros H. unfold commands.
  repeat split; apply filter_nothing; eapply Forall_impl; try exact H;
    intros p Hp; cbv beta; unfold is_color_or_level;
    destruct (login_is_no_command p Hp) as (Hpower & Hcolor & Hlevel).
  - now rewrite Hp.
  - exact Hpower.
  - exact Hcolor.
  - now rewrite Hcolor, Hlevel.
Qed.

(** A command method: the login, then the command. *)
Lemma command_run (p : params) (c : controller) :
  (_ensure_login hub b64encode md5_hexdigest ;; send_command hub p) c
  = send_command hub p (snd (_ensure_login hub b64encode md5_hexdigest c)).
Proof.
  unfold bind.
  now destruct (ensure_login_run hub b64encode md5_hexdigest c)
    as (ok & c' & -> & _).
Qed.

Lemma command_sends (p : params) (c : controller) :
  exists b c' l,
    (_ensure_login hub b64encode md5_hexdigest ;; send_command hub p) c = (Ok b, c')
    /\ sent c' = sent c ++ l ++ [p]
    /\ Forall (fun p => is_login p = true) l.
Proof.
  rewrite command_run.
  destruct (ensure_login_sends c) as (b & c' & l & -> & Hs & Hl).
  rewrite send_command_run. simpl.
  eexists _, _, l. split; [reflexivity|]. simpl.
  now rewrite Hs, app_assoc.
Qed.

(** ** Counting colour and brightness commands *)

Lemma adds_ret {A} (a : A) : adds_at_most 0 (ret a).
Proof.
  intros c. exists []. rewrite app_nil_r. auto.
Qed.

Lemma adds_lift {A} (r : result A) : adds_at_most 0 (lift r).
Proof.
  intros c. exists []. rewrite app_nil_r. auto.
Qed.

Lemma adds_bind {A B} (m : M A) (k : A -> M B) (n1 n2 : nat) :
  adds_at_most n1 m -> (forall a, adds_at_most n2 (k a)) ->
  adds_at_most (n1 + n2) (bind m k).
Proof.
  intros Hm Hk c. unfold bind. destruct (Hm c) as (l1 & E1 & N1).
  destruct (m c) as [[a|e] c1]; simpl in E1 |- *.
  - destruct (Hk a c1) as (l2 & E2 & N2). exists (l1 ++ l2).
    rewrite E2, E1, app_assoc, filter_app, length_app. split; [reflexivity|lia].
  - exists l1. split; [assumption|lia].
Qed.

Lemma adds_more {A} (m : M A) (n n' : nat) :
  (n <= n')%nat -> adds_at_most n m -> adds_at_most n' m.
Proof.
  intros Hn H c. destruct (H c) as (l & E & N). exists l. split; [assumption|lia].
Qed.

Lemma adds_ensure_login :
  adds_at_most 0 (_ensure_login hub b64encode md5_hexdigest).
Proof.
  intros c. destruct (ensure_login_sends c) as (b & c' & l & -> & Hs & Hl).
  exists l. split; [assumption|].
  destruct (logins_filtered l Hl) as (_ & _ & _ & ->). auto.
Qed.

Lemma adds_send_command (p : params) : adds_at_most 1 (send_command hub p).
Proof.
  intros c. rewrite send_command_run. exists [p]. split; [reflexivity|].
  simpl. destruct (is_color_or_level p); simpl; lia.
Qed.

Lemma adds_power_command (param : string) (idx : Z) (command : value) :
  param = "switchlight" \/ param = "switchscene" ->
  adds_at_most 0 (send_command hub (switch_params param idx command)).
Proof.
  intros Hparam c. rewrite send_command_run.
  exists [switch_params param idx command]. split; [reflexivity|].
  destruct Hparam as [-> | ->]; destruct (truthy command) eqn:E;
    unfold switch_params; rewrite E; simpl; lia.
Qed.

Lemma adds_command (p : params) :
  adds_at_most 1
    (_ensure_login hub b64encode md5_hexdigest ;; send_command hub p).
Proof.
  apply (adds_bind _ _ 0 1); [apply adds_ensure_login|].
  intros _. apply adds_send_command.
Qed.

Lemma adds_checked_command (r : result params) :
  adds_at_most 1
    (_ensure_login hub b64encode md5_hexdigest ;;
     p <- lift r ;; send_command hub p).
Proof.
  apply (adds_bind _ _ 0 1); [apply adds_ensure_login|].
  intros _. apply (adds_bind _ _ 0 1); [apply adds_lift|].
  intros p. apply adds_send_command.
Qed.

Lemma adds_then_ret {A B} (m : M A) (b : B) (n : nat) :
  adds_at_most n m -> adds_at_most n (m ;; ret b).
Proof.
  intros H. replace n with (n + 0)%nat by lia.
  apply adds_bind; [assumption|]. intros _. apply adds_ret.
Qed.

(** The power command is no colour or brightness command. *)
Lemma adds_control_on (light_id : string) (device : device) (data : dict value) :
  adds_at_most 0
    (control_on hub b64encode md5_hexdigest light_id device data).
Proof.
  unfold control_on. destruct (dict_mem "on" data); [|apply adds_ret].
  apply adds_then_ret.
  destruct (is_scene device); unfold switch_scene, switch_light;
    (apply (adds_bind _ _ 0 0); [apply adds_ensure_login|]);
    intros _; apply adds_power_command; auto.
Qed.

(** Rules 2 to 4: whatever the descriptor and the body, at most one
    colour or brightness command. *)
Lemma adds_control_color (light_id : string) (device : device) (data : dict value) :
  adds_at_most 1
    (control_color hub b64encode md5_hexdigest json_dumps light_id device data).
Proof.
  unfold control_color.
  destruct (String.eqb (type device) "rgb" && negb (is_scene device)).
  - destruct (is_not_None (get "ct" data)).
    { apply adds_then_ret. unfold set_white_color. apply adds_checked_command. }
    destruct (is_not_None (get "hue" data) || is_not_None (get "sat" data)).
    { apply adds_then_ret. unfold set_rgb_color. apply adds_checked_command. }
    destruct (is_not_None (get "bri" data)); [|apply (adds_more _ 0); [lia|apply adds_ret]].
    apply adds_then_ret. unfold set_brightness.
    apply (adds_bind _ _ 0 1); [apply adds_ensure_login|].
    intros _. apply (adds_bind _ _ 0 1); [apply adds_lift|].
    intros level. apply adds_send_command.
  - destruct (String.eqb (type device) "dimmer" && dict_mem "bri" data
              && negb (is_scene device)).
    { apply (adds_bind _ _ 0 1); [apply adds_lift|].
      intros level. apply adds_then_ret. unfold set_dimmer. apply adds_command. }
    apply (adds_more _ 0); [lia|].
    destruct ((String.eqb (type device) "switch" || String.eqb (type device) "scene")
              && dict_mem "bri" data); apply adds_ret.
Qed.

Lemma adds_control_light (light_id : string) (data : dict value) :
  adds_at_most 1
    (_control_light hub b64encode md5_hexdigest json_dumps devices light_id data).
Proof.
  unfold _control_light. destruct (dict_get light_id devices) as [device|].
  - apply (adds_bind _ _ 0 1); [apply adds_control_on|].
    intros r1. replace 1%nat with (1 + 0)%nat by lia.
    apply adds_bind; [apply adds_control_color|]. intros r2. apply adds_ret.
  - apply (adds_more _ 0); [lia|apply adds_ret].
Qed.

(** ** The power command *)

(** [control_on] never raises; with ["on"] in the body it sends the power
    command after a possible login, without it it sends nothing. *)
Lemma control_on_run (light_id : string) (device : device) (data : dict value)
    (c : controller) :
  exists c1 l,
    control_on hub b64encode md5_hexdigest light_id device data c
    = (Ok (if dict_mem "on" data
           then [Success (state_path light_id "on") (get "on" data)]
           else []), c1)
    /\ sent c1
       = sent c ++ l
         ++ (if dict_mem "on" data
             then [switch_params (if is_scene device then "switchscene"
                                  else "switchlight")
                     (idx device) (get "on" data)]
             else [])
    /\ Forall (fun p => is_login p = true) l.
Proof.
  unfold control_on. destruct (dict_mem "on" data).
  - unfold bind at 1.
    destruct (is_scene device); unfold switch_scene, switch_light;
      match goal with
      | |- context [bind _ (fun _ => send_command hub ?p) c] =>
          destruct (command_sends p c) as (b & c1 & l & -> & Hs & Hl)
      end; exists c1, l; auto.
  - exists c, []. rewrite !app_nil_r. auto.
Qed.

(** [set_rgb_color] on integers. *)
Lemma rgb_params_ints (idx h s b : Z) :
  rgb_params idx (VInt h) (VInt s) (VInt b)
  = Ok [("type", VStr "command"); ("param", VStr "setcolbrightnessvalue");
        ("idx", VInt idx); ("iswhite", VStr "false");
        ("hue", VInt (scale h 360 65535));
        ("saturation", VInt (scale s 100 254));
        ("brightness", VInt (scale b 100 254))].
Proof. reflexivity. Qed.

(** ** The entries for one field *)

Lemma append_cancel (a x y : string) :
  (a ++ x)%string = (a ++ y)%string -> x = y.
Proof.
  induction a as [|ch a IH]; simpl; [auto|]. intros [= H]. auto.
Qed.

Lemma state_path_inj (light_id f f' : string) :
  state_path light_id f = state_path light_id f' -> f = f'.
Proof.
  unfold state_path. intros H.
  apply append_cancel in H. apply append_cancel in H.
  now apply append_cancel in H.
Qed.

Lemma other_field (light_id f v : _) :
  f <> "bri" ->
  acknowledges light_id "bri" (Success (state_path light_id f) v) = false.
Proof.
  intros Hf. cbn [acknowledges]. apply String.eqb_neq. intros H.
  now apply state_path_inj in H.
Qed.

Lemma bri_field (light_id : string) (v : value) :
  acknowledges light_id "bri" (Success (state_path light_id "bri") v) = true.
Proof.
  cbn [acknowledges]. apply String.eqb_refl.
Qed.

Lemma then_ret_entries {A B} (m : M A) (b r : B) (c : controller) :
  fst ((m ;; ret b) c) = Ok r -> r = b.
Proof.
  unfold bind, ret. destruct (m c) as [[a|e] c']; simpl; congruence.
Qed.

Lemma count_if_present (light_id f : string) (v : value) :
  (List.length (filter (acknowledges light_id "bri")
                  (success_if_present light_id f v))
   <= if String.eqb f "bri" then 1 else 0)%nat.
Proof.
  unfold success_if_present. destruct (is_not_None v); cbn [filter];
    [|destruct (String.eqb f "bri"); simpl; lia].
  destruct (String.eqb_spec f "bri") as [->|Hf].
  - rewrite bri_field. simpl. lia.
  - rewrite other_field by assumption. simpl. lia.
Qed.

(** Rules 2 to 4 answer with at most one entry for [bri]. *)
Lemma control_color_one_bri (light_id : string) (device : device)
    (data : dict value) (c : controller) (r : list entry) :
  fst (control_color hub b64encode md5_hexdigest json_dumps light_id device data c)
  = Ok r ->
  (List.length (filter (acknowledges light_id "bri") r) <= 1)%nat.
Proof.
  unfold control_color.
  destruct (String.eqb (type device) "rgb" && negb (is_scene device)).
  - destruct (is_not_None (get "ct" data)).
    { intros H. apply then_ret_entries in H. subst r.
      cbn [app filter]. rewrite other_field by discriminate.
      apply (count_if_present light_id "bri"). }
    destruct (is_not_None (get "hue" data) || is_not_None (get "sat" data)).
    { intros H. apply then_ret_entries in H. subst r.
      rewrite !filter_app, !length_app.
      pose proof (count_if_present light_id "hue" (get "hue" data)) as H1.
      pose proof (count_if_present light_id "sat" (get "sat" data)) as H2.
      pose proof (count_if_present light_id "bri" (get "bri" data)) as H3.
      simpl in H1, H2, H3. lia. }
    destruct (is_not_None (get "bri" data)).
    { intros H. apply then_ret_entries in H. subst r.
      cbn [filter]. rewrite bri_field. simpl. lia. }
    unfold ret. simpl. intros [= <-]. simpl. lia.
  - destruct (String.eqb (type device) "dimmer" && dict_mem "bri" data
              && negb (is_scene device)).
    { unfold bind at 1, lift.
      destruct (rbind (num_of (get "bri" data)) _) as [level|e]; [|discriminate].
      intros H. apply then_ret_entries in H. subst r.
      cbn [filter]. rewrite bri_field. simpl. lia. }
    destruct ((String.eqb (type device) "switch" || String.eqb (type device) "scene")
              && dict_mem "bri" data); unfold ret; cbn [fst]; intros [= <-].
    + cbn [filter]. rewrite bri_field. simpl. lia.
    + simpl. lia.
Qed.

Lemma control_light_one_bri (light_id : string) (data : dict value)
    (c : controller) (r : list entry) :
  fst (_control_light hub b64encode md5_hexdigest json_dumps devices light_id data c)
  = Ok r ->
  (List.length (filter (acknowledges light_id "bri") r) <= 1)%nat.
Proof.
  unfold _control_light. destruct (dict_get light_id devices) as [device|].
  - unfold bind at 1.
    destruct (control_on_run light_id device data c) as (c1 & l & -> & _).
    unfold bind at 1.
    destruct (control_color hub b64encode md5_hexdigest json_dumps light_id
                device data c1) as [[r2|e] c2] eqn:E; [|discriminate].
    unfold ret. simpl. intros [= <-].
    pose proof (control_color_one_bri light_id device data c1 r2) as H.
    rewrite E in H. specialize (H eq_refl).
    rewrite filter_app, length_app.
    destruct (dict_mem "on" data); [|simpl; lia].
    cbn [filter]. rewrite other_field by discriminate. simpl. lia.
  - unfold ret. simpl. intros [= <-]. simpl. lia.
Qed.

(** C3: on a registered [rgb] light that is no scene, a body that carries
    [on] and integer [hue], [sat] and [bri] in the ranges of the Hue API
    (0-65535, 0-254, 0-254), and no [ct], which by rule 2 would select the
    white branch, is answered with exactly the four success entries for
    [on], [hue], [sat], [bri]; the hub receives, apart from logins, exactly
    one power command and one colour command, which carries the integer
    parts of [hue*360/65535], [sat*100/254] and [bri*100/254].  And
    whatever the light and the body, one PUT sends at most one colour or
    brightness command and answers with at most one entry for [bri]: at
    most one of rules 2 to 4 runs. *)
Theorem rgb_put_four_fields (light_id : string) (device : device)
    (data : dict value) (v_on : value) (h s b : Z) (c : controller) :
  dict_get light_id devices = Some device ->
  type device = "rgb" ->
  is_scene device = false ->
  dict_get "on" data = Some v_on ->
  dict_get "hue" data = Some (VInt h) ->
  dict_get "sat" data = Some (VInt s) ->
  dict_get "bri" data = Some (VInt b) ->
  get "ct" data = VNone ->
  0 <= h <= 65535 ->
  0 <= s <= 254 ->
  0 <= b <= 254 ->
  let run := _control_light hub b64encode md5_hexdigest json_dumps devices
               light_id data c in
  let new := requests_since c (snd run) in
  fst run = Ok [Success (state_path light_id "on") v_on;
                Success (state_path light_id "hue") (VInt h);
                Success (state_path light_id "sat") (VInt s);
                Success (state_path light_id "bri") (VInt b)]
  /\ commands new
     = [switch_params "switchlight" (idx device) v_on;
        [("type", VStr "command"); ("param", VStr "setcolbrightnessvalue");
         ("idx", VInt (idx device)); ("iswhite", VStr "false");
         ("hue", VInt (h * 360 / 65535));
         ("saturation", VInt (s * 100 / 254));
         ("brightness", VInt (b * 100 / 254))]]
  /\ List.length (filter is_power new) = 1%nat
  /\ List.length (filter is_color new) = 1%nat
  /\ (forall light_id' data' c',
        let run' := _control_light hub b64encode md5_hexdigest json_dumps
                      devices light_id' data' c' in
        (List.length
           (filter is_color_or_level (requests_since c' (snd run'))) <= 1)%nat
        /\ (forall entries, fst run' = Ok entries ->
              (List.length (filter (acknowledges light_id' "bri") entries)
               <= 1)%nat)).
Proof.
  intros Hdev Htype Hscene Hon Hhue Hsat Hbri Hct Hh Hs Hb run new.
  rewrite <- (DomoticzFacts.scale_floor h 360 65535),
          <- (DomoticzFacts.scale_floor s 100 254),
          <- (DomoticzFacts.scale_floor b 100 254) by lia.
  assert (Hall' : forall light_id' data' c',
             (List.length
                (filter is_color_or_level
                   (requests_since c'
                      (snd (_control_light hub b64encode md5_hexdigest json_dumps
                              devices light_id' data' c')))) <= 1)%nat).
  { intros light_id' data' c'.
    destruct (adds_control_light light_id' data' c') as (l & E & N).
    now rewrite (requests_since_app _ _ _ E). }
  assert (Hall : forall light_id' data' c',
             let run' := _control_light hub b64encode md5_hexdigest json_dumps
                           devices light_id' data' c' in
             (List.length
                (filter is_color_or_level (requests_since c' (snd run'))) <= 1)%nat
             /\ (forall entries, fst run' = Ok entries ->
                   (List.length (filter (acknowledges light_id' "bri") entries)
                    <= 1)%nat)).
  { intros light_id' data' c' run'. split; [apply Hall'|].
    intros entries. apply control_light_one_bri. }
  clear Hall'.
  assert (Gon : get "on" data = v_on) by (unfold get, get_or; now rewrite Hon).
  assert (Ghue : get "hue" data = VInt h) by (unfold get, get_or; now rewrite Hhue).
  assert (Gsat : get "sat" data = VInt s) by (unfold get, get_or; now rewrite Hsat).
  assert (Gbri : get "bri" data = VInt b) by (unfold get, get_or; now rewrite Hbri).
  assert (Mon : dict_mem "on" data = true) by (unfold dict_mem; now rewrite Hon).
  destruct (control_on_run light_id device data c) as (c1 & l1 & E1 & S1 & L1).
  rewrite Mon, Gon in E1. rewrite Mon, Gon, Hscene in S1.
  set (p := [("type", VStr "command"); ("param", VStr "setcolbrightnessvalue");
             ("idx", VInt (idx device)); ("iswhite", VStr "false");
             ("hue", VInt (scale h 360 65535));
             ("saturation", VInt (scale s 100 254));
             ("brightness", VInt (scale b 100 254))]).
  destruct (command_sends p c1) as (ok & c2 & l2 & E2 & S2 & L2).
  assert (Erun : run
                 = (Ok [Success (state_path light_id "on") v_on;
                        Success (state_path light_id "hue") (VInt h);
                        Success (state_path light_id "sat") (VInt s);
                        Success (state_path light_id "bri") (VInt b)], c2)).
  { subst run. unfold _control_light. rewrite Hdev.
    unfold bind at 1. rewrite E1.
    unfold bind at 1. unfold control_color.
    rewrite Htype, Hscene, Hct, Ghue, Gsat, Gbri. cbn [String.eqb Ascii.eqb Bool.eqb andb negb is_not_None orb].
    unfold bind at 1. unfold set_rgb_color.
    assert (Ergb : (_ensure_login hub b64encode md5_hexdigest ;;
                    p0 <- lift (rgb_params (idx device) (VInt h) (VInt s) (VInt b)) ;;
                    send_command hub p0) c1 = (Ok ok, c2)).
    { rewrite <- E2. unfold bind.
      destruct (_ensure_login hub b64encode md5_hexdigest c1) as [[b0|e0] c0];
        [|reflexivity].
      rewrite rgb_params_ints. reflexivity. }
    rewrite Ergb. reflexivity. }
  assert (Enew : new = (l1 ++ [switch_params "switchlight" (idx device) v_on])
                       ++ l2 ++ [p]).
  { subst new. rewrite Erun. apply requests_since_app. simpl.
    now rewrite S2, S1, !app_assoc. }
  destruct (logins_filtered l1 L1) as (C1 & P1 & K1 & _).
  destruct (logins_filtered l2 L2) as (C2 & P2 & K2 & _).
  rewrite Erun, Enew. unfold commands in *.
  rewrite !filter_app, C1, C2, P1, P2, K1, K2.
  split; [reflexivity|]. split; [reflexivity|].
  split; [|split; [reflexivity|exact Hall]].
  unfold switch_params. now destruct (truthy v_on).
Qed.

(** C4: a PUT on a light id that the registry does not hold is answered
    with exactly one entry, the error "Light not found"; the controller,
    and with it the list of requests sent to the hub, is left as it was. *)
Theorem unknown_light_one_error_no_hub_call (light_id : string)
    (data : dict value) (c : controller) :
  dict_get light_id devices = None ->
  _control_light hub b64encode md5_hexdigest json_dumps devices light_id data c
  = (Ok [Error "Light not found"], c)
  /\ requests_since c
       (snd (_control_light hub b64encode md5_hexdigest json_dumps devices
               light_id data c)) = [].
Proof.
  intros Hdev.
  assert (E : _control_light hub b64encode md5_hexdigest json_dumps devices
                light_id data c = (Ok [Error "Light not found"], c)).
  { unfold _control_light. now rewrite Hdev. }
  split; [exact E|].
  rewrite E. apply requests_since_app. simpl. now rewrite app_nil_r.
Qed.

(** C9: on a light of capability type [switch] or [scene], a body that
    contains [bri] is answered with the entries of the same body without
    [bri] followed by a success entry echoing [bri]; the controller ends
    as it does for the body without [bri], and no colour or brightness
    command is among the requests sent. *)
Theorem bri_acknowledged_without_hub_call (light_id : string) (device : device)
    (data : dict value) (c : controller) :
  dict_get light_id devices = Some device ->
  type device = "switch" \/ type device = "scene" ->
  dict_mem "bri" data = true ->
  exists entries c',
    _control_light hub b64encode md5_hexdigest json_dumps devices light_id
      (dict_remove "bri" data) c = (Ok entries, c')
    /\ _control_light hub b64encode md5_hexdigest json_dumps devices light_id data c
       = (Ok (entries ++ [Success (state_path light_id "bri") (get "bri" data)]), c')
    /\ filter is_color_or_level (requests_since c c') = [].
Proof.
  intros Hdev Htype Hbri.
  assert (Hon : forall d : dict value,
             dict_get "on" (dict_remove "bri" d) = dict_get "on" d)
    by (intros d; apply dict_get_remove_other; discriminate).
  assert (Econ : control_on hub b64encode md5_hexdigest light_id device
                   (dict_remove "bri" data)
                 = control_on hub b64encode md5_hexdigest light_id device data).
  { unfold control_on, dict_mem, get, get_or. now rewrite Hon. }
  assert (Ergb : String.eqb (type device) "rgb" = false)
    by (destruct Htype as [-> | ->]; reflexivity).
  assert (Edim : String.eqb (type device) "dimmer" = false)
    by (destruct Htype as [-> | ->]; reflexivity).
  assert (Eack : String.eqb (type device) "switch"
                 || String.eqb (type device) "scene" = true)
    by (destruct Htype as [-> | ->]; reflexivity).
  destruct (control_on_run light_id device data c) as (c1 & l1 & E1 & S1 & L1).
  exists (if dict_mem "on" data
          then [Success (state_path light_id "on") (get "on" data)] else []), c1.
  split; [|split].
  - unfold _control_light. rewrite Hdev. unfold bind at 1. rewrite Econ, E1.
    unfold bind at 1. unfold control_color.
    rewrite Ergb, Edim, Eack.
    replace (dict_mem "bri" (dict_remove "bri" data)) with false
      by (unfold dict_mem; now rewrite dict_get_remove_same).
    simpl. unfold ret. now rewrite app_nil_r.
  - unfold _control_light. rewrite Hdev. unfold bind at 1. rewrite E1.
    unfold bind at 1. unfold control_color.
    rewrite Ergb, Edim, Eack, Hbri. reflexivity.
  - destruct (adds_control_on light_id device data c) as (l & El & N).
    rewrite E1 in El. simpl in El.
    rewrite (requests_since_app _ _ _ El).
    destruct (filter is_color_or_level l); [reflexivity|simpl in N; lia].
Qed.

End Handler.

(** The body of section 8 of the specification, on light "1". *)
Lemma rgb_put_four_fields_witness :
  let body := [("on", VBool true); ("hue", VInt 10000); ("sat", VInt 200);
               ("bri", VInt 150)] in
  let run := _control_light Example.hub_ok Example.plain Example.plain
               Example.dumps Example.registry "1" body Example.admin in
  dict_get "1" Example.registry = Some Example.lamp
  /\ fst run = Ok [Success "/lights/1/state/on" (VBool true);
                   Success "/lights/1/state/hue" (VInt 10000);
                   Success "/lights/1/state/sat" (VInt 200);
                   Success "/lights/1/state/bri" (VInt 150)]
  /\ List.length (filter is_power (requests_since Example.admin (snd run))) = 1%nat
  /\ List.length (filter is_color (requests_since Example.admin (snd run))) = 1%nat.
Proof.
  intros body run. split; [reflexivity|].
  destruct (rgb_put_four_fields Example.hub_ok Example.plain Example.plain
              Example.dumps Example.registry "1" Example.lamp body
              (VBool true) 10000 200 150 Example.admin)
    as (Hentries & _ & Hpower & Hcolor & _); try reflexivity; try lia.
  split; [exact Hentries|]. split; [exact Hpower | exact Hcolor].
Defined.

(** Light "9" is not in the registry. *)
Lemma unknown_light_one_error_no_hub_call_witness :
  dict_get "9" Example.registry = None
  /\ _control_light Example.hub_ok Example.plain Example.plain Example.dumps
       Example.registry "9" [("on", VBool true)] Example.admin
     = (Ok [Error "Light not found"], Example.admin).
Proof.
  split; [reflexivity|].
  apply (unknown_light_one_error_no_hub_call Example.hub_ok Example.plain
           Example.plain Example.dumps Example.registry "9").
  reflexivity.
Defined.

(** Alexa switches the plug on and sends a brightness along. *)
Lemma bri_acknowledged_without_hub_call_witness :
  dict_get "2" Example.registry = Some Example.plug
  /\ exists entries c',
       _control_light Example.hub_ok Example.plain Example.plain Example.dumps
         Example.registry "2" [("on", VBool true); ("bri", VInt 254)]
         Example.anonymous
       = (Ok (entries ++ [Success "/lights/2/state/bri" (VInt 254)]), c')
       /\ filter is_color_or_level (requests_since Example.anonymous c') = [].
Proof.
  split; [reflexivity|].
  destruct (bri_acknowledged_without_hub_call Example.hub_ok Example.plain
              Example.plain Example.dumps Example.registry "2" Example.plug
              [("on", VBool true); ("bri", VInt 254)] Example.anonymous)
    as (entries & c' & _ & Hrun & Hnone);
    [reflexivity | left; reflexivity | reflexivity |].
  exists entries, c'. split; [exact Hrun | exact Hnone].
Defined.

End ControlProps.

(* ================================================================== *)
(** * The discovery responder *)
(* ================================================================== *)

Module SSDPProps.
Import SSDP.

Lemma prefix_occurs (a b : string) :
  String.prefix a b = true <-> exists after, b = (a ++ after)%string.
Proof.
  revert b. induction a as [|x a IH]; intros b.
  - split; [intros _; now exists b | intros _; now destruct b].
  - destruct b as [|y b]; simpl.
    + split; [discriminate | intros (after & H); discriminate H].
    + destruct (ascii_dec x y) as [->|Hxy].
      * rewrite IH. split; intros (after & H); exists after.
        -- now rewrite H.
        -- now injection H.
      * split; [discriminate|]. intros (after & H). injection H as H1 _.
        congruence.
Qed.

(** [contains] decides occurrence. *)
Lemma contains_occurs (a b : string) :
  contains a b = true <-> Spec.occurs a b.
Proof.
  unfold Spec.occurs. induction b as [|y b IH]; cbn [contains].
  - rewrite orb_false_r, prefix_occurs. split.
    + intros (after & H). now exists ""%string, after.
    + intros ([|z before] & after & H); [now exists after|discriminate H].
  - rewrite orb_true_iff, prefix_occurs, IH. split.
    + intros [(after & H) | (before & after & H)].
      * now exists ""%string, after.
      * exists (String y before), after. simpl. now rewrite H.
    + intros ([|z before] & after & H).
      * left. now exists after.
      * right. injection H as _ H. now exists before, after.
Qed.

Lemma lower_app (a b : string) :
  lower (a ++ b) = (lower a ++ lower b)%string.
Proof.
  induction a as [|x a IH]; simpl; [reflexivity|]. now rewrite IH.
Qed.

Lemma lower_split (s a b : string) :
  lower s = (a ++ b)%string ->
  exists a' b', s = (a' ++ b')%string /\ lower a' = a /\ lower b' = b.
Proof.
  revert s. induction a as [|x a IH]; intros s H; simpl in H.
  - now exists ""%string, s.
  - destruct s as [|y s]; [discriminate H|]. simpl in H.
    injection H as Hx H. destruct (IH s H) as (a' & b' & -> & Ha & Hb).
    exists (String y a'), b'. simpl. now rewrite Hx, Ha, Hb.
Qed.

(** Occurrence in the lowered message is occurrence in any case. *)
Lemma contains_lower (token message : string) :
  contains (lower token) (lower message) = true
  <-> Spec.occurs_nocase token message.
Proof.
  rewrite contains_occurs. unfold Spec.occurs_nocase, Spec.occurs. split.
  - intros (before & after & H).
    destruct (lower_split _ _ _ H) as (b' & rest & -> & Hb & Hrest).
    destruct (lower_split _ _ _ Hrest) as (t & a' & -> & Ht & Ha).
    exists t. split; [assumption|]. now exists b', a'.
  - intros (t & Ht & before & after & ->).
    exists (lower before), (lower after). now rewrite !lower_app, Ht.
Qed.

Lemma occurs_is_occurs_nocase (token message : string) :
  Spec.occurs token message -> Spec.occurs_nocase token message.
Proof.
  intros H. now exists token.
Qed.

Section Responder.

Variable address : Type.
Variable bridge_ip : string.
Variable http_port : Z.
Variable BRIDGE_ID : string.
Variable BRIDGE_UUID : string.

(** C2 (as amended): the responder answers a datagram with exactly one
    unicast reply to its sender if and only if the message contains
    [M-SEARCH] (in this spelling) and one of: [ssdp:all] in this spelling,
    [device:basic] in any mix of cases, [upnp:rootdevice] in this spelling;
    otherwise it sends nothing.  In particular a datagram that contains
    none of the three tokens, in whatever case, gets no reply. *)
Theorem reply_iff_search (message : string) (addr : address) :
  let sent := listen_step address bridge_ip http_port BRIDGE_ID BRIDGE_UUID
                (Datagram address message addr) in
  let search :=
    Spec.occurs "M-SEARCH" message
    /\ (Spec.occurs "ssdp:all" message
        \/ Spec.occurs_nocase "device:basic" message
        \/ Spec.occurs "upnp:rootdevice" message) in
  (sent = [(response_text bridge_ip http_port BRIDGE_ID BRIDGE_UUID, addr)]
   <-> search)
  /\ (sent = [] <-> ~ search)
  /\ (~ (Spec.occurs_nocase "ssdp:all" message
         \/ Spec.occurs_nocase "device:basic" message
         \/ Spec.occurs_nocase "upnp:rootdevice" message) ->
      sent = []).
Proof.
  intros sent search.
  assert (R : is_search message = true <-> search).
  { unfold is_search, search.
    change (contains "device:basic" (lower message))
      with (contains (lower "device:basic") (lower message)).
    rewrite andb_true_iff, !orb_true_iff, contains_lower, !contains_occurs.
    tauto. }
  assert (S : sent = if is_search message
                     then [(response_text bridge_ip http_port BRIDGE_ID BRIDGE_UUID, addr)]
                     else []) by reflexivity.
  split; [|split].
  - rewrite <- R, S. destruct (is_search message); split; auto; discriminate.
  - rewrite <- R, S. destruct (is_search message); split; auto;
      try discriminate. intros H. now elim H.
  - intros H. rewrite S. destruct (is_search message); [|reflexivity].
    destruct (proj1 R eq_refl) as (_ & [E | [E | E]]); exfalso; apply H;
      auto using occurs_is_occurs_nocase.
Qed.

End Responder.

(** C2, the claim as worded, fails in both directions of its "if and only
    if": a message with the search-all token but without [M-SEARCH] gets no
    reply, and neither does an [M-SEARCH] whose search-all token is in
    upper case, although both contain a token case-insensitively. *)
Lemma token_alone_gets_no_reply :
  (Spec.looks_like_search "ST: ssdp:all" = true
   /\ listen_step unit "192.168.1.2" 80 "001788FFFE000001" "uuid"
        (Datagram unit "ST: ssdp:all" tt) = [])
  /\ (Spec.looks_like_search "M-SEARCH * HTTP/1.1 ST: SSDP:ALL" = true
      /\ listen_step unit "192.168.1.2" 80 "001788FFFE000001" "uuid"
           (Datagram unit "M-SEARCH * HTTP/1.1 ST: SSDP:ALL" tt) = []).
Proof.
  repeat split.
Qed.

End SSDPProps.

(* ================================================================== *)
(** * The status query *)
(* ================================================================== *)

Module StatusProps.
Import Py Domoticz Observe PyFacts DomoticzFacts.

(** A scene answer whose ["result"] is no list decodes to nothing, or
    raises. *)
Lemma scene_status_not_a_list (idx : Z) (d : dict value) :
  (forall l, get_or "result" (VList []) d <> VList l) ->
  scene_status idx (VDict d) = Ok None
  \/ exists e, scene_status idx (VDict d) = Raise e.
Proof.
  intros H. unfold scene_status. cbn [method_get rbind].
  destruct (get_or "result" (VList []) d) as [| | |s|l|m];
    try (right; eexists; reflexivity).
  - destruct s as [|a s]; [left; reflexivity|right; eexists; reflexivity].
  - now elim (H l).
  - destruct m as [|[k v] m]; [left; reflexivity|right; eexists; reflexivity].
Qed.

Section Query.

Variable hub : list params -> params -> outcome.
Variable b64encode : string -> string.
Variable md5_hexdigest : string -> string.
Variable json_loads : string -> option value.

(** A device answer whose ["result"] is not a list that starts with an
    object decodes to nothing, or raises. *)
Lemma device_status_no_object (d : dict value) :
  (forall device rest, get "result" d <> VList (VDict device :: rest)) ->
  device_status json_loads (VDict d) = Ok None
  \/ exists e, device_status json_loads (VDict d) = Raise e.
Proof.
  intros H. unfold device_status. cbn [method_get rbind].
  fold (get "result" d).
  destruct (get "result" d) as [|b|z|s|l|m]; cbn [truthy].
  - now left.
  - destruct b; [right; eexists; reflexivity|now left].
  - destruct (z =? 0); [now left|right; eexists; reflexivity].
  - destruct s as [|a s]; [now left|right; eexists; reflexivity].
  - destruct l as [|x l]; [now left|].
    destruct x; try (right; eexists; reflexivity).
    now elim (H d0 l).
  - destruct m as [|kv m]; [now left|right; eexists; reflexivity].
Qed.

(** [get_device_status] in one step: the login, the query, and the status
    decoded from the answer. *)
Lemma get_device_status_run (idx : Z) (is_scene : bool) (c : controller) :
  let c1 := snd (_ensure_login hub b64encode md5_hexdigest c) in
  get_device_status hub b64encode md5_hexdigest json_loads idx is_scene c
  = (Ok (decoded json_loads idx is_scene
           (hub (sent c1) (status_params idx is_scene))),
     with_sent c1 (sent c1 ++ [status_params idx is_scene])).
Proof.
  unfold get_device_status, bind at 1.
  destruct (ensure_login_run hub b64encode md5_hexdigest c)
    as (ok & c1 & -> & _).
  cbn [snd]. unfold bind, try_except, session_get, lift, ret, decoded.
  destruct (hub (sent c1) (status_params idx is_scene)) as [|code [|data]];
    cbn [json rbind snd]; try reflexivity.
  destruct (if is_scene then scene_status idx data
            else device_status json_loads data) as [[st|]|e]; reflexivity.
Qed.

(** C8 (as amended): [get_device_status] never raises, and it returns the
    default all-off status when the query meets a transport failure, a
    body that is no JSON, a JSON body that is no object, or an object whose
    ["result"] is, for a device, not a list starting with an object and,
    for a scene, not a list.  The status code of the answer is not looked
    at: the status returned is decoded from the body alone. *)
Theorem status_query_failures_give_default (idx : Z) (is_scene : bool)
    (c : controller) :
  let c1 := snd (_ensure_login hub b64encode md5_hexdigest c) in
  let answer := hub (sent c1) (status_params idx is_scene) in
  let result :=
    fst (get_device_status hub b64encode md5_hexdigest json_loads idx is_scene c) in
  (exists st, result = Ok st)
  /\ (answer = Failed -> result = Ok default_status)
  /\ (forall code, answer = Response code NotJson -> result = Ok default_status)
  /\ (forall code data, answer = Response code (Json data) ->
        (forall d, data <> VDict d) -> result = Ok default_status)
  /\ (forall code d, answer = Response code (Json (VDict d)) ->
        is_scene = false ->
        (forall device rest, get "result" d <> VList (VDict device :: rest)) ->
        result = Ok default_status)
  /\ (forall code d, answer = Response code (Json (VDict d)) ->
        is_scene = true ->
        (forall l, get_or "result" (VList []) d <> VList l) ->
        result = Ok default_status)
  /\ (forall code b, answer = Response code b ->
        result = Ok (decoded json_loads idx is_scene (Response 200 b))).
Proof.
  intros c1 answer result.
  assert (E : result = Ok (decoded json_loads idx is_scene answer)).
  { subst result. now rewrite get_device_status_run. }
  rewrite E. split; [eexists; reflexivity|].
  split; [now intros ->|]. split; [now intros code ->|].
  split; [|split; [|split]].
  - intros code data -> Hd. unfold decoded. cbn [json rbind].
    destruct data; try (destruct is_scene; reflexivity). now elim (Hd d).
  - intros code d -> -> Hd. unfold decoded. cbn [json rbind].
    destruct (device_status_no_object d Hd) as [-> | (e & ->)]; reflexivity.
  - intros code d -> -> Hd. unfold decoded. cbn [json rbind].
    destruct (scene_status_not_a_list idx d Hd) as [-> | (e & ->)]; reflexivity.
  - now intros code b ->.
Qed.

End Query.

(** C8, the claim as worded, fails for a non-success status: an answer
    with status 500 whose body is well formed is decoded like any other,
    here to a light that is on at brightness 127. *)
Lemma error_status_is_decoded :
  let answer :=
    Response 500
      (Json (VDict [("result",
                     VList [VDict [("Status", VStr "On"); ("Level", VInt 50)]])])) in
  fst (get_device_status (Example.hub_says answer) Example.plain Example.plain
         Example.no_json 10 false Example.anonymous)
  = Ok {| on := true; bri := 127; hue := 0; sat := 0 |}
  /\ fst (get_device_status (Example.hub_says answer) Example.plain Example.plain
            Example.no_json 10 false Example.anonymous)
     <> Ok default_status.
Proof.
  split; [reflexivity|]. intros E. discriminate E.
Qed.

End StatusProps.

(* ================================================================== *)
(** * Double precision against exact rationals *)
(* ================================================================== *)

Module Binary64Props.
Import Py PyFacts.

Lemma same_eq (a : option Z) (b : Z) : Binary64.same a b = true -> a = Some b.
Proof.
  destruct a as [z|]; simpl; [|discriminate].
  intros H. apply Z.eqb_eq in H. now subst.
Qed.

Lemma same_mix_eq (a : option (Z * Z)) (b : Z * Z) :
  Binary64.same_mix a b = true -> a = Some b.
Proof.
  destruct a as [[cw ww]|], b as [cw' ww']; simpl; [|discriminate].
  rewrite andb_true_iff, !Z.eqb_eq. now intros [-> ->].
Qed.

(** In double precision the brightness conversions give, on the ranges of
    the Hue API, what the exact-rational model gives. *)
Theorem binary64_brightness_agrees (bri pct : Z) :
  0 <= bri <= 254 ->
  0 <= pct <= 100 ->
  Binary64.scale bri 100 254 = Some (Domoticz.scale bri 100 254)
  /\ Binary64.div_2_54 bri = Some (int (inject_Z bri / Domoticz.f2_54))
  /\ Binary64.mul_2_54 pct = Some (int (inject_Z pct * Domoticz.f2_54)).
Proof.
  intros Hb Hp. repeat split; apply same_eq.
  - revert bri Hb.
    apply (upto_forall (fun z => Binary64.same (Binary64.scale z 100 254)
                                   (Domoticz.scale z 100 254)) 254).
    vm_compute. reflexivity.
  - revert bri Hb.
    apply (upto_forall (fun z => Binary64.same (Binary64.div_2_54 z)
                                   (int (inject_Z z / Domoticz.f2_54))) 254).
    vm_compute. reflexivity.
  - revert pct Hp.
    apply (upto_forall (fun z => Binary64.same (Binary64.mul_2_54 z)
                                   (int (inject_Z z * Domoticz.f2_54))) 100).
    vm_compute. reflexivity.
Qed.

(** In double precision the white mix of every mired value from 0 to 700
    is the one of the exact-rational model. *)
Theorem binary64_white_mix_agrees (mired : Z) :
  0 <= mired <= 700 ->
  Binary64.white_mix mired = Some (Domoticz.white_mix mired).
Proof.
  intros H. apply same_mix_eq. revert mired H.
  apply (upto_forall (fun z => Binary64.same_mix (Binary64.white_mix z)
                                 (Domoticz.white_mix z)) 700).
  vm_compute. reflexivity.
Qed.

(** In double precision too the round trip stays within 1. *)
Theorem binary64_round_trip_within_one (b : Z) :
  0 <= b <= 254 ->
  exists p p', Binary64.round_trip b = Some (p, p') /\ Z.abs (p' - p) <= 1.
Proof.
  intros H.
  assert (W : Binary64.within_one (Binary64.round_trip b) = true).
  { revert b H. apply (upto_forall (fun z => Binary64.within_one (Binary64.round_trip z)) 254).
    vm_compute. reflexivity. }
  destruct (Binary64.round_trip b) as [[p p']|]; [|discriminate W].
  exists p, p'. split; [reflexivity|]. now apply Z.leb_le.
Qed.

Lemma binary64_round_trip_within_one_witness :
  0 <= 128 <= 254
  /\ exists p p', Binary64.round_trip 128 = Some (p, p') /\ Z.abs (p' - p) <= 1.
Proof.
  split; [lia|]. apply (binary64_round_trip_within_one 128). lia.
Defined.

(** 127 and 50 are where the exact quotient and product are integers. *)
Lemma binary64_brightness_agrees_witness :
  (0 <= 127 <= 254 /\ 0 <= 50 <= 100)
  /\ Binary64.div_2_54 127 = Some 50
  /\ Binary64.mul_2_54 50 = Some 127.
Proof.
  split; [lia|].
  destruct (binary64_brightness_agrees 127 50) as (_ & E1 & E2); [lia | lia |].
  split; [exact E1 | exact E2].
Defined.

(** A temperature inside the range. *)
Lemma binary64_white_mix_agrees_witness :
  0 <= 300 <= 700 /\ Binary64.white_mix 300 = Some (146, 108).
Proof.
  split; [lia|]. apply (binary64_white_mix_agrees 300). lia.
Defined.

End Binary64Props.

(* ================================================================== *)
(** * The session of the hub adapter *)
(* ================================================================== *)

Module SessionProps.
Import Py Registry Domoticz HueAPI Observe ObserveMore PyFacts DomoticzFacts.

Lemma dict_get_set_other {A} (k k' : string) (v : A) (d : dict A) :
  k <> k' -> dict_get k (dict_set k' v d) = dict_get k d.
Proof.
  intros Hk. induction d as [|[k0 v0] d IH]; simpl.
  - destruct (String.eqb_spec k k'); [contradiction|reflexivity].
  - destruct (String.eqb_spec k' k0) as [->|H0]; simpl.
    + destruct (String.eqb_spec k k0); [contradiction|reflexivity].
    + now rewrite IH.
Qed.

Lemma dict_get_set_same {A} (k : string) (v : A) (d : dict A) :
  dict_get k (dict_set k v d) = Some v.
Proof.
  induction d as [|[k0 v0] d IH]; simpl.
  - now rewrite String.eqb_refl.
  - destruct (String.eqb_spec k k0) as [->|H0]; simpl.
    + now rewrite String.eqb_refl.
    + destruct (String.eqb_spec k k0); [contradiction|exact IH].
Qed.

(** The colour commands keep the ["param"] they start with. *)
Lemma add_scaled_param (k : string) (x : value) (num den : Z) (p p' : params) :
  k <> "param" -> add_scaled k x num den p = Ok p' ->
  dict_get "param" p' = dict_get "param" p.
Proof.
  intros Hk. unfold add_scaled. destruct (is_not_None x); [|now intros [= <-]].
  destruct (num_of x) as [z|e]; simpl; [|discriminate].
  intros [= <-]. apply dict_get_set_other. congruence.
Qed.

Lemma rgb_params_param (idx : Z) (h s b : value) (p : params) :
  rgb_params idx h s b = Ok p ->
  dict_get "param" p = Some (VStr "setcolbrightnessvalue").
Proof.
  unfold rgb_params.
  destruct (add_scaled "hue" h 360 65535 _) as [p1|] eqn:E1; [|discriminate].
  cbn [rbind].
  destruct (add_scaled "saturation" s 100 254 p1) as [p2|] eqn:E2; [|discriminate].
  cbn [rbind]. intros E3.
  apply add_scaled_param in E1, E2, E3; try discriminate.
  now rewrite E3, E2, E1.
Qed.

Lemma white_params_param (json_dumps : value -> string) (idx : Z)
    (ct b : value) (p : params) :
  white_params json_dumps idx ct b = Ok p ->
  dict_get "param" p = Some (VStr "setcolbrightnessvalue").
Proof.
  unfold white_params. destruct (num_of ct) as [m|]; [|discriminate].
  cbn [rbind]. destruct (white_mix m) as [cw ww].
  destruct (bri_level b) as [l|]; [|discriminate].
  now intros [= <-].
Qed.

Lemma not_login_by_param (p : params) (name : string) :
  dict_get "param" p = Some (VStr name) -> name <> "logincheck" ->
  is_login p = false.
Proof.
  intros H Hn. unfold is_login, has_param, get, get_or. rewrite H. simpl.
  now apply String.eqb_neq.
Qed.

Section Session.

Variable hub : list params -> params -> outcome.
Variable b64encode : string -> string.
Variable md5_hexdigest : string -> string.
Variable json_loads : string -> option value.
Variable json_dumps : value -> string.
Variable devices : dict device.

(** [_ensure_login] never raises.  Without a user name, or on an
    authenticated session, it sends nothing and changes nothing.  Otherwise
    it sends exactly the login request, and the session is authenticated
    afterwards exactly when the hub answered with a JSON object whose
    ["status"] is ["OK"], whatever the status code; after a refused or
    failed login the session is as before but for the request sent, so that
    the next call logs in again. *)
Theorem ensure_login_once (c : controller) :
  let answer := hub (sent c) (login_params b64encode md5_hexdigest c) in
  _ensure_login hub b64encode md5_hexdigest c
  = if needs_login c
    then (Ok (login_ok answer),
          {| username := username c; password := password c;
             _logged_in := login_ok answer;
             sent := sent c ++ [login_params b64encode md5_hexdigest c] |})
    else (Ok true, c).
Proof.
  unfold _ensure_login, needs_login. cbn [truthy].
  destruct (_logged_in c) eqn:L; cbn [negb orb andb]; [reflexivity|].
  destruct (String.eqb (username c) ""); cbn [negb]; [reflexivity|].
  unfold try_except, bind, session_get, lift, ret, login_ok, with_sent,
    with_logged_in.
  destruct (hub (sent c) _) as [|code [|data]]; cbn; rewrite ?L; try reflexivity.
  destruct data; cbn; rewrite ?L; try reflexivity.
  unfold get. destruct (eq_str (get_or "status" VNone d) "OK"); cbn;
    rewrite ?L; reflexivity.
Qed.

(** ** An authenticated session stays authenticated *)

Lemma stays_ret {A} (a : A) : stays_logged_in (ret a).
Proof.
  intros c L. exists []. rewrite app_nil_r. auto.
Qed.

Lemma stays_lift {A} (r : result A) : stays_logged_in (lift r).
Proof.
  intros c L. exists []. rewrite app_nil_r. auto.
Qed.

Lemma stays_bind {A B} (m : M A) (k : A -> M B) :
  stays_logged_in m -> (forall a, stays_logged_in (k a)) ->
  stays_logged_in (bind m k).
Proof.
  intros Hm Hk c L. unfold bind. destruct (Hm c L) as (l1 & E1 & L1 & F1).
  destruct (m c) as [[a|e] c1]; simpl in E1, L1 |- *.
  - destruct (Hk a c1 L1) as (l2 & E2 & L2 & F2). exists (l1 ++ l2).
    rewrite E2, E1, app_assoc. repeat split; auto using Forall_app.
    apply Forall_app. auto.
  - exists l1. auto.
Qed.

Lemma stays_try {A} (m : M A) (h : exn -> M A) :
  stays_logged_in m -> (forall e, stays_logged_in (h e)) ->
  stays_logged_in (try_except m h).
Proof.
  intros Hm Hh c L. unfold try_except. destruct (Hm c L) as (l1 & E1 & L1 & F1).
  destruct (m c) as [[a|e] c1]; simpl in E1, L1 |- *.
  - exists l1. auto.
  - destruct (Hh e c1 L1) as (l2 & E2 & L2 & F2). exists (l1 ++ l2).
    rewrite E2, E1, app_assoc. repeat split; auto. apply Forall_app. auto.
Qed.

Lemma stays_session_get (p : params) :
  is_login p = false -> stays_logged_in (session_get hub p).
Proof.
  intros Hp c L. exists [p]. unfold session_get.
  destruct (hub (sent c) p); simpl; auto.
Qed.

Lemma stays_ensure_login :
  stays_logged_in (_ensure_login hub b64encode md5_hexdigest).
Proof.
  intros c L. exists []. unfold _ensure_login. rewrite L. simpl.
  rewrite app_nil_r. auto.
Qed.

Lemma stays_send_command (p : params) :
  is_login p = false -> stays_logged_in (send_command hub p).
Proof.
  intros Hp. unfold send_command. apply stays_try.
  - apply stays_bind; [now apply stays_session_get|]. intros r. apply stays_ret.
  - intros e. apply stays_ret.
Qed.

Lemma stays_command (p : params) :
  is_login p = false ->
  stays_logged_in (_ensure_login hub b64encode md5_hexdigest ;; send_command hub p).
Proof.
  intros Hp. apply stays_bind; [apply stays_ensure_login|].
  intros _. now apply stays_send_command.
Qed.

Lemma stays_checked_command (r : result params) :
  (forall p, r = Ok p -> is_login p = false) ->
  stays_logged_in (_ensure_login hub b64encode md5_hexdigest ;;
                   p <- lift r ;; send_command hub p).
Proof.
  intros Hr. apply stays_bind; [apply stays_ensure_login|]. intros _.
  intros c L. unfold bind, lift. destruct r as [p|e].
  - apply (stays_send_command p (Hr p eq_refl) c L).
  - exists []. simpl. rewrite app_nil_r. auto.
Qed.

Lemma stays_control_light (light_id : string) (data : dict value) :
  stays_logged_in
    (_control_light hub b64encode md5_hexdigest json_dumps devices light_id data).
Proof.
  unfold _control_light. destruct (dict_get light_id devices) as [device|];
    [|apply stays_ret].
  apply stays_bind.
  { unfold control_on. destruct (dict_mem "on" data); [|apply stays_ret].
    apply stays_bind; [|intros; apply stays_ret].
    destruct (is_scene device); apply stays_command; reflexivity. }
  intros r1. apply stays_bind; [|intros; apply stays_ret].
  unfold control_color.
  destruct (String.eqb (type device) "rgb" && negb (is_scene device)).
  - destruct (is_not_None (get "ct" data)).
    { apply stays_bind; [|intros; apply stays_ret].
      apply stays_checked_command. intros p Hp.
      apply (not_login_by_param p "setcolbrightnessvalue");
        [exact (white_params_param _ _ _ _ _ Hp)|discriminate]. }
    destruct (is_not_None (get "hue" data) || is_not_None (get "sat" data)).
    { apply stays_bind; [|intros; apply stays_ret].
      apply stays_checked_command. intros p Hp.
      apply (not_login_by_param p "setcolbrightnessvalue");
        [exact (rgb_params_param _ _ _ _ _ Hp)|discriminate]. }
    destruct (is_not_None (get "bri" data)); [|apply stays_ret].
    apply stays_bind; [|intros; apply stays_ret].
    unfold set_brightness. apply stays_bind; [apply stays_ensure_login|].
    intros _. apply stays_bind; [apply stays_lift|].
    intros level. now apply stays_send_command.
  - destruct (String.eqb (type device) "dimmer" && dict_mem "bri" data
              && negb (is_scene device)).
    { apply stays_bind; [apply stays_lift|]. intros level.
      apply stays_bind; [|intros; apply stays_ret].
      now apply stays_command. }
    destruct ((String.eqb (type device) "switch" || String.eqb (type device) "scene")
              && dict_mem "bri" data); apply stays_ret.
Qed.

Lemma stays_get_device_status (idx : Z) (is_scene : bool) :
  stays_logged_in
    (get_device_status hub b64encode md5_hexdigest json_loads idx is_scene).
Proof.
  unfold get_device_status. apply stays_bind; [apply stays_ensure_login|].
  intros _. apply stays_bind; [|intros; apply stays_ret].
  apply stays_try; [|intros; apply stays_ret].
  apply stays_bind.
  { apply stays_session_get. now destruct is_scene. }
  intros r. apply stays_bind; [apply stays_lift|]. intros data. apply stays_lift.
Qed.

(** Once the session is authenticated, a state change ([_control_light])
    and a status query ([get_device_status]) leave it authenticated and
    send no login request, whatever the hub answers. *)
Theorem authenticated_session_sends_no_login (c : controller) :
  _logged_in c = true ->
  (forall light_id data,
     let c' := snd (_control_light hub b64encode md5_hexdigest json_dumps devices
                      light_id data c) in
     _logged_in c' = true /\ filter is_login (requests_since c c') = [])
  /\ (forall idx is_scene,
        let c' := snd (get_device_status hub b64encode md5_hexdigest json_loads
                         idx is_scene c) in
        _logged_in c' = true /\ filter is_login (requests_since c c') = []).
Proof.
  intros L. split.
  - intros light_id data c'. subst c'.
    destruct (stays_control_light light_id data c L) as (l & E & L' & F).
    split; [exact L'|].
    rewrite (ControlProps.requests_since_app _ _ _ E).
    now apply ControlProps.filter_nothing.
  - intros idx is_scene c'. subst c'.
    destruct (stays_get_device_status idx is_scene c L) as (l & E & L' & F).
    split; [exact L'|].
    rewrite (ControlProps.requests_since_app _ _ _ E).
    now apply ControlProps.filter_nothing.
Qed.

(** The on/off and dimmer commands never raise.  Each sends, after the
    login if one is due, exactly its command, and reports [True] exactly
    when the hub answers that command with status 200 (a transport failure
    gives [False]).  The command says [On] for a truthy value and [Off]
    for a falsy one. *)
Theorem simple_commands_report_status (idx level : Z) (command : value)
    (c : controller) :
  let c1 := snd (_ensure_login hub b64encode md5_hexdigest c) in
  let sends := fun (m : M bool) (p : params) =>
    m c = (Ok (accepted (hub (sent c1) p)), with_sent c1 (sent c1 ++ [p])) in
  sends (switch_light hub b64encode md5_hexdigest idx command)
        (switch_params "switchlight" idx command)
  /\ sends (switch_scene hub b64encode md5_hexdigest idx command)
           (switch_params "switchscene" idx command)
  /\ sends (set_dimmer hub b64encode md5_hexdigest idx level)
           (level_params idx level)
  /\ (forall param,
        get "switchcmd" (switch_params param idx command)
        = VStr (if truthy command then "On" else "Off"))
  /\ accepted Failed = false
  /\ (forall code b, accepted (Response code b) = true <-> code = 200).
Proof.
  intros c1 sends. subst sends c1. cbv beta.
  unfold switch_light, switch_scene, set_dimmer.
  rewrite !(ControlProps.command_run hub b64encode md5_hexdigest), !send_command_run.
  repeat split; try reflexivity.
  - intros H. now apply Z.eqb_eq.
  - intros ->. reflexivity.
Qed.

End Session.

(** A logged-in session switches the lamp on and sets its colour. *)
Lemma authenticated_session_sends_no_login_witness :
  _logged_in ExampleMore.session = true
  /\ filter is_login
       (requests_since ExampleMore.session
          (snd (_control_light Example.hub_ok Example.plain Example.plain
                  Example.dumps Example.registry "1"
                  [("on", VBool true); ("hue", VInt 10000)] ExampleMore.session)))
     = [].
Proof.
  split; [reflexivity|].
  destruct (authenticated_session_sends_no_login Example.hub_ok Example.plain
              Example.plain Example.no_json Example.dumps Example.registry
              ExampleMore.session eq_refl) as [H _].
  exact (proj2 (H "1" [("on", VBool true); ("hue", VInt 10000)])).
Defined.

End SessionProps.

(* ================================================================== *)
(** * The two white channels *)
(* ================================================================== *)

Module WhiteMixProps.
Import Py Domoticz PyFacts DomoticzFacts.

Lemma white_mix_inside (m : Z) :
  153 < m < 500 ->
  white_mix m = (255 * (500 - m) / 347, 255 * (m - 153) / 347).
Proof.
  intros H. unfold white_mix. rewrite inject_div by lia.
  set (n := ((m - 153) * 1 # 1 * Z.to_pos (500 - 153))).
  rewrite (min_second 1 n) by (unfold Qlt, n; simpl; lia).
  rewrite (max_second 0 n) by (unfold Qlt, n; simpl; lia).
  subst n. unfold Qminus, Qplus, Qopp, Qmult. cbn [Qnum Qden].
  change (Z.to_pos (500 - 153)) with 347%positive.
  change (1 * (1 * (1 * 347)))%positive with 347%positive.
  change (1 * (1 * 347))%positive with 347%positive.
  change (1 * 347)%positive with 347%positive.
  rewrite !int_nonneg by lia. f_equal; f_equal; lia.
Qed.

(** The mix of every mired value, by the clamped value. *)
Lemma white_mix_formula (m : Z) :
  let k := Z.max 153 (Z.min 500 m) in
  white_mix m = (255 * (500 - k) / 347, 255 * (k - 153) / 347).
Proof.
  cbv zeta.
  destruct (Z_le_gt_dec m 153); [|destruct (Z_le_gt_dec 500 m)].
  - rewrite white_mix_low, Z.max_l by lia. reflexivity.
  - rewrite white_mix_high, Z.min_l, Z.max_r by lia. reflexivity.
  - rewrite white_mix_inside, Z.min_r, Z.max_r by lia. reflexivity.
Qed.

(** For every mired value of the Hue API (0-65535) the cold and the warm
    channel of [set_white_color] lie in 0..255 and add up to 254 or 255 (each is
    truncated); as the temperature value grows the warm channel never
    decreases and the cold channel never increases. *)
Theorem white_channels_bounded_and_monotone (mired mired' : Z) :
  0 <= mired <= 65535 ->
  0 <= mired' <= 65535 ->
  let cw := fst (white_mix mired) in
  let ww := snd (white_mix mired) in
  0 <= cw <= 255
  /\ 0 <= ww <= 255
  /\ 254 <= cw + ww <= 255
  /\ (mired <= mired' ->
      ww <= snd (white_mix mired') /\ fst (white_mix mired') <= cw).
Proof.
  intros _ _. cbv zeta. rewrite !white_mix_formula. cbn [fst snd].
  set (k := Z.max 153 (Z.min 500 mired)).
  set (k' := Z.max 153 (Z.min 500 mired')).
  assert (Hk : 153 <= k <= 500) by (unfold k; lia).
  assert (Hk' : 153 <= k' <= 500) by (unfold k'; lia).
  split; [|split; [|split]].
  - split; [apply Z.div_pos; lia | apply Z.div_le_upper_bound; lia].
  - split; [apply Z.div_pos; lia | apply Z.div_le_upper_bound; lia].
  - Z.div_mod_to_equations. lia.
  - intros Hm. assert (k <= k') by (unfold k, k'; lia).
    split; apply Z.div_le_mono; lia.
Qed.

(** 300 and 400 mired. *)
Lemma white_channels_bounded_and_monotone_witness :
  snd (white_mix 300) <= snd (white_mix 400)
  /\ fst (white_mix 400) <= fst (white_mix 300).
Proof.
  exact (proj2 (proj2 (proj2
           (white_channels_bounded_and_monotone 300 400
              ltac:(lia) ltac:(lia)))) ltac:(lia)).
Defined.

End WhiteMixProps.

(* ================================================================== *)
(** * The registry: failure and lookup *)
(* ================================================================== *)

Module RegistryMore.
Import Py Registry PyFacts RegistryProps.

Lemma complete_dec (e : entry) : {Spec.complete e} + {~ Spec.complete e}.
Proof.
  unfold Spec.complete. destruct (e_name e), (e_idx e);
    try (left; split; discriminate); right; intros [H1 H2]; congruence.
Qed.

(** A loop body raises nothing but [KeyError], and raises it on an entry
    without name or index. *)
Lemma add_device_incomplete (s : dict device * Z) (e : entry) :
  ~ Spec.complete e -> add_device s e = Raise KeyError.
Proof.
  unfold Spec.complete, add_device. destruct s as [devs n].
  destruct (e_name e); [|reflexivity].
  destruct (e_idx e); [|reflexivity].
  intros H. elim H. split; discriminate.
Qed.

Lemma add_scene_incomplete (s : dict device * Z) (e : entry) :
  ~ Spec.complete e -> add_scene s e = Raise KeyError.
Proof.
  unfold Spec.complete, add_scene. destruct s as [devs n].
  destruct (e_name e); [|reflexivity].
  destruct (e_idx e); [|reflexivity].
  intros H. elim H. split; discriminate.
Qed.

Lemma add_device_complete (s : dict device * Z) (e : entry) :
  Spec.complete e -> exists s', add_device s e = Ok s'.
Proof.
  unfold Spec.complete, add_device. destruct s as [devs n].
  destruct (e_name e); [|intros [H _]; congruence].
  destruct (e_idx e); [|intros [_ H]; congruence].
  intros _. eexists. reflexivity.
Qed.

Lemma add_scene_complete (s : dict device * Z) (e : entry) :
  Spec.complete e -> exists s', add_scene s e = Ok s'.
Proof.
  unfold Spec.complete, add_scene. destruct s as [devs n].
  destruct (e_name e); [|intros [H _]; congruence].
  destruct (e_idx e); [|intros [_ H]; congruence].
  intros _. eexists. reflexivity.
Qed.

Section Loop.

Variable body : dict device * Z -> entry -> result (dict device * Z).
Hypothesis body_incomplete :
  forall s e, ~ Spec.complete e -> body s e = Raise KeyError.
Hypothesis body_complete :
  forall s e, Spec.complete e -> exists s', body s e = Ok s'.

Lemma loop_incomplete (l : list entry) (s : dict device * Z) :
  Exists (fun e => ~ Spec.complete e) l -> for_each body l s = Raise KeyError.
Proof.
  revert s. induction l as [|e l IH]; intros s H; [inversion H|].
  cbn [for_each]. destruct (complete_dec e) as [Hc|Hc].
  - destruct (body_complete s e Hc) as (s' & ->). cbn [rbind].
    apply IH. inversion H; [contradiction|assumption].
  - now rewrite body_incomplete.
Qed.

Lemma loop_outcome (l : list entry) (s : dict device * Z) :
  (exists s', for_each body l s = Ok s') \/ for_each body l s = Raise KeyError.
Proof.
  revert s. induction l as [|e l IH]; intros s; cbn [for_each].
  - left. now exists s.
  - destruct (complete_dec e) as [Hc|Hc].
    + destruct (body_complete s e Hc) as (s' & ->). cbn [rbind]. apply IH.
    + right. now rewrite body_incomplete.
Qed.

End Loop.

(** The build fails, and then with [KeyError], exactly when some device
    or scene entry lacks its name or its index; it fails whether the
    entry comes first or last, and registers nothing. *)
Theorem build_raises_KeyError_iff_incomplete (cfg : config) :
  let entries := or_empty (devices cfg) ++ or_empty (scenes cfg) in
  (build_devices_dict cfg = Raise KeyError
   <-> Exists (fun e => ~ Spec.complete e) entries)
  /\ (forall e, build_devices_dict cfg = Raise e -> e = KeyError)
  /\ ((exists registry, build_devices_dict cfg = Ok registry)
      <-> Forall Spec.complete entries).
Proof.
  cbv zeta. set (ds := or_empty (devices cfg)). set (ss := or_empty (scenes cfg)).
  assert (Good : Forall Spec.complete (ds ++ ss) ->
                 exists registry, build_devices_dict cfg = Ok registry).
  { intros H. apply Forall_app in H. destruct H as [Hd Hs].
    unfold build_devices_dict. fold ds ss.
    change ([], 1) with (Spec.numbered 1 [], 1 + Z.of_nat (List.length (@nil device))).
    rewrite (add_devices_run ds [] Hd). cbn [rbind app].
    rewrite (add_scenes_run ss (map Spec.device_of ds) Hs). cbn [rbind].
    eexists. reflexivity. }
  assert (Bad : Exists (fun e => ~ Spec.complete e) (ds ++ ss) ->
                build_devices_dict cfg = Raise KeyError).
  { intros H. apply Exists_app in H. unfold build_devices_dict. fold ds ss.
    destruct H as [H|H].
    - now rewrite (loop_incomplete add_device add_device_incomplete
                     add_device_complete ds _ H).
    - destruct (loop_outcome add_device add_device_incomplete
                  add_device_complete ds ([], 1)) as [(s1 & ->) | ->];
        [|reflexivity].
      cbn [rbind].
      now rewrite (loop_incomplete add_scene add_scene_incomplete
                     add_scene_complete ss _ H). }
  assert (Dec : Forall Spec.complete (ds ++ ss)
                \/ Exists (fun e => ~ Spec.complete e) (ds ++ ss)).
  { destruct (Forall_Exists_dec Spec.complete complete_dec (ds ++ ss)); auto. }
  split; [|split].
  - split; [|exact Bad]. intros E. destruct Dec as [H|H]; [|exact H].
    destruct (Good H) as (r & Hr). congruence.
  - intros e E. destruct Dec as [H|H].
    + destruct (Good H) as (r & Hr). congruence.
    + rewrite (Bad H) in E. congruence.
  - split; [|exact Good]. intros (r & Hr). destruct Dec as [H|H]; [exact H|].
    rewrite (Bad H) in Hr. discriminate.
Qed.

(** ** Looking up what was registered *)

Lemma numbered_get (l : list device) (first n : Z) :
  dict_get (str n) (Spec.numbered first l)
  = if first <=? n then nth_error l (Z.to_nat (n - first)) else None.
Proof.
  revert first. induction l as [|d l IH]; intros first; cbn [Spec.numbered dict_get].
  - destruct (first <=? n); [|reflexivity]. now destruct (Z.to_nat (n - first)).
  - destruct (String.eqb_spec (str n) (str first)) as [E|E].
    + apply str_inj in E. subst n. rewrite Z.leb_refl, Z.sub_diag. reflexivity.
    + assert (n <> first) by congruence. rewrite IH.
      destruct (Z.leb_spec first n), (Z.leb_spec (first + 1) n); try lia;
        [|reflexivity].
      replace (Z.to_nat (n - first)) with (S (Z.to_nat (n - (first + 1)))) by lia.
      reflexivity.
Qed.

Lemma numbered_NoDup (l : list device) (first : Z) :
  NoDup (map fst (Spec.numbered first l)).
Proof.
  revert first. induction l as [|d l IH]; intros first; cbn [Spec.numbered map fst].
  - constructor.
  - constructor; [|apply IH].
    rewrite numbered_keys, in_map_iff. intros (k & E & _).
    apply str_inj in E. lia.
Qed.

(** On a configuration whose entries are complete, the ids of the registry
    are pairwise distinct; looking up the numeral of [n] finds the [n]-th
    descriptor, devices counted before scenes; and an integer is a
    registered id exactly when it lies between 1 and the number of
    entries. *)
Theorem registry_lookup (cfg : config) :
  Forall Spec.complete (or_empty (devices cfg)) ->
  Forall Spec.complete (or_empty (scenes cfg)) ->
  let ds := or_empty (devices cfg) in
  let ss := or_empty (scenes cfg) in
  exists registry,
    build_devices_dict cfg = Ok registry
    /\ NoDup (map fst registry)
    /\ (forall k e, nth_error ds k = Some e ->
          dict_get (str (Z.of_nat k + 1)) registry = Some (Spec.device_of e))
    /\ (forall k e, nth_error ss k = Some e ->
          dict_get (str (Z.of_nat (List.length ds + k) + 1)) registry
          = Some (Spec.scene_of e))
    /\ (forall n, dict_mem (str n) registry = true
                  <-> 1 <= n <= Z.of_nat (List.length ds + List.length ss)).
Proof.
  intros Hd Hs ds ss. subst ds ss.
  set (ds := or_empty (devices cfg)) in *.
  set (ss := or_empty (scenes cfg)) in *.
  exists (Spec.numbered 1 (map Spec.device_of ds ++ map Spec.scene_of ss)).
  split; [|split; [|split; [|split]]].
  - unfold build_devices_dict. fold ds ss.
    change ([], 1) with (Spec.numbered 1 [], 1 + Z.of_nat (List.length (@nil device))).
    rewrite (add_devices_run ds [] Hd). cbn [rbind app].
    rewrite (add_scenes_run ss (map Spec.device_of ds) Hs). reflexivity.
  - apply numbered_NoDup.
  - intros k e H. rewrite numbered_get.
    replace (1 <=? Z.of_nat k + 1) with true by (symmetry; apply Z.leb_le; lia).
    replace (Z.to_nat (Z.of_nat k + 1 - 1)) with k by lia.
    rewrite nth_error_app1.
    + now rewrite nth_error_map, H.
    + rewrite length_map. apply nth_error_Some. congruence.
  - intros k e H. rewrite numbered_get.
    replace (1 <=? Z.of_nat (List.length ds + k) + 1) with true
      by (symmetry; apply Z.leb_le; lia).
    replace (Z.to_nat (Z.of_nat (List.length ds + k) + 1 - 1))
      with (List.length ds + k)%nat by lia.
    rewrite nth_error_app2 by (rewrite length_map; lia).
    rewrite length_map.
    replace (List.length ds + k - List.length ds)%nat with k by lia.
    now rewrite nth_error_map, H.
  - intros n. unfold dict_mem. rewrite numbered_get.
    set (l := map Spec.device_of ds ++ map Spec.scene_of ss).
    assert (Hl : List.length l = (List.length ds + List.length ss)%nat)
      by (unfold l; now rewrite length_app, !length_map).
    rewrite <- Hl. destruct (Z.leb_spec 1 n) as [H1|H1].
    + destruct (nth_error l (Z.to_nat (n - 1))) eqn:E.
      * split; [intros _|reflexivity].
        assert (Z.to_nat (n - 1) < List.length l)%nat
          by (apply nth_error_Some; congruence). lia.
      * apply nth_error_None in E. split; [discriminate|lia].
    + split; [discriminate|lia].
Qed.

(** A scene entry without index. *)
Lemma build_raises_KeyError_iff_incomplete_witness :
  build_devices_dict
    {| devices := Some [Example.device_entry "Heater" 11 None];
       scenes := Some [{| e_name := Some "Party Mode"; e_idx := None;
                          e_type := None; e_description := None |}] |}
  = Raise KeyError.
Proof.
  apply (proj1 (build_raises_KeyError_iff_incomplete _)).
  cbn [or_empty devices scenes app]. apply Exists_cons_tl, Exists_cons_hd.
  intros [_ H]. now apply H.
Defined.

(** Light "3" of the example is the scene. *)
Lemma registry_lookup_witness :
  exists registry,
    build_devices_dict
      {| devices := Some [Example.device_entry "Living Room Light" 10 (Some "rgb");
                          Example.device_entry "Heater" 11 None];
         scenes := Some [Example.device_entry "Party Mode" 1 None] |}
    = Ok registry
    /\ dict_get "3" registry = Some Example.party.
Proof.
  destruct (registry_lookup
              {| devices := Some [Example.device_entry "Living Room Light" 10 (Some "rgb");
                                  Example.device_entry "Heater" 11 None];
                 scenes := Some [Example.device_entry "Party Mode" 1 None] |})
    as (registry & E & _ & _ & Hs & _).
  - repeat constructor; discriminate.
  - repeat constructor; discriminate.
  - exists registry. split; [exact E|].
    exact (Hs 0%nat (Example.device_entry "Party Mode" 1 None) eq_refl).
Defined.

End RegistryMore.

(* ================================================================== *)
(** * More of the control dispatch *)
(* ================================================================== *)

Module DispatchProps.
Import Py Registry Domoticz HueAPI Observe ObserveMore PyFacts DomoticzFacts.

Lemma get_remove_other (k k' : string) (d : dict value) :
  k <> k' -> get k (dict_remove k' d) = get k d.
Proof.
  intros H. unfold get, get_or. now rewrite dict_get_remove_other.
Qed.

Lemma mem_remove_other (k k' : string) (d : dict value) :
  k <> k' -> dict_mem k (dict_remove k' d) = dict_mem k d.
Proof.
  intros H. unfold dict_mem. now rewrite dict_get_remove_other.
Qed.

Lemma get_absent (k : string) (d : dict value) :
  dict_get k d = None -> get k d = VNone /\ dict_mem k d = false.
Proof.
  intros H. unfold get, get_or, dict_mem. now rewrite H.
Qed.

Lemma get_present (k : string) (v : value) (d : dict value) :
  dict_get k d = Some v -> get k d = v /\ dict_mem k d = true.
Proof.
  intros H. unfold get, get_or, dict_mem. now rewrite H.
Qed.

(** The requests of [control_on] hold no colour and no level command. *)
Lemma power_is_no_color (param : string) (idx : Z) (command : value) :
  param = "switchlight" \/ param = "switchscene" ->
  is_color (switch_params param idx command) = false
  /\ is_level (switch_params param idx command) = false
  /\ is_login (switch_params param idx command) = false
  /\ is_power (switch_params param idx command) = true.
Proof.
  intros [-> | ->]; unfold switch_params; destruct (truthy command);
    repeat split.
Qed.

Lemma logins_hold_no (f : params -> bool) (l : list params) :
  (forall p, is_login p = true -> f p = false) ->
  Forall (fun p => is_login p = true) l -> filter f l = [].
Proof.
  intros Hf Hl. apply ControlProps.filter_nothing.
  eapply Forall_impl; [|exact Hl]. exact Hf.
Qed.

Section Handler.

Variable hub : list params -> params -> outcome.
Variable b64encode : string -> string.
Variable md5_hexdigest : string -> string.
Variable json_dumps : value -> string.
Variable devices : dict device.

(** [_control_light] on a registered light, in its two steps. *)
Lemma control_light_steps (light_id : string) (device : device)
    (data : dict value) (c : controller) :
  dict_get light_id devices = Some device ->
  exists c1 l1,
    control_on hub b64encode md5_hexdigest light_id device data c
    = (Ok (if dict_mem "on" data
           then [Success (state_path light_id "on") (get "on" data)] else []), c1)
    /\ sent c1
       = sent c ++ l1
         ++ (if dict_mem "on" data
             then [switch_params (if is_scene device then "switchscene"
                                  else "switchlight")
                     (idx device) (get "on" data)]
             else [])
    /\ Forall (fun p => is_login p = true) l1
    /\ _control_light hub b64encode md5_hexdigest json_dumps devices light_id data c
       = match control_color hub b64encode md5_hexdigest json_dumps light_id
                 device data c1 with
         | (Ok r2, c2) =>
             (Ok ((if dict_mem "on" data
                   then [Success (state_path light_id "on") (get "on" data)]
                   else []) ++ r2), c2)
         | (Raise e, c2) => (Raise e, c2)
         end.
Proof.
  intros Hdev.
  destruct (ControlProps.control_on_run hub b64encode md5_hexdigest light_id
              device data c) as (c1 & l1 & E1 & S1 & L1).
  exists c1, l1. repeat split; try assumption.
  unfold _control_light. rewrite Hdev. unfold bind at 1. rewrite E1.
  unfold bind at 1.
  now destruct (control_color hub b64encode md5_hexdigest json_dumps light_id
                  device data c1) as [[r2|e] c2].
Qed.

(** The fields that the dispatch never reads.  On a light that is not an
    [rgb] device (or is a scene) the fields [hue], [sat] and [ct] of the
    body have no effect at all; on an [rgb] light a body with a [ct] that
    is not null is handled as if it held no [hue] and no [sat].  In both
    cases the answer and the requests sent are those of the body without
    these fields. *)
Theorem unread_fields_change_nothing (light_id : string) (data : dict value)
    (c : controller) :
  let put := _control_light hub b64encode md5_hexdigest json_dumps devices
               light_id in
  (forall device,
     dict_get light_id devices = Some device ->
     String.eqb (type device) "rgb" && negb (is_scene device) = false ->
     put (dict_remove "hue" (dict_remove "sat" (dict_remove "ct" data))) c
     = put data c)
  /\ (get "ct" data <> VNone ->
      put (dict_remove "hue" (dict_remove "sat" data)) c = put data c).
Proof.
  cbv zeta.
  assert (Same : forall device d',
             (forall k, k = "on" \/ k = "bri" -> dict_get k d' = dict_get k data) ->
             control_on hub b64encode md5_hexdigest light_id device d'
             = control_on hub b64encode md5_hexdigest light_id device data).
  { intros device d' H. unfold control_on, dict_mem, get, get_or.
    now rewrite (H "on") by auto. }
  split.
  - intros device Hdev Hrgb. unfold _control_light. rewrite Hdev.
    rewrite Same
      by (intros k [-> | ->]; rewrite !dict_get_remove_other by discriminate;
          reflexivity).
    unfold control_color. rewrite Hrgb.
    rewrite !mem_remove_other, !get_remove_other by discriminate. reflexivity.
  - intros Hct. unfold _control_light.
    destruct (dict_get light_id devices) as [device|]; [|reflexivity].
    rewrite Same
      by (intros k [-> | ->]; rewrite !dict_get_remove_other by discriminate;
          reflexivity).
    unfold control_color.
    rewrite !mem_remove_other, !get_remove_other by discriminate.
    destruct (String.eqb (type device) "rgb" && negb (is_scene device));
      [|reflexivity].
    destruct (get "ct" data); try reflexivity. now elim Hct.
Qed.

(** A body with [on] and none of [bri], [hue], [sat], [ct], on any
    registered light: the answer is the single success entry echoing the
    requested value, whether or not the hub accepted (or even received)
    the command, and the only command sent is the power command,
    [switchscene] for a scene and [switchlight] for anything else. *)
Theorem on_only_is_echoed (light_id : string) (device : device)
    (data : dict value) (v : value) (c : controller) :
  dict_get light_id devices = Some device ->
  dict_get "on" data = Some v ->
  dict_get "bri" data = None ->
  dict_get "hue" data = None ->
  dict_get "sat" data = None ->
  dict_get "ct" data = None ->
  let run := _control_light hub b64encode md5_hexdigest json_dumps devices
               light_id data c in
  fst run = Ok [Success (state_path light_id "on") v]
  /\ commands (requests_since c (snd run))
     = [switch_params (if is_scene device then "switchscene" else "switchlight")
          (idx device) v].
Proof.
  intros Hdev Hon Hbri Hhue Hsat Hct run.
  destruct (get_present _ _ _ Hon) as [Gon Mon].
  destruct (get_absent _ _ Hbri) as [Gbri Mbri].
  destruct (get_absent _ _ Hhue) as [Ghue _].
  destruct (get_absent _ _ Hsat) as [Gsat _].
  destruct (get_absent _ _ Hct) as [Gct _].
  destruct (control_light_steps light_id device data c Hdev)
    as (c1 & l1 & _ & S1 & L1 & E).
  rewrite Mon, Gon in S1, E.
  assert (Ecolor : control_color hub b64encode md5_hexdigest json_dumps light_id
                     device data c1 = (Ok [], c1)).
  { unfold control_color. rewrite Gct, Ghue, Gsat, Gbri, Mbri.
    cbn [is_not_None orb]. rewrite !andb_false_r.
    now destruct (String.eqb (type device) "rgb" && negb (is_scene device)). }
  rewrite Ecolor in E. subst run. rewrite E. cbn [fst snd app].
  split; [reflexivity|].
  rewrite (ControlProps.requests_since_app _ _ _ S1).
  unfold commands. rewrite filter_app.
  rewrite (logins_hold_no (fun p => negb (is_login p)) l1) by
    (auto; intros p ->; reflexivity).
  cbn [app filter].
  destruct (power_is_no_color (if is_scene device then "switchscene" else "switchlight")
              (idx device) v) as (_ & _ & -> & _);
    [destruct (is_scene device); auto|reflexivity].
Qed.

(** A body with an integer [bri] in 0-254 on a registered dimmer: the
    hub gets exactly one level command, [Set Level] with the integer part
    of [bri*100/254], and no colour command; the last entry of the answer
    echoes the [bri] of the request, not the level sent. *)
Theorem dimmer_bri_sets_level (light_id : string) (device : device)
    (data : dict value) (b : Z) (c : controller) :
  dict_get light_id devices = Some device ->
  type device = "dimmer" ->
  is_scene device = false ->
  dict_get "bri" data = Some (VInt b) ->
  0 <= b <= 254 ->
  let run := _control_light hub b64encode md5_hexdigest json_dumps devices
               light_id data c in
  fst run
  = Ok ((if dict_mem "on" data
         then [Success (state_path light_id "on") (get "on" data)] else [])
        ++ [Success (state_path light_id "bri") (VInt b)])
  /\ filter is_level (requests_since c (snd run))
     = [level_params (idx device) (b * 100 / 254)]
  /\ filter is_color (requests_since c (snd run)) = []
  /\ last (sent (snd run)) [] = level_params (idx device) (b * 100 / 254).
Proof.
  intros Hdev Htype Hscene Hbri Hb run.
  destruct (get_present _ _ _ Hbri) as [Gbri Mbri].
  destruct (control_light_steps light_id device data c Hdev)
    as (c1 & l1 & _ & S1 & L1 & E).
  destruct (ControlProps.command_sends hub b64encode md5_hexdigest
              (level_params (idx device) (b * 100 / 254)) c1)
    as (ok & c2 & l2 & E2 & S2 & L2).
  assert (Ecolor : control_color hub b64encode md5_hexdigest json_dumps light_id
                     device data c1
                   = (Ok [Success (state_path light_id "bri") (VInt b)], c2)).
  { unfold control_color. rewrite Htype, Hscene, Mbri, Gbri.
    cbn [String.eqb Ascii.eqb Bool.eqb andb negb num_of rbind].
    rewrite div_f2_54 by lia. unfold bind at 1, lift.
    unfold set_dimmer. unfold bind at 1. rewrite E2. reflexivity. }
  rewrite Ecolor in E. subst run. rewrite E. cbn [fst snd].
  split; [reflexivity|].
  assert (Enew : requests_since c c2
                 = (l1 ++ (if dict_mem "on" data
                           then [switch_params
                                   (if is_scene device then "switchscene"
                                    else "switchlight")
                                   (idx device) (get "on" data)]
                           else []))
                   ++ l2 ++ [level_params (idx device) (b * 100 / 254)]).
  { apply ControlProps.requests_since_app. now rewrite S2, S1, !app_assoc. }
  assert (Pow : forall f,
             (forall p, is_login p = true -> f p = false) ->
             (forall param idx v, param = "switchlight" \/ param = "switchscene" ->
                                  f (switch_params param idx v) = false) ->
             filter f l1 = []
             /\ filter f (if dict_mem "on" data
                          then [switch_params
                                  (if is_scene device then "switchscene"
                                   else "switchlight")
                                  (idx device) (get "on" data)]
                          else []) = []
             /\ filter f l2 = []).
  { intros f Hlogin Hpower.
    rewrite (logins_hold_no f l1 Hlogin L1), (logins_hold_no f l2 Hlogin L2).
    split; [reflexivity|]. split; [|reflexivity].
    destruct (dict_mem "on" data); [|reflexivity].
    cbn [filter]. rewrite Hpower; [reflexivity|].
    destruct (is_scene device); auto. }
  rewrite Enew, !filter_app.
  destruct (Pow is_level) as (-> & -> & ->).
  { intros p Hp. now destruct (ControlProps.login_is_no_command p Hp) as (_ & _ & ?). }
  { intros param i v' H. now destruct (power_is_no_color param i v' H) as (_ & ? & _). }
  destruct (Pow is_color) as (-> & -> & ->).
  { intros p Hp. now destruct (ControlProps.login_is_no_command p Hp) as (_ & ? & _). }
  { intros param i v' H. now destruct (power_is_no_color param i v' H) as (? & _). }
  split; [reflexivity|]. split; [reflexivity|].
  rewrite S2, app_assoc. apply last_last.
Qed.

(** A supplied [hue] that is no number (a string, a list, an object) on an
    [rgb] light, in a body without [ct]: [set_rgb_color] raises
    [TypeError] while it builds its parameters, outside any [try]; the
    exception leaves [_control_light], no answer is produced and no colour
    or brightness command is sent, although the power command of the same
    body has been sent already. *)
Theorem non_numeric_hue_raises (light_id : string) (device : device)
    (data : dict value) (c : controller) :
  dict_get light_id devices = Some device ->
  type device = "rgb" ->
  is_scene device = false ->
  get "ct" data = VNone ->
  get "hue" data <> VNone ->
  num_of (get "hue" data) = Raise TypeError ->
  let run := _control_light hub b64encode md5_hexdigest json_dumps devices
               light_id data c in
  fst run = Raise TypeError
  /\ filter is_color_or_level (requests_since c (snd run)) = []
  /\ filter is_power (requests_since c (snd run))
     = if dict_mem "on" data
       then [switch_params "switchlight" (idx device) (get "on" data)]
       else [].
Proof.
  intros Hdev Htype Hscene Hct Hhue Hnum run.
  destruct (control_light_steps light_id device data c Hdev)
    as (c1 & l1 & _ & S1 & L1 & E).
  rewrite Hscene in S1.
  destruct (ControlProps.ensure_login_sends hub b64encode md5_hexdigest c1)
    as (ok & c2 & l2 & E2 & S2 & L2).
  assert (Ecolor : control_color hub b64encode md5_hexdigest json_dumps light_id
                     device data c1 = (Raise TypeError, c2)).
  { unfold control_color. rewrite Htype, Hscene, Hct.
    cbn [String.eqb Ascii.eqb Bool.eqb andb negb is_not_None].
    replace (is_not_None (get "hue" data)) with true
      by (destruct (get "hue" data); try reflexivity; now elim Hhue).
    cbn [orb]. unfold bind at 1. unfold set_rgb_color. unfold bind at 1.
    rewrite E2. unfold bind at 1, lift. unfold rgb_params, add_scaled at 1.
    replace (is_not_None (get "hue" data)) with true
      by (destruct (get "hue" data); try reflexivity; now elim Hhue).
    rewrite Hnum. reflexivity. }
  rewrite Ecolor in E. subst run. rewrite E. cbn [fst snd].
  split; [reflexivity|].
  assert (Enew : requests_since c c2
                 = (l1 ++ (if dict_mem "on" data
                           then [switch_params "switchlight" (idx device)
                                   (get "on" data)]
                           else [])) ++ l2).
  { apply ControlProps.requests_since_app. now rewrite S2, S1, !app_assoc. }
  rewrite Enew, !filter_app.
  destruct (ControlProps.logins_filtered l1 L1) as (_ & P1 & _ & K1).
  destruct (ControlProps.logins_filtered l2 L2) as (_ & P2 & _ & K2).
  rewrite K1, K2, P1, P2, !app_nil_r. cbn [app].
  destruct (dict_mem "on" data); [|split; reflexivity].
  cbn [filter]. unfold is_color_or_level.
  destruct (power_is_no_color "switchlight" (idx device) (get "on" data))
    as (-> & -> & _ & ->); auto.
Qed.

End Handler.

(** What [add_scaled] does to the parameters. *)
Lemma add_scaled_effect (k : string) (x : value) (num den : Z) (p p' : params) :
  add_scaled k x num den p = Ok p' ->
  (forall k', k' <> k -> dict_get k' p' = dict_get k' p)
  /\ (x = VNone -> dict_get k p' = dict_get k p)
  /\ (x <> VNone ->
      exists z, num_of x = Ok z /\ dict_get k p' = Some (VInt (scale z num den))).
Proof.
  unfold add_scaled. destruct (is_not_None x) eqn:N.
  - destruct (num_of x) as [z|e] eqn:E; cbn [rbind]; [|discriminate].
    intros [= <-]. split; [|split].
    + intros k' Hk. now apply SessionProps.dict_get_set_other.
    + intros ->. discriminate N.
    + intros _. exists z. split; [reflexivity|].
      apply SessionProps.dict_get_set_same.
  - intros [= <-]. split; [|split]; auto.
    intros H. destruct x; try discriminate N. now elim H.
Qed.

Lemma mem_after_add (k : string) (x : value) (num den : Z) (q : params) :
  (x = VNone -> dict_get k q = None) ->
  (x <> VNone ->
   exists z, num_of x = Ok z /\ dict_get k q = Some (VInt (scale z num den))) ->
  dict_mem k q = is_not_None x.
Proof.
  intros Hn Hv. unfold dict_mem.
  destruct x; try (destruct Hv as (n & _ & ->); [discriminate|reflexivity]).
  now rewrite Hn.
Qed.

(** [set_rgb_color] forwards exactly the fields it is given: a field that
    is [None] is left out of the request, a supplied integer is sent as
    the integer part of its rescaled value, which for a hue in 0-65535
    lies in 0-360 and for a saturation or brightness in 0-254 lies in
    0-100; the request always names the device and says [iswhite=false]. *)
Theorem rgb_forwards_supplied_fields (idx : Z) (hue saturation brightness : value)
    (p : params) :
  rgb_params idx hue saturation brightness = Ok p ->
  (dict_mem "hue" p = is_not_None hue
   /\ dict_mem "saturation" p = is_not_None saturation
   /\ dict_mem "brightness" p = is_not_None brightness)
  /\ (dict_get "param" p = Some (VStr "setcolbrightnessvalue")
      /\ dict_get "idx" p = Some (VInt idx)
      /\ dict_get "iswhite" p = Some (VStr "false"))
  /\ (forall h, hue = VInt h -> 0 <= h <= 65535 ->
        dict_get "hue" p = Some (VInt (h * 360 / 65535))
        /\ 0 <= h * 360 / 65535 <= 360)
  /\ (forall s, saturation = VInt s -> 0 <= s <= 254 ->
        dict_get "saturation" p = Some (VInt (s * 100 / 254))
        /\ 0 <= s * 100 / 254 <= 100)
  /\ (forall b, brightness = VInt b -> 0 <= b <= 254 ->
        dict_get "brightness" p = Some (VInt (b * 100 / 254))
        /\ 0 <= b * 100 / 254 <= 100).
Proof.
  unfold rgb_params.
  destruct (add_scaled "hue" hue 360 65535 _) as [p1|] eqn:E1; [|discriminate].
  cbn [rbind].
  destruct (add_scaled "saturation" saturation 100 254 p1) as [p2|] eqn:E2;
    [|discriminate].
  cbn [rbind]. intros E3.
  destruct (add_scaled_effect _ _ _ _ _ _ E1) as (O1 & N1 & V1).
  destruct (add_scaled_effect _ _ _ _ _ _ E2) as (O2 & N2 & V2).
  destruct (add_scaled_effect _ _ _ _ _ _ E3) as (O3 & N3 & V3).
  assert (Hhue : dict_get "hue" p = dict_get "hue" p1)
    by (rewrite O3, O2 by discriminate; reflexivity).
  assert (Hsat : dict_get "saturation" p = dict_get "saturation" p2)
    by (rewrite O3 by discriminate; reflexivity).
  split; [split; [|split]|split; [|split; [|split]]].
  - apply (mem_after_add "hue" hue 360 65535); rewrite Hhue; [|exact V1].
    intros H. now rewrite (N1 H).
  - apply (mem_after_add "saturation" saturation 100 254); rewrite Hsat;
      [|exact V2].
    intros H. rewrite (N2 H), O1 by discriminate. reflexivity.
  - apply (mem_after_add "brightness" brightness 100 254); [|exact V3].
    intros H. rewrite (N3 H), O2, O1 by discriminate. reflexivity.
  - rewrite !O3, !O2, !O1 by discriminate. repeat split.
  - intros h -> Hh. rewrite Hhue.
    destruct V1 as (z & [= <-] & ->); [discriminate|].
    rewrite scale_floor by lia.
    split; [reflexivity|].
    split; [apply Z.div_pos; lia | apply Z.div_le_upper_bound; lia].
  - intros s0 -> Hs. rewrite Hsat.
    destruct V2 as (z & [= <-] & ->); [discriminate|].
    rewrite scale_floor by lia.
    split; [reflexivity|].
    split; [apply Z.div_pos; lia | apply Z.div_le_upper_bound; lia].
  - intros b -> Hb.
    destruct V3 as (z & [= <-] & ->); [discriminate|].
    rewrite scale_floor by lia.
    split; [reflexivity|].
    split; [apply Z.div_pos; lia | apply Z.div_le_upper_bound; lia].
Qed.

(** Only a saturation is supplied. *)
Lemma rgb_forwards_supplied_fields_witness :
  exists p,
    rgb_params 10 VNone (VInt 254) VNone = Ok p
    /\ dict_mem "hue" p = false
    /\ dict_get "saturation" p = Some (VInt 100).
Proof.
  eexists. split; [reflexivity|].
  destruct (rgb_forwards_supplied_fields 10 VNone (VInt 254) VNone _ eq_refl)
    as ((Hhue & _) & _ & _ & Hsat & _).
  split; [exact Hhue|]. exact (proj1 (Hsat 254 eq_refl ltac:(lia))).
Defined.

(** The hub is down and Alexa switches the scene on. *)
Lemma on_only_is_echoed_witness :
  let run := _control_light ExampleMore.hub_down Example.plain Example.plain
               Example.dumps ExampleMore.registry "3" [("on", VBool true)]
               Example.anonymous in
  fst run = Ok [Success "/lights/3/state/on" (VBool true)]
  /\ commands (requests_since Example.anonymous (snd run))
     = [switch_params "switchscene" 1 (VBool true)].
Proof.
  exact (on_only_is_echoed ExampleMore.hub_down Example.plain Example.plain
           Example.dumps ExampleMore.registry "3" Example.party
           [("on", VBool true)] (VBool true) Example.anonymous
           eq_refl eq_refl eq_refl eq_refl eq_refl eq_refl).
Defined.

(** Brightness 128 on the dimmer: level 50. *)
Lemma dimmer_bri_sets_level_witness :
  let run := _control_light Example.hub_ok Example.plain Example.plain
               Example.dumps ExampleMore.registry "4" [("bri", VInt 128)]
               Example.admin in
  fst run = Ok [Success "/lights/4/state/bri" (VInt 128)]
  /\ filter is_level (requests_since Example.admin (snd run))
     = [level_params 12 50].
Proof.
  destruct (dimmer_bri_sets_level Example.hub_ok Example.plain Example.plain
              Example.dumps ExampleMore.registry "4" ExampleMore.dimmer
              [("bri", VInt 128)] 128 Example.admin
              eq_refl eq_refl eq_refl eq_refl ltac:(lia))
    as (Hentries & Hlevel & _).
  split; [exact Hentries | exact Hlevel].
Defined.

(** A hue given as text. *)
Lemma non_numeric_hue_raises_witness :
  fst (_control_light Example.hub_ok Example.plain Example.plain Example.dumps
         ExampleMore.registry "1" [("on", VBool true); ("hue", VStr "red")]
         Example.anonymous)
  = Raise TypeError.
Proof.
  refine (proj1 (non_numeric_hue_raises Example.hub_ok Example.plain Example.plain
                   Example.dumps ExampleMore.registry "1" Example.lamp
                   [("on", VBool true); ("hue", VStr "red")] Example.anonymous
                   eq_refl eq_refl eq_refl eq_refl _ eq_refl)).
  discriminate.
Defined.

End DispatchProps.

(* ================================================================== *)
(** * What [get_device_status] decodes *)
(* ================================================================== *)

Module StatusMore.
Import Py Domoticz Observe ObserveMore PyFacts DomoticzFacts.

(** The scene loop on a list of objects: the first scene whose index
    prints like [idx]. *)
Lemma find_scene_objects (idx : Z) (scenes : list (dict value)) :
  find_scene idx (map VDict scenes)
  = Ok (match find (fun s => str_eq (get "idx" s) idx) scenes with
        | Some s => Some {| on := eq_str (get "Status" s) "On";
                            bri := 254; hue := 0; sat := 0 |}
        | None => None
        end).
Proof.
  induction scenes as [|s scenes IH]; [reflexivity|].
  cbn [map find_scene method_get rbind find]. fold (get "idx" s).
  destruct (str_eq (get "idx" s) idx); [reflexivity|exact IH].
Qed.

(** An element that is no object stops the loop with [AttributeError],
    unless a scene before it matched. *)
Lemma find_scene_no_object (idx : Z) (pre : list (dict value)) (x : value)
    (post : list value) :
  (forall s, x <> VDict s) ->
  find (fun s => str_eq (get "idx" s) idx) pre = None ->
  find_scene idx (map VDict pre ++ x :: post) = Raise AttributeError.
Proof.
  intros Hx. induction pre as [|s pre IH]; cbn [map app find_scene find].
  - intros _. destruct x; try reflexivity. now elim (Hx d).
  - cbn [method_get rbind]. fold (get "idx" s).
    destruct (str_eq (get "idx" s) idx); [discriminate|exact IH].
Qed.

Lemma mod1_range (x : Q) : (0 <= mod1 x)%Q /\ (mod1 x < 1)%Q.
Proof.
  unfold mod1. pose proof (Qfloor_le x) as H1. pose proof (Qlt_floor x) as H2.
  rewrite inject_Z_plus in H2. change (inject_Z 1) with 1%Q in H2.
  split; lra.
Qed.

Lemma int_range (x : Q) (n : Z) :
  (0 <= x)%Q -> (x < inject_Z n)%Q -> 0 <= int x <= n - 1.
Proof.
  intros H0 Hn.
  assert (E : int x = Qfloor x).
  { destruct x as [a d]. unfold int, Qfloor. cbn [Qnum Qden].
    apply Z.quot_div_nonneg; [|lia].
    unfold Qle in H0. cbn in H0. lia. }
  rewrite E. split.
  - change 0 with (Qfloor 0). now apply Qfloor_resp_le.
  - pose proof (Qfloor_le x) as H1.
    assert (H2 : (inject_Z (Qfloor x) < inject_Z n)%Q) by lra.
    rewrite <- Zlt_Qlt in H2. lia.
Qed.

Lemma max_bounds (a b : Q) :
  (a <= max a b)%Q /\ (b <= max a b)%Q.
Proof.
  unfold max. destruct (Qlt_bool a b) eqn:E.
  - apply Qlt_bool_iff in E. split; lra.
  - assert (~ (a < b)%Q) by (rewrite <- Qlt_bool_iff; congruence).
    split; lra.
Qed.

Lemma min_bounds (a b : Q) :
  (min a b <= a)%Q /\ (min a b <= b)%Q
  /\ ((0 <= a)%Q -> (0 <= b)%Q -> (0 <= min a b)%Q).
Proof.
  unfold min. destruct (Qlt_bool b a) eqn:E.
  - apply Qlt_bool_iff in E. repeat split; intros; lra.
  - assert (~ (b < a)%Q) by (rewrite <- Qlt_bool_iff; congruence).
    repeat split; intros; lra.
Qed.

Lemma truediv_ok (a b : Q) : ~ (b == 0)%Q -> truediv a b = Ok (a / b)%Q.
Proof.
  intros H. unfold truediv. destruct (Qeq_bool b 0) eqn:E; [|reflexivity].
  apply Qeq_bool_iff in E. now elim H.
Qed.

Lemma channel_nonneg (r : Z) : 0 <= r -> (0 <= inject_Z r / 255)%Q.
Proof.
  intros H. apply Qle_shift_div_l; [reflexivity|].
  rewrite Qmult_0_l. change 0%Q with (inject_Z 0). now rewrite <- Zle_Qle.
Qed.

(** [_rgb_to_hsv] on channels that are integers of 0 or more. *)
Lemma rgb_to_hsv_range (r g b : Z) :
  0 <= r -> 0 <= g -> 0 <= b ->
  exists h s v,
    _rgb_to_hsv (VInt r) (VInt g) (VInt b) = Ok (h, s, v)
    /\ 0 <= int (h * 65535) <= 65534
    /\ 0 <= int (s * 254) <= 254
    /\ (r = g -> g = b -> int (h * 65535) = 0 /\ int (s * 254) = 0).
Proof.
  intros Hr Hg Hb. unfold _rgb_to_hsv. cbn [num_of rbind]. cbv zeta.
  pose proof (channel_nonneg r Hr) as Pr.
  pose proof (channel_nonneg g Hg) as Pg.
  pose proof (channel_nonneg b Hb) as Pb.
  set (r' := (inject_Z r / 255)%Q) in *.
  set (g' := (inject_Z g / 255)%Q) in *.
  set (b' := (inject_Z b / 255)%Q) in *.
  destruct (max_bounds r' g') as [M1 M2].
  destruct (max_bounds (max r' g') b') as [M3 M4].
  destruct (min_bounds r' g') as (m1 & m2 & m0).
  destruct (min_bounds (min r' g') b') as (m3 & m4 & m0').
  set (M := max (max r' g') b') in *.
  set (m := min (min r' g') b') in *.
  assert (Hm : (0 <= m)%Q) by auto.
  assert (HmM : (m <= M)%Q) by lra.
  destruct (Qeq_bool M m) eqn:E.
  - exists 0%Q, 0%Q, M. repeat split; try reflexivity; try discriminate; lia.
  - assert (Hne : ~ (M == m)%Q) by (rewrite <- Qeq_bool_iff; congruence).
    assert (HM : (0 < M)%Q) by lra.
    rewrite !truediv_ok by lra. cbn [rbind].
    eexists _, _, M. split; [reflexivity|].
    split; [|split].
    + match goal with |- context [mod1 ?y] => destruct (mod1_range y) as [H0 H1] end.
      match goal with |- context [int ?x] =>
        assert (R : 0 <= int x <= 65535 - 1); [apply int_range|lia] end.
      * apply Qmult_le_0_compat; [assumption|discriminate].
      * change (inject_Z 65535) with (1 * 65535)%Q.
        apply Qmult_lt_compat_r; [reflexivity|assumption].
    + assert (S0 : (0 <= (M - m) / M)%Q).
      { apply Qle_shift_div_l; [assumption|]. lra. }
      assert (S1 : ((M - m) / M <= 1)%Q).
      { apply Qle_shift_div_r; [assumption|]. lra. }
      set (s := ((M - m) / M)%Q) in *.
      assert (R : 0 <= int (s * 254) <= 255 - 1); [apply int_range|lia].
      * apply Qmult_le_0_compat; [assumption|discriminate].
      * change (inject_Z 255) with (255)%Q. lra.
    + intros -> ->. exfalso. apply Hne.
      subst M m r' g' b'. unfold max, min, Qlt_bool.
      destruct (Qle_bool (inject_Z b / 255) (inject_Z b / 255)) eqn:L;
        cbn [negb]; try rewrite L; cbn [negb]; reflexivity.
Qed.


Section Query.

Variable hub : list params -> params -> outcome.
Variable b64encode : string -> string.
Variable md5_hexdigest : string -> string.
Variable json_loads : string -> option value.

(** The status of a scene.  When the answer to [getscenes] is an object
    whose ["result"] is a list of objects, the status is read off the
    first scene whose ["idx"] prints like the index asked for (a number
    and its numeral both match): on exactly when its ["Status"] is
    ["On"], brightness 254, hue and saturation 0.  No such scene, or no
    ["result"] at all, gives the default status, and so does an element
    that is no object when no scene before it matched. *)
Theorem scene_status_is_first_match (idx code : Z) (d : dict value)
    (c : controller) :
  let c1 := snd (_ensure_login hub b64encode md5_hexdigest c) in
  let result :=
    fst (get_device_status hub b64encode md5_hexdigest json_loads idx true c) in
  hub (sent c1) (status_params idx true) = Response code (Json (VDict d)) ->
  (forall scenes,
     dict_get "result" d = Some (VList (map VDict scenes)) ->
     result
     = Ok (match find (fun s => str_eq (get "idx" s) idx) scenes with
           | Some s => {| on := eq_str (get "Status" s) "On";
                          bri := 254; hue := 0; sat := 0 |}
           | None => default_status
           end))
  /\ (forall pre x post,
        dict_get "result" d = Some (VList (map VDict pre ++ x :: post)) ->
        (forall s, x <> VDict s) ->
        find (fun s => str_eq (get "idx" s) idx) pre = None ->
        result = Ok default_status)
  /\ (dict_get "result" d = None -> result = Ok default_status)
  /\ (forall i, str_eq (VInt i) idx = true <-> i = idx)
  /\ (forall s, str_eq (VStr s) idx = true <-> s = str idx).
Proof.
  intros c1 result Hhub.
  assert (E : result
              = Ok (match scene_status idx (VDict d) with
                    | Ok (Some st) => st
                    | _ => default_status
                    end)).
  { subst result. rewrite StatusProps.get_device_status_run. cbn [fst].
    fold c1. rewrite Hhub. reflexivity. }
  rewrite E. unfold scene_status. cbn [method_get rbind]. unfold get_or.
  split; [|split; [|split; [|split]]].
  - intros scenes ->. cbn [iterate rbind]. rewrite find_scene_objects.
    now destruct (find (fun s => str_eq (get "idx" s) idx) scenes).
  - intros pre x post -> Hx Hpre. cbn [iterate rbind].
    now rewrite find_scene_no_object.
  - now intros ->.
  - intros i. unfold str_eq. rewrite String.eqb_eq. split; [apply str_inj|now intros ->].
  - intros s. unfold str_eq. now rewrite String.eqb_eq.
Qed.


Lemma color_of_payload (device : dict value) :
  color_of json_loads device
  = rbind (payload json_loads device) (fun color =>
    rbind (method_get color "r" (VInt 0)) (fun r =>
    rbind (method_get color "g" (VInt 0)) (fun g =>
    rbind (method_get color "b" (VInt 0)) (fun b =>
    rbind (_rgb_to_hsv r g b) (fun hsv =>
    let '(h, s, _) := hsv in
    Ok (int (h * 65535), int (s * 254))))))).
Proof.
  unfold color_of, payload. now destruct (get "Color" device).
Qed.

(** The device branch on an answer whose result starts with an object
    with an integer level of 0 or more. *)
Lemma device_status_object (d device : dict value) (rest : list value)
    (level : Z) :
  dict_get "result" d = Some (VList (VDict device :: rest)) ->
  get_or "Level" (VInt 0) device = VInt level ->
  0 <= level ->
  device_status json_loads (VDict d)
  = if dict_mem "Color" device then
      match color_of json_loads device with
      | Ok (h, s) => Ok (Some {| on := on (level_status device level);
                                 bri := bri (level_status device level);
                                 hue := h; sat := s |})
      | Raise JSONDecodeError | Raise TypeError =>
          Ok (Some (level_status device level))
      | Raise e => Raise e
      end
    else Ok (Some (level_status device level)).
Proof.
  intros Hres Hlevel H0. unfold device_status. cbn [method_get rbind].
  assert (G : get_or "result" VNone d = VList (VDict device :: rest))
    by (unfold get_or; now rewrite Hres).
  rewrite !G. cbn [truthy first rbind method_get].
  rewrite Hlevel. cbn [eq_int].
  set (is_on := negb (eq_str (get_or "Status" (VStr "Off") device) "Off")).
  assert (B : int (inject_Z (if (level =? 0) && is_on then 100 else level) * f2_54)
              = bri (level_status device level)).
  { unfold level_status. fold is_on. cbn [bri].
    destruct ((level =? 0) && is_on); [reflexivity|].
    now apply mul_f2_54. }
  destruct ((level =? 0) && is_on) eqn:L; cbn [num_of rbind on bri];
    rewrite B; reflexivity.
Qed.

Lemma decoded_device (idx code : Z) (d : dict value) (c : controller) :
  let c1 := snd (_ensure_login hub b64encode md5_hexdigest c) in
  hub (sent c1) (status_params idx false) = Response code (Json (VDict d)) ->
  fst (get_device_status hub b64encode md5_hexdigest json_loads idx false c)
  = Ok (match device_status json_loads (VDict d) with
        | Ok (Some st) => st
        | _ => default_status
        end).
Proof.
  intros c1 Hhub. rewrite StatusProps.get_device_status_run. cbn [fst].
  fold c1. rewrite Hhub. reflexivity.
Qed.


(** A colour payload that is (or parses to) an object whose [r], [g] and
    [b] (0 when absent) are integers in 0-255, on a device whose level is
    in 0-100: the status keeps the on state and brightness read from
    ["Status"] and ["Level"], its hue lies in 0-65534 and its saturation
    in 0-254, and a grey ([r = g = b]) has hue 0 and saturation 0.
    [_rgb_to_hsv] raises nothing on such channels.  Only these ranges are
    stated: inside them the hue and the saturation of the exact-rational
    model need not be digit for digit those that the program computes in
    double precision. *)
Theorem colour_payload_gives_hue_and_sat (idx code level r g b : Z)
    (d device color : dict value) (rest : list value) (c : controller) :
  let c1 := snd (_ensure_login hub b64encode md5_hexdigest c) in
  let result :=
    fst (get_device_status hub b64encode md5_hexdigest json_loads idx false c) in
  hub (sent c1) (status_params idx false) = Response code (Json (VDict d)) ->
  dict_get "result" d = Some (VList (VDict device :: rest)) ->
  get_or "Level" (VInt 0) device = VInt level ->
  0 <= level <= 100 ->
  dict_mem "Color" device = true ->
  payload json_loads device = Ok (VDict color) ->
  get_or "r" (VInt 0) color = VInt r ->
  get_or "g" (VInt 0) color = VInt g ->
  get_or "b" (VInt 0) color = VInt b ->
  0 <= r <= 255 -> 0 <= g <= 255 -> 0 <= b <= 255 ->
  exists st,
    result = Ok st
    /\ on st = on (level_status device level)
    /\ bri st = bri (level_status device level)
    /\ 0 <= hue st <= 65534
    /\ 0 <= sat st <= 254
    /\ (r = g -> g = b -> hue st = 0 /\ sat st = 0).
Proof.
  intros c1 result Hhub Hres Hlevel H0 Hmem Hpay Er Eg Eb Hr Hg Hb.
  assert (E : result
              = Ok (match device_status json_loads (VDict d) with
                    | Ok (Some st) => st
                    | _ => default_status
                    end))
    by (apply (decoded_device idx code); exact Hhub).
  rewrite E, (device_status_object d device rest level Hres Hlevel (proj1 H0)).
  rewrite color_of_payload, Hmem, Hpay. cbn [rbind method_get].
  rewrite Er, Eg, Eb.
  destruct (rgb_to_hsv_range r g b (proj1 Hr) (proj1 Hg) (proj1 Hb)) as (h & s & v & -> & Hh & Hs & Hgrey).
  cbn [rbind]. eexists. split; [reflexivity|]. cbn [on bri hue sat].
  repeat split; try apply Hh; try apply Hs; now apply Hgrey.
Qed.

End Query.

(** Two scenes; the second one is asked for, its index given as text. *)
Lemma scene_status_is_first_match_witness :
  fst (get_device_status (ExampleMore.hub_object ExampleMore.two_scenes)
         Example.plain Example.plain Example.no_json 2 true Example.anonymous)
  = Ok {| on := false; bri := 254; hue := 0; sat := 0 |}.
Proof.
  exact (proj1 (scene_status_is_first_match
                  (ExampleMore.hub_object ExampleMore.two_scenes)
                  Example.plain Example.plain Example.no_json 2 200
                  ExampleMore.two_scenes Example.anonymous eq_refl)
           [[("idx", VStr "1"); ("Status", VStr "On")];
            [("idx", VStr "2"); ("Status", VStr "Off")]] eq_refl).
Defined.


(** A lamp showing pure red, its colour given as an object. *)
Lemma colour_payload_gives_hue_and_sat_witness :
  exists st,
    fst (get_device_status (ExampleMore.hub_object ExampleMore.lamp_red)
           Example.plain Example.plain Example.no_json 10 false Example.anonymous)
    = Ok st
    /\ 0 <= hue st <= 65534
    /\ 0 <= sat st <= 254.
Proof.
  destruct (colour_payload_gives_hue_and_sat
              (ExampleMore.hub_object ExampleMore.lamp_red)
              Example.plain Example.plain
              Example.no_json 10 200 50 255 0 0 ExampleMore.lamp_red
              [("Status", VStr "On"); ("Level", VInt 50);
               ("Color", VDict [("r", VInt 255)])]
              [("r", VInt 255)] [] Example.anonymous
              eq_refl eq_refl eq_refl ltac:(lia) eq_refl eq_refl eq_refl eq_refl
              eq_refl ltac:(lia) ltac:(lia) ltac:(lia))
    as (st & E & _ & _ & Hh & Hs & _).
  exists st. split; [exact E|]. split; [exact Hh | exact Hs].
Defined.

End StatusMore.

(* ================================================================== *)
(** * Where a request goes: [_handle_api_get] and [_handle_api_put] *)
(* ================================================================== *)

Module RouteProps.
Import Py Registry Domoticz HueAPI Routes Observe ObserveMore PyFacts.

Lemma split_slash_nonempty (s : string) : split_slash s <> [].
Proof.
  destruct s as [|a s]; cbn [split_slash]; [discriminate|].
  destruct (Ascii.eqb a "/"); [discriminate|].
  destruct (split_slash s); discriminate.
Qed.

Lemma split_slash_plain (x : string) :
  no_slash x = true -> split_slash x = [x].
Proof.
  induction x as [|a x IH]; [reflexivity|]. cbn [no_slash split_slash].
  intros H. apply andb_true_iff in H as [Ha Hx].
  destruct (Ascii.eqb a "/"); [discriminate|]. now rewrite (IH Hx).
Qed.

Lemma split_slash_app (p s : string) :
  split_slash (p ++ String "/" s) = split_slash p ++ split_slash s.
Proof.
  induction p as [|a p IH]; [reflexivity|].
  cbn [String.append split_slash]. rewrite IH.
  destruct (Ascii.eqb a "/"); [reflexivity|].
  pose proof (split_slash_nonempty p) as N.
  destruct (split_slash p) as [|part parts]; [now elim N|reflexivity].
Qed.

Lemma split_slash_cons (x s : string) :
  no_slash x = true ->
  split_slash (x ++ String "/" s) = x :: split_slash s.
Proof.
  intros H. now rewrite split_slash_app, split_slash_plain.
Qed.

(** [split] undoes [join] on segments without a slash. *)
Lemma split_join (parts : list string) :
  parts <> [] -> forallb no_slash parts = true ->
  split_slash (join_slash parts) = parts.
Proof.
  induction parts as [|p rest IH]; [congruence|]. intros _ H.
  cbn [forallb] in H. apply andb_true_iff in H as [Hp Hrest].
  destruct rest as [|q rest]; [now apply split_slash_plain|].
  change (join_slash (p :: q :: rest))
    with (p ++ String "/" (join_slash (q :: rest)))%string.
  rewrite split_slash_cons by assumption. f_equal. now apply IH.
Qed.

(** [join] undoes [split]. *)
Lemma join_split (s : string) : join_slash (split_slash s) = s.
Proof.
  induction s as [|a s IH]; [reflexivity|]. cbn [split_slash].
  destruct (Ascii.eqb a "/") eqn:E.
  - apply Ascii.eqb_eq in E as ->.
    pose proof (split_slash_nonempty s) as N.
    destruct (split_slash s) as [|part parts] eqn:S; [now elim N|].
    change (join_slash ("" :: part :: parts))
      with ("" ++ String "/" (join_slash (part :: parts)))%string.
    now rewrite IH.
  - pose proof (split_slash_nonempty s) as N.
    destruct (split_slash s) as [|part parts] eqn:S; [now elim N|].
    destruct parts as [|q parts].
    + cbn [join_slash] in *. now rewrite IH.
    + change (join_slash (String a part :: q :: parts))
        with (String a (part ++ String "/" (join_slash (q :: parts))))%string.
      f_equal. exact IH.
Qed.

Lemma no_slash_app (a b : string) :
  no_slash (a ++ b) = no_slash a && no_slash b.
Proof.
  induction a as [|x a IH]; [reflexivity|]. cbn [String.append no_slash].
  now rewrite IH, andb_assoc.
Qed.

Lemma ends_with_plain (y x : string) :
  no_slash x = true -> ends_with (String "/" y) x = false.
Proof.
  induction x as [|a x IH]; [reflexivity|]. cbn [no_slash]. intros H.
  apply andb_true_iff in H as [Ha Hx]. cbn [ends_with].
  rewrite (IH Hx), orb_false_r. cbn [String.eqb].
  rewrite Ascii.eqb_sym. now destruct (Ascii.eqb a "/").
Qed.

(** [endswith] looks at the last segment only. *)
Lemma ends_with_last (y p x : string) :
  no_slash y = true -> no_slash x = true ->
  ends_with (String "/" y) (p ++ String "/" x) = String.eqb y x.
Proof.
  intros Hy Hx. induction p as [|a p IH].
  - cbn [String.append ends_with]. rewrite (ends_with_plain y x Hx), orb_false_r.
    reflexivity.
  - cbn [String.append]. cbn [ends_with]. rewrite IH.
    destruct (String.eqb (String "/" y) (String a (p ++ String "/" x))) eqn:E;
      [|reflexivity].
    apply String.eqb_eq in E. injection E as _ E.
    rewrite E, no_slash_app in Hy. cbn [no_slash] in Hy.
    rewrite andb_false_r in Hy. discriminate Hy.
Qed.


Lemma append_assoc (a b c : string) :
  ((a ++ b) ++ c = a ++ (b ++ c))%string.
Proof.
  induction a as [|x a IH]; [reflexivity|]. cbn [String.append]. now rewrite IH.
Qed.

Lemma join_snoc (pre : list string) (x : string) :
  pre <> [] ->
  join_slash (pre ++ [x]) = (join_slash pre ++ String "/" x)%string.
Proof.
  induction pre as [|p rest IH]; [congruence|]. intros _.
  destruct rest as [|q rest]; [reflexivity|].
  change (join_slash ((p :: q :: rest) ++ [x]))
    with (p ++ String "/" (join_slash ((q :: rest) ++ [x])))%string.
  rewrite IH by discriminate.
  change (join_slash (p :: q :: rest))
    with (p ++ String "/" (join_slash (q :: rest)))%string.
  rewrite append_assoc. reflexivity.
Qed.

(** A path ends with ["/lights"] exactly when its last segment is
    ["lights"]. *)
Lemma ends_with_join (pre : list string) (x : string) :
  pre <> [] -> no_slash x = true ->
  ends_with "/lights" (join_slash (pre ++ [x])) = String.eqb "lights" x.
Proof.
  intros Hpre Hx. rewrite join_snoc by assumption.
  now apply ends_with_last.
Qed.

Lemma neq_eqb (a b : string) : a <> b -> String.eqb a b = false.
Proof. apply String.eqb_neq. Qed.

Lemma item_after_last (x : string) (pre : list string) :
  mem x pre = false -> item_after x (pre ++ [x]) = Raise IndexError.
Proof.
  induction pre as [|p pre IH]; cbn [app item_after mem existsb].
  - now rewrite String.eqb_refl.
  - intros H. apply orb_false_iff in H as [Hp Hpre].
    rewrite String.eqb_sym, Hp. now apply IH.
Qed.

Section Handler.

Variable hub : list params -> params -> outcome.
Variable b64encode : string -> string.
Variable md5_hexdigest : string -> string.
Variable json_loads : string -> option value.
Variable json_dumps : value -> string.
Variable json_loads_bytes : string -> result value.
Variable devices : dict device.

(** Where a GET goes, for a user name and a light id without a slash.
    [/api/<user>/lights] answers with all lights; [/api/<user>] with all
    lights wrapped in an object, unless the user name is empty or is
    ["lights"]; [/api/<user>/lights/<id>] with the one light when [id] is
    registered, and with an empty object, the hub not being asked
    anything, when it is not ([id] being other than ["lights"]). *)
Theorem get_paths_reach_their_handler (user id : string) :
  let get := _handle_api_get hub b64encode md5_hexdigest json_loads devices in
  let all := _get_all_lights hub b64encode md5_hexdigest json_loads devices in
  let one := _get_light_state hub b64encode md5_hexdigest json_loads devices in
  no_slash user = true ->
  no_slash id = true ->
  get (join_slash [""; "api"; user; "lights"])
  = (lights <- all ;; ret (Lights lights))
  /\ (user <> "" -> user <> "lights" ->
      get (join_slash [""; "api"; user]) = (lights <- all ;; ret (Wrapped lights)))
  /\ (id <> "lights" ->
      get (join_slash [""; "api"; user; "lights"; id])
      = if dict_mem id devices then (l <- one id ;; ret (OneLight l))
        else ret EmptyObject)
  /\ (id <> "lights" -> dict_mem id devices = false ->
      forall c, get (join_slash [""; "api"; user; "lights"; id]) c = (Ok EmptyObject, c)).
Proof.
  intros get all one Hu Hid.
  assert (R3 : id <> "lights" ->
      get (join_slash [""; "api"; user; "lights"; id])
      = if dict_mem id devices then (l <- one id ;; ret (OneLight l))
        else ret EmptyObject).
  { intros Hne. subst get. unfold _handle_api_get.
    rewrite split_join
      by (try discriminate; cbn [forallb no_slash]; now rewrite Hu, Hid).
    pose proof (ends_with_join [""; "api"; user; "lights"] id
                  ltac:(discriminate) Hid) as E.
    cbn [app] in E. rewrite E.
    rewrite neq_eqb by congruence. cbn [orb last].
    replace (SSDP.contains "/lights/" (join_slash [""; "api"; user; "lights"; id]))
      with true; [reflexivity|].
    symmetry. apply SSDPProps.contains_occurs.
    exists ("/api/" ++ user)%string, id. reflexivity. }
  split; [|split; [|split]].
  - subst get. unfold _handle_api_get.
    pose proof (ends_with_join [""; "api"; user] "lights"
                  ltac:(discriminate) eq_refl) as E.
    cbn [app] in E. rewrite E.
    reflexivity.
  - intros Hne Hl. subst get. unfold _handle_api_get.
    rewrite split_join
      by (try discriminate; cbn [forallb no_slash]; now rewrite Hu).
    pose proof (ends_with_join [""; "api"] user ltac:(discriminate) Hu) as E.
    cbn [app] in E. rewrite E.
    rewrite neq_eqb by congruence. cbn [orb truthy].
    rewrite neq_eqb by assumption. reflexivity.
  - exact R3.
  - intros Hne Hmem c. rewrite (R3 Hne), Hmem. reflexivity.
Qed.


(** The segments of a state path, and the light they name. *)
Lemma state_path_parts (user id : string) :
  no_slash user = true -> no_slash id = true -> user <> "lights" ->
  let parts := split_slash (join_slash [""; "api"; user; "lights"; id; "state"]) in
  mem "lights" parts && mem "state" parts = true
  /\ item_after "lights" parts = Ok id.
Proof.
  intros Hu Hid Hne parts. subst parts.
  rewrite split_join
    by (try discriminate; cbn [forallb no_slash]; now rewrite Hu, Hid).
  split.
  - apply andb_true_iff. split; apply existsb_exists;
      [exists "lights" | exists "state"];
      (split; [cbn [In]; auto 10 | reflexivity]).
  - cbn [item_after String.eqb]. rewrite neq_eqb by assumption. reflexivity.
Qed.

(** [_control_light] on an empty object. *)
Lemma control_light_empty (light_id : string) (c : controller) :
  _control_light hub b64encode md5_hexdigest json_dumps devices light_id [] c
  = (Ok (match dict_get light_id devices with
         | Some _ => []
         | None => [Error "Light not found"]
         end), c).
Proof.
  unfold _control_light. destruct (dict_get light_id devices) as [device|];
    [|reflexivity].
  unfold control_on, control_color. cbn [dict_mem dict_get get get_or is_not_None orb].
  rewrite !andb_false_r. cbn [andb].
  destruct (String.eqb (type device) "rgb" && negb (is_scene device));
    reflexivity.
Qed.

(** [_control_light] on a body that is no object sends nothing. *)
Lemma control_no_object_outcome (device : device) (data : value) :
  control_no_object device data = Ok []
  \/ control_no_object device data = Raise TypeError
  \/ control_no_object device data = Raise AttributeError.
Proof.
  unfold control_no_object.
  destruct (contains_key "on" data) as [[|]|e] eqn:E1; cbn [rbind]; auto.
  - destruct (String.eqb (type device) "rgb" && negb (is_scene device)); auto.
    destruct (contains_key "bri" data) as [has_bri|e] eqn:E2; cbn [rbind].
    + destruct (String.eqb (type device) "dimmer" && has_bri
                && negb (is_scene device)); auto.
      destruct ((String.eqb (type device) "switch"
                 || String.eqb (type device) "scene") && has_bri); auto.
    + destruct data; cbn in E2; try discriminate E2; injection E2 as <-; auto.
  - destruct data; cbn in E1; try discriminate E1; injection E1 as <-; auto.
Qed.

(** A PUT to [/api/<user>/lights/<id>/state] whose body is a JSON object
    is handled by [_control_light] for that [id] and that object, and
    answers with its entries; an exception of [_control_light] leaves the
    handler.  The user name must not be ["lights"]: the light id is the
    segment after the first ["lights"]. *)
Theorem put_state_path_controls_light (user id body : string)
    (data : dict value) (c : controller) :
  let put := _handle_api_put hub b64encode md5_hexdigest json_dumps
               json_loads_bytes devices in
  no_slash user = true ->
  no_slash id = true ->
  user <> "lights" ->
  json_loads_bytes body = Ok (VDict data) ->
  put (join_slash [""; "api"; user; "lights"; id; "state"]) body c
  = match _control_light hub b64encode md5_hexdigest json_dumps devices id
            data c with
    | (Ok entries, c') => (Ok (Entries entries), c')
    | (Raise e, c') => (Raise e, c')
    end.
Proof.
  intros put Hu Hid Hne Hbody. subst put. unfold _handle_api_put.
  rewrite Hbody. unfold bind at 1, lift at 1.
  destruct (state_path_parts user id Hu Hid Hne) as [-> ->].
  unfold bind, lift, ret, control_light_value.
  now destruct (_control_light hub b64encode md5_hexdigest json_dumps devices id
                  data c) as [[entries|e] c'].
Qed.

(** A PUT that carries no JSON object never reaches the hub.  On a state
    path a body that is no JSON is handled like [{}]: the answer is the
    empty list for a registered light and the not-found error otherwise.
    A JSON body that is no object leaves the controller untouched and
    ends in the empty list, the not-found error, [TypeError] or
    [AttributeError].  Any other exception of [json.loads] leaves the
    handler.  On a path without a ["lights"] or without a ["state"]
    segment the answer is the empty list. *)
Theorem put_without_object_sends_nothing (user id path body : string)
    (c : controller) :
  let put := _handle_api_put hub b64encode md5_hexdigest json_dumps
               json_loads_bytes devices in
  let state_path := join_slash [""; "api"; user; "lights"; id; "state"] in
  no_slash user = true ->
  no_slash id = true ->
  user <> "lights" ->
  (json_loads_bytes body = Raise JSONDecodeError ->
   put state_path body c
   = (Ok (Entries (if dict_mem id devices then []
                   else [Error "Light not found"])), c))
  /\ (forall v, json_loads_bytes body = Ok v -> (forall d, v <> VDict d) ->
      snd (put state_path body c) = c
      /\ (dict_mem id devices = false ->
          fst (put state_path body c) = Ok (Entries [Error "Light not found"]))
      /\ (fst (put state_path body c) = Ok (Entries [])
          \/ fst (put state_path body c) = Ok (Entries [Error "Light not found"])
          \/ fst (put state_path body c) = Raise TypeError
          \/ fst (put state_path body c) = Raise AttributeError))
  /\ (forall e, json_loads_bytes body = Raise e -> e <> JSONDecodeError ->
      put state_path body c = (Raise e, c))
  /\ (mem "lights" (split_slash path) && mem "state" (split_slash path) = false ->
      (exists v, json_loads_bytes body = Ok v)
      \/ json_loads_bytes body = Raise JSONDecodeError ->
      put path body c = (Ok (Entries []), c)).
Proof.
  intros put state_path Hu Hid Hne. subst put state_path.
  destruct (state_path_parts user id Hu Hid Hne) as [Hmem Hitem].
  split; [|split; [|split]].
  - intros Hbody. unfold _handle_api_put. rewrite Hbody.
    unfold bind at 1, lift at 1. rewrite Hmem, Hitem.
    unfold bind, lift, ret, control_light_value.
    rewrite control_light_empty. unfold dict_mem.
    now destruct (dict_get id devices).
  - intros v Hbody Hv. unfold _handle_api_put. rewrite Hbody.
    unfold bind at 1, lift at 1. rewrite Hmem, Hitem.
    unfold bind, lift, ret, control_light_value, dict_mem.
    destruct v; try (now elim (Hv d));
      (destruct (dict_get id devices) as [device|];
       [|repeat split; auto];
       match goal with
       | |- context [control_no_object ?dv ?x] =>
           destruct (control_no_object_outcome dv x) as [-> | [-> | ->]]
       end; repeat split; auto; discriminate).
  - intros e Hbody He. unfold _handle_api_put. rewrite Hbody.
    unfold bind, lift. destruct e; try reflexivity. now elim He.
  - intros Hpath [(v & Hbody) | Hbody]; unfold _handle_api_put;
      rewrite Hbody; unfold bind at 1, lift at 1; rewrite Hpath; reflexivity.
Qed.


(** A path with a ["state"] segment whose only ["lights"] segment is its
    last one: the handler looks for the segment after ["lights"] and
    raises [IndexError]; nothing is sent to the hub. *)
Theorem put_lights_as_last_segment_raises (pre : list string) (body : string)
    (c : controller) :
  let put := _handle_api_put hub b64encode md5_hexdigest json_dumps
               json_loads_bytes devices in
  forallb no_slash pre = true ->
  mem "state" pre = true ->
  mem "lights" pre = false ->
  (exists v, json_loads_bytes body = Ok v)
  \/ json_loads_bytes body = Raise JSONDecodeError ->
  put (join_slash (pre ++ ["lights"])) body c = (Raise IndexError, c).
Proof.
  intros put Hpre Hstate Hlights Hbody. subst put. unfold _handle_api_put.
  assert (Hparts : split_slash (join_slash (pre ++ ["lights"])) = pre ++ ["lights"]).
  { apply split_join; [now destruct pre|].
    rewrite forallb_app, Hpre. reflexivity. }
  assert (Hmem : mem "lights" (pre ++ ["lights"]) && mem "state" (pre ++ ["lights"])
                 = true).
  { unfold mem in *. rewrite !existsb_app, Hstate, Hlights. reflexivity. }
  destruct Hbody as [(v & Hbody) | Hbody]; rewrite Hbody;
    unfold bind at 1, lift at 1; rewrite Hparts, Hmem;
    unfold bind at 1, lift at 1; now rewrite item_after_last.
Qed.

End Handler.

(** [GET /api/u/lights/9], no light 9. *)
Lemma get_paths_reach_their_handler_witness :
  _handle_api_get Example.hub_ok Example.plain Example.plain Example.no_json
    ExampleMore.registry "/api/u/lights/9" Example.anonymous
  = (Ok EmptyObject, Example.anonymous).
Proof.
  refine (proj2 (proj2 (proj2
            (get_paths_reach_their_handler Example.hub_ok Example.plain
               Example.plain Example.no_json ExampleMore.registry "u" "9"
               eq_refl eq_refl))) _ eq_refl Example.anonymous).
  discriminate.
Defined.

(** [PUT /api/u/lights/2/state] with [{"on": true}]. *)
Lemma put_state_path_controls_light_witness :
  fst (_handle_api_put Example.hub_ok Example.plain Example.plain Example.dumps
         ExampleMore.loads_on ExampleMore.registry "/api/u/lights/2/state"
         "{}" Example.anonymous)
  = Ok (Entries [Success "/lights/2/state/on" (VBool true)]).
Proof.
  assert (H : "u" <> "lights") by discriminate.
  pose proof (put_state_path_controls_light Example.hub_ok Example.plain
                Example.plain Example.dumps ExampleMore.loads_on
                ExampleMore.registry "u" "2" "{}" [("on", VBool true)]
                Example.anonymous eq_refl eq_refl H eq_refl) as E.
  cbn [join_slash String.append] in E. rewrite E. reflexivity.
Defined.

(** The same request with a body that is no JSON. *)
Lemma put_without_object_sends_nothing_witness :
  _handle_api_put Example.hub_ok Example.plain Example.plain Example.dumps
    ExampleMore.loads_bad ExampleMore.registry "/api/u/lights/2/state"
    "{" Example.anonymous
  = (Ok (Entries []), Example.anonymous).
Proof.
  assert (H : "u" <> "lights") by discriminate.
  exact (proj1 (put_without_object_sends_nothing Example.hub_ok Example.plain
                  Example.plain Example.dumps ExampleMore.loads_bad
                  ExampleMore.registry "u" "2" "/api" "{" Example.anonymous
                  eq_refl eq_refl H) eq_refl).
Defined.

(** [PUT /api/u/state/lights]. *)
Lemma put_lights_as_last_segment_raises_witness :
  _handle_api_put Example.hub_ok Example.plain Example.plain Example.dumps
    ExampleMore.loads_on ExampleMore.registry "/api/u/state/lights"
    "{}" Example.anonymous
  = (Raise IndexError, Example.anonymous).
Proof.
  refine (put_lights_as_last_segment_raises Example.hub_ok Example.plain
            Example.plain Example.dumps ExampleMore.loads_on
            ExampleMore.registry [""; "api"; "u"; "state"] "{}"
            Example.anonymous eq_refl eq_refl eq_refl _).
  left. eexists. reflexivity.
Defined.

End RouteProps.

(* ================================================================== *)
(** * The lights as the API shows them: [_get_light_state] and
      [_get_all_lights] *)
(* ================================================================== *)

Module LightProps.
Import Py Registry Domoticz HueAPI Routes Observe ObserveMore PyFacts DomoticzFacts.

Lemma unorm_shape (d : Decimal.uint) :
  Decimal.unorm d = Decimal.zero
  \/ match Decimal.unorm d with
     | Decimal.Nil | Decimal.D0 _ => False
     | _ => True
     end.
Proof.
  induction d; cbn [Decimal.unorm]; try (right; exact I);
    [left; reflexivity | assumption].
Qed.

(** The numeral of a positive number starts with a digit from 1 to 9. *)
Lemma to_uint_head (p : positive) :
  match Pos.to_uint p with
  | Decimal.Nil | Decimal.D0 _ => False
  | _ => True
  end.
Proof.
  assert (E : Decimal.unorm (Pos.to_uint p) = Pos.to_uint p).
  { rewrite <- DecimalPos.Unsigned.to_of, DecimalPos.Unsigned.of_to.
    reflexivity. }
  destruct (unorm_shape (Pos.to_uint p)) as [H|H]; rewrite E in H.
  - now elim (DecimalPos.Unsigned.to_uint_nonzero p).
  - exact H.
Qed.

Lemma str_head (m : Z) :
  1 <= m ->
  exists a rest,
    str m = String a rest /\ a <> "0"%char /\ a <> "+"%char /\ a <> "-"%char.
Proof.
  intros Hm. destruct m as [|p|p]; try lia. unfold str.
  cbn [Z.to_int NilZero.string_of_int]. pose proof (to_uint_head p) as H.
  unfold NilZero.string_of_uint.
  destruct (Pos.to_uint p); try now elim H;
    cbn [NilEmpty.string_of_uint]; eexists _, _;
    (split; [reflexivity|]); repeat split; discriminate.
Qed.

Lemma zfill2_inj (a b : ascii) (s t : string) :
  a <> "0"%char -> a <> "+"%char -> a <> "-"%char ->
  b <> "0"%char -> b <> "+"%char -> b <> "-"%char ->
  zfill2 (String a s) = zfill2 (String b t) -> String a s = String b t.
Proof.
  intros A0 A1 A2 B0 B1 B2. unfold zfill2.
  apply Ascii.eqb_neq in A1, A2, B1, B2. rewrite A1, A2, B1, B2. cbn [orb].
  destruct s, t; intros H; try exact H; inversion H; subst; congruence.
Qed.

Lemma length_append (a b : string) :
  String.length (a ++ b) = (String.length a + String.length b)%nat.
Proof.
  induction a as [|x a IH]; [reflexivity|]. cbn [String.append String.length].
  now rewrite IH.
Qed.

Lemma append_cancel_r (x y s : string) :
  (x ++ s)%string = (y ++ s)%string -> x = y.
Proof.
  revert y. induction x as [|a x IH]; intros [|b y] H; [reflexivity| | |].
  - apply (f_equal String.length) in H. cbn [String.append String.length] in H.
    rewrite length_append in H. lia.
  - apply (f_equal String.length) in H. cbn [String.append String.length] in H.
    rewrite length_append in H. lia.
  - cbn [String.append] in H. injection H as -> H. f_equal. now apply IH.
Qed.

(** The [uniqueid] of a light is built from its id padded to two
    characters.  Ids are the numerals of 1, 2, ...: two different ones get
    different [uniqueid]s.  (Padding alone does not tell ["1"] from
    ["01"].) *)
Theorem registered_lights_have_distinct_uniqueid (m n : Z) :
  1 <= m -> 1 <= n ->
  (uniqueid (str m) = uniqueid (str n) -> m = n)
  /\ uniqueid "1" = uniqueid "01".
Proof.
  intros Hm Hn. split; [|reflexivity]. unfold uniqueid. intros H.
  apply ControlProps.append_cancel, append_cancel_r in H.
  destruct (str_head m Hm) as (a & s & Em & A0 & A1 & A2).
  destruct (str_head n Hn) as (b & t & En & B0 & B1 & B2).
  apply str_inj. rewrite Em, En in *. now apply zfill2_inj.
Qed.


Lemma dict_get_app {A} (k : string) (a b : dict A) :
  dict_get k (a ++ b)
  = match dict_get k a with
    | Some v => Some v
    | None => dict_get k b
    end.
Proof.
  induction a as [|[k' v] a IH]; [reflexivity|]. cbn [app dict_get].
  now destruct (String.eqb k k').
Qed.

Lemma status_query_is_no_login (idx : Z) (is_scene : bool) :
  is_login (status_params idx is_scene) = false
  /\ is_status_query (status_params idx is_scene) = true.
Proof.
  now destruct is_scene.
Qed.

Lemma login_is_no_status_query (p : params) :
  is_login p = true -> is_status_query p = false.
Proof.
  unfold is_login, is_status_query, has_param, eq_str.
  destruct (get "param" p) as [| | |s| |]; try discriminate.
  intros H. apply String.eqb_eq in H. now subst s.
Qed.

(** The table of lines 486-506, read backwards. *)
Lemma hue_model_by_type (t : string) :
  (snd (hue_model t) = "hs" <-> t = "rgb")
  /\ (fst (fst (fst (hue_model t))) = "Extended color light" <-> t = "rgb")
  /\ (fst (fst (fst (hue_model t))) = "Dimmable light" <-> t = "dimmer").
Proof.
  unfold hue_model. destruct (String.eqb_spec t "rgb") as [->|R].
  - cbn. repeat split; intros H; try reflexivity; discriminate H.
  - destruct (String.eqb_spec t "dimmer") as [->|D].
    + cbn. repeat split; intros H; try reflexivity; discriminate H.
    + destruct (String.eqb t "scene"); cbn;
        repeat split; intros H; try discriminate H; congruence.
Qed.

Section Handler.

Variable hub : list params -> params -> outcome.
Variable b64encode : string -> string.
Variable md5_hexdigest : string -> string.
Variable json_loads : string -> option value.
Variable devices : dict device.

(** [_get_light_state] in one step. *)
Lemma light_state_run (light_id : string) (c : controller) :
  let device := dict_get light_id devices in
  let is_scene := match device with Some d => is_scene d | None => false end in
  let idx := match device with Some d => idx d | None => 0 end in
  let c1 := snd (_ensure_login hub b64encode md5_hexdigest c) in
  let st := decoded json_loads idx is_scene
              (hub (sent c1) (status_params idx is_scene)) in
  exists l,
    _get_light_state hub b64encode md5_hexdigest json_loads devices light_id c
    = (Ok l, with_sent c1 (sent c1 ++ [status_params idx is_scene]))
    /\ l_state l
       = {| s_on := on st; s_bri := bri st; s_hue := hue st; s_sat := sat st;
            s_effect := "none"; s_xy := (0, 0); s_ct := 500; s_alert := "none";
            s_colormode := snd (hue_model (match device with
                                           | Some d => type d
                                           | None => "switch"
                                           end));
            s_reachable := true |}
    /\ l_type l = fst (fst (fst (hue_model (match device with
                                            | Some d => type d
                                            | None => "switch"
                                            end))))
    /\ l_name l = match device with
                  | Some d => name d
                  | None => ("Light " ++ light_id)%string
                  end
    /\ l_uniqueid l = uniqueid light_id.
Proof.
  intros device is_scene idx c1 st. unfold _get_light_state.
  fold device. fold is_scene. fold idx. unfold bind at 1.
  rewrite StatusProps.get_device_status_run. fold c1. fold st.
  destruct (hue_model _) as [[[hue_type model_id] product_name] color_mode].
  eexists. split; [reflexivity|]. repeat split.
Qed.

(** [_get_light_state] on a registered light never raises and asks the
    hub one status query, for the index of the device, after the login if
    one is due.  The state holds what [get_device_status] decoded;
    [reachable] is [True] whatever the hub did, so a hub that cannot be
    reached shows as a reachable light that is off at brightness 0.  The
    name is the configured one, and the colour mode is ["hs"] and the
    type the extended colour light exactly for the capability type [rgb],
    the dimmable light exactly for [dimmer]. *)
Theorem light_state_of_registered_light (light_id : string) (device : device)
    (c : controller) :
  let c1 := snd (_ensure_login hub b64encode md5_hexdigest c) in
  let answer := hub (sent c1) (status_params (idx device) (is_scene device)) in
  let st := decoded json_loads (idx device) (is_scene device) answer in
  let run := _get_light_state hub b64encode md5_hexdigest json_loads devices
               light_id c in
  dict_get light_id devices = Some device ->
  exists l,
    fst run = Ok l
    /\ commands (requests_since c (snd run))
       = [status_params (idx device) (is_scene device)]
    /\ (s_on (l_state l), s_bri (l_state l), s_hue (l_state l), s_sat (l_state l))
       = (on st, bri st, hue st, sat st)
    /\ s_reachable (l_state l) = true
    /\ (answer = Failed ->
        s_on (l_state l) = false /\ s_bri (l_state l) = 0)
    /\ l_name l = name device
    /\ l_uniqueid l = uniqueid light_id
    /\ (s_colormode (l_state l) = "hs" <-> type device = "rgb")
    /\ (l_type l = "Extended color light" <-> type device = "rgb")
    /\ (l_type l = "Dimmable light" <-> type device = "dimmer").
Proof.
  intros c1 answer st run Hdev.
  destruct (light_state_run light_id c) as (l & E & Hstate & Htype & Hname & Hid).
  rewrite Hdev in E, Hstate, Htype, Hname. fold c1 in E.
  exists l. subst run. rewrite E. cbn [fst snd].
  split; [reflexivity|]. rewrite Hstate, Htype, Hname. cbn.
  fold c1. fold answer. fold st.
  split; [|split; [reflexivity|split; [reflexivity|split; [|split; [reflexivity|split; [exact Hid|]]]]]].
  - destruct (ControlProps.ensure_login_sends hub b64encode md5_hexdigest c)
      as (b & c' & logins & El & Sl & Ll).
    assert (Ec : c1 = c') by (subst c1; now rewrite El).
    rewrite (ControlProps.requests_since_app c _
               (logins ++ [status_params (idx device) (is_scene device)])).
    + unfold commands. rewrite filter_app.
      destruct (ControlProps.logins_filtered logins Ll) as (K & _).
      unfold commands in K. rewrite K. cbn [app filter].
      now destruct (status_query_is_no_login (idx device) (is_scene device))
        as [-> _].
    + cbn [sent with_sent]. rewrite Ec, Sl. now rewrite app_assoc.
  - intros HF. subst st. rewrite HF. split; reflexivity.
  - apply hue_model_by_type.
Qed.

(** The loop of [_get_all_lights]. *)
Lemma all_lights_from_run (keys : list string) :
  forall (acc : dict light) (c : controller),
    NoDup (map fst acc ++ keys) ->
    exists lights c' reqs,
      all_lights_from hub b64encode md5_hexdigest json_loads devices keys acc c
      = (Ok lights, c')
      /\ sent c' = sent c ++ reqs
      /\ List.length (filter is_status_query reqs) = List.length keys
      /\ map fst lights = map fst acc ++ keys
      /\ (forall id l,
            dict_get id lights = Some l ->
            dict_get id acc = Some l
            \/ (In id keys
                /\ l_uniqueid l = uniqueid id
                /\ s_reachable (l_state l) = true
                /\ l_name l = match dict_get id devices with
                              | Some d => name d
                              | None => ("Light " ++ id)%string
                              end)).
Proof.
  induction keys as [|k keys IH]; intros acc c Hnd.
  - exists acc, c, []. rewrite !app_nil_r. repeat split; auto.
  - cbn [all_lights_from]. unfold bind at 1.
    destruct (light_state_run k c) as (l & E & Hstate & _ & Hname & Hid).
    rewrite E.
    destruct (ControlProps.ensure_login_sends hub b64encode md5_hexdigest c)
      as (b & c1 & logins & El & Sl & Ll).
    rewrite El in *. cbn [snd] in *.
    set (q := status_params _ _) in *.
    set (c2 := with_sent c1 (sent c1 ++ [q])) in *.
    assert (Hfresh : ~ In k (map fst acc)).
    { intros Hin. apply NoDup_remove_2 in Hnd. apply Hnd.
      apply in_or_app. now left. }
    rewrite (dict_set_fresh k l acc Hfresh).
    destruct (IH (acc ++ [(k, l)]) c2) as (lights & c' & reqs & Er & Sr & Nr & Kr & Pr).
    { rewrite map_app. cbn [map fst]. now rewrite <- app_assoc. }
    exists lights, c', (logins ++ [q] ++ reqs). split; [exact Er|].
    split; [|split; [|split]].
    + rewrite Sr. subst c2. cbn [sent with_sent]. rewrite Sl.
      now rewrite <- !app_assoc.
    + rewrite !filter_app, !length_app.
      rewrite (DispatchProps.logins_hold_no is_status_query logins
                 login_is_no_status_query Ll).
      cbn [filter]. subst q.
      match goal with |- context [is_status_query (status_params ?i ?s)] =>
        destruct (status_query_is_no_login i s) as [_ ->] end.
      cbn [List.length]. now rewrite Nr.
    + rewrite Kr, map_app. cbn [map fst]. now rewrite <- app_assoc.
    + intros id l' Hget. destruct (Pr id l' Hget) as [H | (Hin & H)].
      * rewrite dict_get_app in H.
        destruct (dict_get id acc) as [v|]; [now left|].
        cbn [dict_get] in H. destruct (String.eqb_spec id k) as [->|Hne];
          [|discriminate H].
        injection H as <-. right. split; [now left|].
        rewrite Hstate. auto.
      * right. split; [now right|exact H].
Qed.

(** [_get_all_lights] never raises.  Its answer has the ids of the
    registry, in the order of the registry, and it costs one status query
    per registered light; every light in it carries the name of its
    device and the [uniqueid] of its id, and is reachable. *)
Theorem all_lights_one_query_each (c : controller) :
  let run := _get_all_lights hub b64encode md5_hexdigest json_loads devices c in
  NoDup (map fst devices) ->
  exists lights,
    fst run = Ok lights
    /\ map fst lights = map fst devices
    /\ List.length (filter is_status_query (requests_since c (snd run)))
       = List.length devices
    /\ (forall id l,
          dict_get id lights = Some l ->
          exists device,
            dict_get id devices = Some device
            /\ l_name l = name device
            /\ l_uniqueid l = uniqueid id
            /\ s_reachable (l_state l) = true).
Proof.
  intros run Hnd. subst run. unfold _get_all_lights.
  destruct (all_lights_from_run (map fst devices) [] c Hnd)
    as (lights & c' & reqs & E & S & N & K & P).
  exists lights. rewrite E. cbn [fst snd].
  split; [reflexivity|]. split; [exact K|]. split.
  - rewrite (ControlProps.requests_since_app c c' reqs S), N.
    apply length_map.
  - intros id l Hget. destruct (P id l Hget) as [H | (Hin & Hu & Hr & Hn)];
      [discriminate H|].
    destruct (dict_get id devices) as [device|] eqn:Ed.
    + exists device. auto.
    + exfalso. clear - Hin Ed. induction devices as [|[k v] d IH];
        [contradiction|]. cbn [map fst In] in Hin. cbn [dict_get] in Ed.
      destruct (String.eqb_spec id k) as [->|Hne]; [discriminate Ed|].
      destruct Hin as [->|Hin]; [now elim Hne|]. now apply IH.
Qed.

End Handler.

(** Lights 1 and 10. *)
Lemma registered_lights_have_distinct_uniqueid_witness :
  String.eqb (uniqueid (str 1)) (uniqueid (str 10)) = false.
Proof.
  destruct (String.eqb_spec (uniqueid (str 1)) (uniqueid (str 10))) as [H|_];
    [|reflexivity].
  pose proof (proj1 (registered_lights_have_distinct_uniqueid 1 10
                       ltac:(lia) ltac:(lia)) H) as E.
  discriminate E.
Defined.

(** The plug, the hub being down. *)
Lemma light_state_of_registered_light_witness :
  exists l,
    fst (_get_light_state ExampleMore.hub_down Example.plain Example.plain
           Example.no_json ExampleMore.registry "2" Example.anonymous)
    = Ok l
    /\ s_reachable (l_state l) = true
    /\ s_on (l_state l) = false.
Proof.
  destruct (light_state_of_registered_light ExampleMore.hub_down Example.plain
              Example.plain Example.no_json ExampleMore.registry "2"
              Example.plug Example.anonymous eq_refl)
    as (l & E & _ & _ & Hr & Hdown & _).
  exists l. split; [exact E|]. split; [exact Hr|].
  exact (proj1 (Hdown eq_refl)).
Defined.

(** The four lights of the example registry. *)
Lemma all_lights_one_query_each_witness :
  exists lights,
    fst (_get_all_lights Example.hub_ok Example.plain Example.plain
           Example.no_json ExampleMore.registry Example.anonymous)
    = Ok lights
    /\ map fst lights = ["1"; "2"; "3"; "4"].
Proof.
  assert (Hnd : NoDup (map fst ExampleMore.registry)).
  { repeat constructor; cbn; intuition discriminate. }
  destruct (all_lights_one_query_each Example.hub_ok Example.plain
              Example.plain Example.no_json ExampleMore.registry
              Example.anonymous Hnd)
    as (lights & E & K & _).
  exists lights. split; [exact E | exact K].
Defined.

End LightProps.
